(** * chat-over-kafka: the JNI binding over librdkafka (nativelib.cpp)

    A shallow embedding of the native half of the [RdKafka] Kotlin class:
    producer and consumer creation under mutual TLS, the blocking send that
    waits for the delivery report, topic subscription, polling and
    teardown.

    librdkafka and the JVM are outside the repository.  Every call into
    them is an entry of the record [Lib]: the embedding fixes what the
    binding does with the answers, never the answers themselves.  Each
    call is also appended to a trace, so that statements about ordering
    ("released before returning", "before any broker interaction") are
    statements about lists. *)

From Stdlib Require Import ZArith List String Bool Lia Permutation.
Import ListNotations.
Local Open Scope string_scope.
Local Open Scope list_scope.
Local Open Scope Z_scope.

(** ** JNI values *)

Definition jlong := Z.
Definition jint := Z.
(** A [jstring] or [jbyteArray] reference is either [nullptr] or an object. *)
Definition jstring := option string.
Definition bytes := list Byte.byte.
Definition jbyteArray := option bytes.

(** ** librdkafka values *)

(** [rd_kafka_resp_err_t]: the binding compares an error code with
    [RD_KAFKA_RESP_ERR_NO_ERROR] and [RD_KAFKA_RESP_ERR__PARTITION_EOF]
    only; every other code is carried along untouched. *)
Inductive rd_kafka_resp_err_t :=
| RD_KAFKA_RESP_ERR_NO_ERROR
| RD_KAFKA_RESP_ERR__PARTITION_EOF
| RD_KAFKA_RESP_ERR_code (code : Z).

(** [err != RD_KAFKA_RESP_ERR_NO_ERROR], also the truth value of [err]. *)
Definition is_error (e : rd_kafka_resp_err_t) : bool :=
  match e with
  | RD_KAFKA_RESP_ERR_NO_ERROR => false
  | _ => true
  end.

Definition is_partition_eof (e : rd_kafka_resp_err_t) : bool :=
  match e with
  | RD_KAFKA_RESP_ERR__PARTITION_EOF => true
  | _ => false
  end.

Inductive rd_kafka_conf_res_t :=
| RD_KAFKA_CONF_UNKNOWN
| RD_KAFKA_CONF_INVALID
| RD_KAFKA_CONF_OK.

Definition conf_ok (r : rd_kafka_conf_res_t) : bool :=
  match r with
  | RD_KAFKA_CONF_OK => true
  | _ => false
  end.

Inductive rd_kafka_type_t := RD_KAFKA_PRODUCER | RD_KAFKA_CONSUMER.

(** Modelled from the spec: rdkafka.h is not under src/;
    [RD_KAFKA_PARTITION_UA] is the "broker-assigned partition" marker of
    a partition list entry (librdkafka's header gives it the value -1). *)
Definition RD_KAFKA_PARTITION_UA : Z := -1.

(** [rd_kafka_message_t], the fields the binding reads.  [msg_private] is
    the per-message opaque: [true] when it is the address of the
    [DeliveryState] handed to the enqueue call, [false] when it is null.
    A null [key] or [payload] pointer is [None]; the lengths [key_len]
    and [len] are the lengths of the lists. *)
Record rd_kafka_message_t := {
  msg_err : rd_kafka_resp_err_t;
  msg_topic : string;
  msg_partition : Z;
  msg_offset : Z;
  msg_key : option bytes;
  msg_payload : option bytes;
  msg_private : bool
}.

(** The arguments of one [rd_kafka_producev] call.  [pv_partition] is
    [None] when no [RD_KAFKA_V_PARTITION] is passed; [pv_key] is [None]
    when no [RD_KAFKA_V_KEY] is passed. *)
Record producev_args := {
  pv_topic : string;
  pv_partition : option Z;
  pv_key : option bytes;
  pv_value : bytes;
  pv_msgflags_copy : bool;
  pv_opaque : bool
}.

(** ** The trace of calls that leave the binding *)

Inductive event :=
| GetStringUTFChars_ev (s : string)
| ReleaseStringUTFChars_ev (s : string)
| GetByteArrayElements_ev (a : bytes)
| ReleaseByteArrayElements_ev (a : bytes)
| ThrowNew_ev (msg : string)
| conf_new_ev
| conf_set_ev (name : string) (value : option string)
| conf_set_log_cb_ev
| conf_set_dr_msg_cb_ev
| conf_set_opaque_ev (rk : jlong)
| conf_destroy_ev
| new_ev (type : rd_kafka_type_t)
| producev_ev (rk : jlong) (args : producev_args)
| poll_ev (rk : jlong) (timeout_ms : Z)
| lock_ev
| unlock_ev
| wait_for_ev (ms : Z)
| topic_partition_list_new_ev
| topic_partition_list_add_ev (topic : string) (partition : Z)
| topic_partition_list_destroy_ev
| subscribe_ev (rk : jlong) (topics : list (string * Z))
| consumer_poll_ev (rk : jlong) (timeout_ms : Z)
| message_destroy_ev
| consumer_close_ev (rk : jlong)
| destroy_ev (rk : jlong).

(** [rd_kafka_conf_t]: the properties accepted so far, oldest first, the
    two callbacks and the opaque. *)
Record rd_kafka_conf_t := {
  conf_props : list (string * option string);
  conf_log_cb : bool;
  conf_dr_msg_cb : bool;
  conf_opaque : option jlong
}.

(** The state a native call threads: the calls made so far, oldest
    first, the Java exception left pending for the caller, and the
    configuration object the call has allocated and still owns ([None]
    before [rd_kafka_conf_new], after [rd_kafka_conf_destroy] and once a
    handle has taken it over). *)
Record jni_state := {
  trace : list event;
  pending : option string;
  conf : option rd_kafka_conf_t
}.

Definition init : jni_state :=
  {| trace := []; pending := None; conf := None |}.

(** ** The monad of a native call

    [None] stands for a call that has not returned within the fuel it
    was given; only the blocking sends can produce it. *)
Definition M (A : Type) : Type := jni_state -> option (A * jni_state).

Definition ret {A : Type} (a : A) : M A := fun s => Some (a, s).

Definition bind {A B : Type} (m : M A) (k : A -> M B) : M B :=
  fun s => match m s with
           | Some (a, s') => k a s'
           | None => None
           end.

Declare Scope jni_scope.
Delimit Scope jni_scope with jni.
Notation "x <- m ;; k" := (bind m (fun x => k))
  (at level 61, m at next level, right associativity) : jni_scope.
Notation "m ;; k" := (bind m (fun _ => k))
  (at level 61, right associativity) : jni_scope.
Local Open Scope jni_scope.

Definition call (e : event) : M unit :=
  fun s => Some (tt, {| trace := trace s ++ [e]; pending := pending s;
                        conf := conf s |}).

Definition set_pending (msg : string) : M unit :=
  fun s => Some (tt, {| trace := trace s; pending := Some msg;
                        conf := conf s |}).

Definition set_conf (c : option rd_kafka_conf_t) : M unit :=
  fun s => Some (tt, {| trace := trace s; pending := pending s;
                        conf := c |}).

Definition get_conf : M (option rd_kafka_conf_t) :=
  fun s => Some (conf s, s).

(** [when c m]: [if (c) m;] *)
Definition when (c : bool) (m : M unit) : M unit :=
  if c then m else ret tt.

Definition is_null {A : Type} (p : option A) : bool :=
  match p with
  | None => true
  | Some _ => false
  end.

(** ** What the binding calls into *)

Record Lib := {
  (* the JVM *)
  FindClass : string -> bool;
  GetMethodID : string -> string -> string -> bool;
  (* whether the JVM hands out the characters / the elements; a
     failure is the null pointer *)
  GetStringUTFChars_ok : string -> bool;
  GetByteArrayElements_ok : bytes -> bool;
  (* librdkafka; a rejected [rd_kafka_conf_set] and a failed
     [rd_kafka_new] fill [errstr], the second component *)
  rd_kafka_conf_set : string -> option string -> rd_kafka_conf_res_t * string;
  rd_kafka_new : rd_kafka_type_t -> rd_kafka_conf_t -> jlong * string;
  rd_kafka_producev : jlong -> producev_args -> rd_kafka_resp_err_t;
  (* the delivery reports the n-th [rd_kafka_poll] of a send serves *)
  rd_kafka_poll : jlong -> nat -> list rd_kafka_message_t;
  rd_kafka_err2str : rd_kafka_resp_err_t -> string;
  rd_kafka_subscribe : jlong -> list (string * Z) -> rd_kafka_resp_err_t;
  rd_kafka_consumer_poll : jlong -> jint -> option rd_kafka_message_t;
  (* [rd_kafka_message_errstr] returns a pointer: the characters found
     there while the message is alive ([true]) and once
     [rd_kafka_message_destroy] has freed the message ([false]).  A text
     the library keeps outside the message reads the same both times; a
     text the message holds is freed with it, and what is read then is
     not defined: the model lets it be any string *)
  rd_kafka_message_errstr : rd_kafka_message_t -> bool -> string;
  rd_kafka_consumer_close : jlong -> rd_kafka_resp_err_t
}.

Section Binding.

Variable lib : Lib.

(** [throwJavaException]: the exception is raised only when the lookup
    of [java/lang/RuntimeException] gives a class. *)
Definition throwJavaException (msg : string) : M unit :=
  if FindClass lib "java/lang/RuntimeException"
  then call (ThrowNew_ev msg) ;; set_pending msg
  else ret tt.

(** [env->GetStringUTFChars(jstr, nullptr)] *)
Definition jni_GetStringUTFChars (s : string) : M (option string) :=
  call (GetStringUTFChars_ev s) ;;
  ret (if GetStringUTFChars_ok lib s then Some s else None).

Definition jni_ReleaseStringUTFChars (s : string) : M unit :=
  call (ReleaseStringUTFChars_ev s).

Definition jni_GetByteArrayElements (a : bytes) : M (option bytes) :=
  call (GetByteArrayElements_ev a) ;;
  ret (if GetByteArrayElements_ok lib a then Some a else None).

Definition jni_ReleaseByteArrayElements (a : bytes) : M unit :=
  call (ReleaseByteArrayElements_ev a).

(** *** struct DeliveryState and delivery_report_cb *)

Record DeliveryState := {
  done : bool;
  err : rd_kafka_resp_err_t;
  partition : Z;
  offset : Z
}.

(** The member initialisers of [DeliveryState]. *)
Definition DeliveryState_new : DeliveryState :=
  {| done := false; err := RD_KAFKA_RESP_ERR_NO_ERROR;
     partition := -1; offset := -1 |}.

(** [delivery_report_cb]: a message without opaque is ignored; otherwise
    the three result fields are written, then [done] is set. *)
Definition delivery_report_cb (msg : rd_kafka_message_t)
    (state : DeliveryState) : DeliveryState :=
  if negb (msg_private msg) then state
  else
    let state' := {| done := done state; err := msg_err msg;
                     partition := msg_partition msg;
                     offset := msg_offset msg |} in
    {| done := true; err := err state';
       partition := partition state'; offset := offset state' |}.


(** One [rd_kafka_poll(producer, 100)] of a blocked send: the library
    runs the delivery callback on each report it serves. *)
Definition serve_reports (msgs : list rd_kafka_message_t)
    (state : DeliveryState) : DeliveryState :=
  fold_left (fun st m => delivery_report_cb m st) msgs state.

(** The Kotlin [RecordMetadata(partition, offset)]. *)
Record RecordMetadata := {
  rm_partition : Z;
  rm_offset : Z
}.

(** [env->NewObject(cls, ctor, partition, (jlong)offset)] at the end of a
    send; [cls] and [ctor] tell whether [FindClass] and [GetMethodID]
    gave a class and a constructor.  The sends test neither: with both
    found the call gives the object; with a null class or a null
    constructor JNI leaves the call undefined, and the model has it give
    null. *)
Definition NewObject_RecordMetadata (cls ctor : bool) (partition offset : Z)
    : option RecordMetadata :=
  if cls && ctor
  then Some {| rm_partition := partition; rm_offset := offset |}
  else None.

(** *** Configuration objects *)

Definition conf_empty : rd_kafka_conf_t :=
  {| conf_props := []; conf_log_cb := false; conf_dr_msg_cb := false;
     conf_opaque := None |}.

Definition conf_add (name : string) (value : option string)
    (c : rd_kafka_conf_t) : rd_kafka_conf_t :=
  {| conf_props := conf_props c ++ [(name, value)];
     conf_log_cb := conf_log_cb c; conf_dr_msg_cb := conf_dr_msg_cb c;
     conf_opaque := conf_opaque c |}.

Definition conf_new : M unit :=
  call conf_new_ev ;; set_conf (Some conf_empty).

(** [rd_kafka_conf_set(conf, name, value, errstr, sizeof(errstr))]: the
    property lands in the object only when the library accepts it. *)
Definition conf_set (name : string) (value : option string)
    : M (rd_kafka_conf_res_t * string) :=
  call (conf_set_ev name value) ;;
  let r := rd_kafka_conf_set lib name value in
  c <- get_conf ;;
  when (conf_ok (fst r)) (set_conf (option_map (conf_add name value) c)) ;;
  ret r.

Definition conf_set_log_cb : M unit :=
  call conf_set_log_cb_ev ;;
  c <- get_conf ;;
  set_conf (option_map (fun c =>
    {| conf_props := conf_props c; conf_log_cb := true;
       conf_dr_msg_cb := conf_dr_msg_cb c; conf_opaque := conf_opaque c |}) c).

Definition conf_set_dr_msg_cb : M unit :=
  call conf_set_dr_msg_cb_ev ;;
  c <- get_conf ;;
  set_conf (option_map (fun c =>
    {| conf_props := conf_props c; conf_log_cb := conf_log_cb c;
       conf_dr_msg_cb := true; conf_opaque := conf_opaque c |}) c).

Definition conf_set_opaque (rk : jlong) : M unit :=
  call (conf_set_opaque_ev rk) ;;
  c <- get_conf ;;
  set_conf (option_map (fun c =>
    {| conf_props := conf_props c; conf_log_cb := conf_log_cb c;
       conf_dr_msg_cb := conf_dr_msg_cb c; conf_opaque := Some rk |}) c).

Definition conf_destroy : M unit :=
  call conf_destroy_ev ;; set_conf None.

(** [rd_kafka_new(type, conf, errstr, sizeof(errstr))]: the handle takes
    the configuration object over on success only. *)
Definition kafka_new (type : rd_kafka_type_t) : M (jlong * string) :=
  call (new_ev type) ;;
  c <- get_conf ;;
  let r := rd_kafka_new lib type
             (match c with Some c => c | None => conf_empty end) in
  when (negb (fst r =? 0)) (set_conf None) ;;
  ret r.

(** *** class JniStringWrapper *)

(** The constructor: the characters are fetched for a non-null
    reference only. *)
Definition JniStringWrapper (jstr : jstring) : M (option string) :=
  match jstr with
  | Some s => jni_GetStringUTFChars s
  | None => ret None
  end.

(** The destructor: [if (m_cstr) ReleaseStringUTFChars(m_jstr, m_cstr)]. *)
Definition JniStringWrapper_dtor (jstr : jstring) (m_cstr : option string)
    : M unit :=
  match m_cstr, jstr with
  | Some _, Some s => jni_ReleaseStringUTFChars s
  | _, _ => ret tt
  end.

(** *** createConsumerMTLS *)

Definition createConsumerMTLS
    (jbrokers jgroupId jcaCertPath jclientCertPath jclientKeyPath
       joffsetStrategy : jstring) : M jlong :=
  match jbrokers with
  | None => throwJavaException "Brokers cannot be null" ;; ret 0
  | Some jbrokers =>
  match jgroupId with
  | None => throwJavaException "Group ID cannot be null" ;; ret 0
  | Some jgroupId =>
  match jcaCertPath, jclientCertPath, jclientKeyPath with
  | Some jcaCertPath, Some jclientCertPath, Some jclientKeyPath =>
      brokers <- jni_GetStringUTFChars jbrokers ;;
      groupId <- jni_GetStringUTFChars jgroupId ;;
      caCertPath <- jni_GetStringUTFChars jcaCertPath ;;
      clientCertPath <- jni_GetStringUTFChars jclientCertPath ;;
      clientKeyPath <- jni_GetStringUTFChars jclientKeyPath ;;
      offsetStrategy <-
        match joffsetStrategy with
        | Some j => jni_GetStringUTFChars j
        | None => ret (Some "latest")
        end ;;
      (* if (offsetStrategy && joffsetStrategy) Release... *)
      let release_offsetStrategy :=
        match offsetStrategy, joffsetStrategy with
        | Some _, Some j => jni_ReleaseStringUTFChars j
        | _, _ => ret tt
        end in
      match brokers, groupId, caCertPath, clientCertPath, clientKeyPath with
      | Some brokers, Some groupId, Some caCertPath, Some clientCertPath,
        Some clientKeyPath =>
          let release_all :=
            jni_ReleaseStringUTFChars jbrokers ;;
            jni_ReleaseStringUTFChars jgroupId ;;
            jni_ReleaseStringUTFChars jcaCertPath ;;
            jni_ReleaseStringUTFChars jclientCertPath ;;
            jni_ReleaseStringUTFChars jclientKeyPath ;;
            release_offsetStrategy in
          let reject (errstr : string) : M jlong :=
            release_all ;; conf_destroy ;;
            throwJavaException errstr ;; ret 0 in
          conf_new ;;
          r <- conf_set "bootstrap.servers" (Some brokers) ;;
          if negb (conf_ok (fst r)) then reject (snd r) else
          r <- conf_set "group.id" (Some groupId) ;;
          if negb (conf_ok (fst r)) then reject (snd r) else
          r <- conf_set "security.protocol" (Some "SSL") ;;
          if negb (conf_ok (fst r)) then reject (snd r) else
          r <- conf_set "ssl.ca.location" (Some caCertPath) ;;
          if negb (conf_ok (fst r)) then reject (snd r) else
          r <- conf_set "ssl.certificate.location" (Some clientCertPath) ;;
          if negb (conf_ok (fst r)) then reject (snd r) else
          r <- conf_set "ssl.key.location" (Some clientKeyPath) ;;
          if negb (conf_ok (fst r)) then reject (snd r) else
          r <- conf_set "auto.offset.reset" offsetStrategy ;;
          if negb (conf_ok (fst r)) then reject (snd r) else
          r <- kafka_new RD_KAFKA_CONSUMER ;;
          release_all ;;
          if fst r =? 0 then
            conf_destroy ;; throwJavaException (snd r) ;; ret 0
          else ret (fst r)
      | _, _, _, _, _ =>
          when (negb (is_null brokers)) (jni_ReleaseStringUTFChars jbrokers) ;;
          when (negb (is_null groupId)) (jni_ReleaseStringUTFChars jgroupId) ;;
          when (negb (is_null caCertPath))
               (jni_ReleaseStringUTFChars jcaCertPath) ;;
          when (negb (is_null clientCertPath))
               (jni_ReleaseStringUTFChars jclientCertPath) ;;
          when (negb (is_null clientKeyPath))
               (jni_ReleaseStringUTFChars jclientKeyPath) ;;
          release_offsetStrategy ;;
          throwJavaException "Failed to get strings from JNI" ;; ret 0
      end
  | _, _, _ =>
      throwJavaException "Certificate paths cannot be null" ;; ret 0
  end end end.

(** *** createConsumer *)

Definition createConsumer (jbrokers jgroupId : jstring) : M jlong :=
  match jbrokers with
  | None => throwJavaException "Brokers cannot be null" ;; ret 0
  | Some jbrokers =>
  match jgroupId with
  | None => throwJavaException "Group ID cannot be null" ;; ret 0
  | Some jgroupId =>
      brokers <- jni_GetStringUTFChars jbrokers ;;
      groupId <- jni_GetStringUTFChars jgroupId ;;
      match brokers, groupId with
      | Some brokers, Some groupId =>
          let reject (errstr : string) : M jlong :=
            jni_ReleaseStringUTFChars jbrokers ;;
            jni_ReleaseStringUTFChars jgroupId ;;
            conf_destroy ;; throwJavaException errstr ;; ret 0 in
          conf_new ;;
          r <- conf_set "bootstrap.servers" (Some brokers) ;;
          if negb (conf_ok (fst r)) then reject (snd r) else
          r <- conf_set "group.id" (Some groupId) ;;
          if negb (conf_ok (fst r)) then reject (snd r) else
          r <- kafka_new RD_KAFKA_CONSUMER ;;
          jni_ReleaseStringUTFChars jbrokers ;;
          jni_ReleaseStringUTFChars jgroupId ;;
          if fst r =? 0 then
            conf_destroy ;; throwJavaException (snd r) ;; ret 0
          else ret (fst r)
      | _, _ =>
          when (negb (is_null brokers)) (jni_ReleaseStringUTFChars jbrokers) ;;
          when (negb (is_null groupId)) (jni_ReleaseStringUTFChars jgroupId) ;;
          throwJavaException "Failed to get strings from JNI" ;; ret 0
      end
  end end.

(** *** createProducerMTLS

    The four [JniStringWrapper]s and the [unique_ptr] around the
    configuration object are destroyed at every [return], in the reverse
    order of their construction: the configuration first (unless
    [release()] has been called), then the key, the certificate, the CA
    and the brokers string. *)
Definition createProducerMTLS
    (jbrokers jcaCertPath jclientCertPath jclientKeyPath : jstring)
    : M jlong :=
  brokers <- JniStringWrapper jbrokers ;;
  caCert <- JniStringWrapper jcaCertPath ;;
  clientCert <- JniStringWrapper jclientCertPath ;;
  clientKey <- JniStringWrapper jclientKeyPath ;;
  conf_new ;;
  let wrappers_dtor :=
    JniStringWrapper_dtor jclientKeyPath clientKey ;;
    JniStringWrapper_dtor jclientCertPath clientCert ;;
    JniStringWrapper_dtor jcaCertPath caCert ;;
    JniStringWrapper_dtor jbrokers brokers in
  let reject (errstr : string) : M jlong :=
    throwJavaException errstr ;;
    conf_destroy ;; wrappers_dtor ;; ret 0 in
  r <- conf_set "bootstrap.servers" brokers ;;
  if negb (conf_ok (fst r)) then reject (snd r) else
  r <- conf_set "security.protocol" (Some "SSL") ;;
  if negb (conf_ok (fst r)) then reject (snd r) else
  r <- conf_set "ssl.ca.location" caCert ;;
  if negb (conf_ok (fst r)) then reject (snd r) else
  r <- conf_set "ssl.certificate.location" clientCert ;;
  if negb (conf_ok (fst r)) then reject (snd r) else
  r <- conf_set "ssl.key.location" clientKey ;;
  if negb (conf_ok (fst r)) then reject (snd r) else
  (* the result of this call is dropped *)
  conf_set "acks" (Some "all") ;;
  conf_set_log_cb ;;
  conf_set_dr_msg_cb ;;
  (* conf_ptr.release(): from here on no destructor frees the object *)
  r <- kafka_new RD_KAFKA_PRODUCER ;;
  if fst r =? 0 then
    throwJavaException (snd r) ;; wrappers_dtor ;; ret 0
  else
    wrappers_dtor ;; ret (fst r).

(** *** produceMessageBytes *)

(** The loop "Block until delivery" (lines 419-427); [n] counts the
    polls already made.  The [unique_lock] is taken after the poll and
    dropped at the end of the iteration or at the [break]. *)
Fixpoint produceMessageBytes_block (fuel : nat) (producer : jlong)
    (n : nat) (state : DeliveryState) : M DeliveryState :=
  match fuel with
  | O => fun _ => None
  | S fuel' =>
      call (poll_ev producer 100) ;;
      let state := serve_reports (rd_kafka_poll lib producer n) state in
      call lock_ev ;;
      if done state then
        call unlock_ev ;; ret state
      else
        call (wait_for_ev 50) ;;
        call unlock_ev ;;
        produceMessageBytes_block fuel' producer (S n) state
  end.

Definition produceMessageBytes (fuel : nat) (producerPtr : jlong)
    (jtopic : jstring) (jkey jvalue : jbyteArray)
    : M (option RecordMetadata) :=
  match producerPtr =? 0, jtopic, jvalue with
  | false, Some jtopic, Some jvalue =>
      let producer := producerPtr in
      topic <- jni_GetStringUTFChars jtopic ;;
      match topic with
      | None => throwJavaException "Failed to get topic" ;; ret None
      | Some topic =>
      value_bytes <- jni_GetByteArrayElements jvalue ;;
      match value_bytes with
      | None =>
          jni_ReleaseStringUTFChars jtopic ;;
          throwJavaException "Failed to get value bytes" ;; ret None
      | Some value_bytes =>
      let produce (key_bytes : option bytes) : M (option RecordMetadata) :=
        let state := DeliveryState_new in
        let args :=
          match key_bytes with
          | Some key_bytes =>
              {| pv_topic := topic; pv_partition := None;
                 pv_key := Some key_bytes; pv_value := value_bytes;
                 pv_msgflags_copy := true; pv_opaque := true |}
          | None =>
              {| pv_topic := topic; pv_partition := None;
                 pv_key := None; pv_value := value_bytes;
                 pv_msgflags_copy := true; pv_opaque := true |}
          end in
        call (producev_ev producer args) ;;
        let enq_err := rd_kafka_producev lib producer args in
        jni_ReleaseStringUTFChars jtopic ;;
        jni_ReleaseByteArrayElements jvalue ;;
        match key_bytes, jkey with
        | Some _, Some jkey => jni_ReleaseByteArrayElements jkey
        | _, _ => ret tt
        end ;;
        if is_error enq_err then
          throwJavaException (rd_kafka_err2str lib enq_err) ;; ret None
        else
          state <- produceMessageBytes_block fuel producer 0 state ;;
          if is_error (err state) then
            throwJavaException (rd_kafka_err2str lib (err state)) ;;
            ret None
          else
            (* "Build Kotlin RecordMetadata": neither lookup is tested *)
            let cls :=
              FindClass lib
                "org/github/cyterdan/chat_over_kafka/RecordMetadata" in
            let ctor :=
              GetMethodID lib
                "org/github/cyterdan/chat_over_kafka/RecordMetadata"
                "<init>" "(IJ)V" in
            ret (NewObject_RecordMetadata cls ctor (partition state)
                   (offset state)) in
      match jkey with
      | Some jkey' =>
          key_bytes <- jni_GetByteArrayElements jkey' ;;
          match key_bytes with
          | None =>
              jni_ReleaseStringUTFChars jtopic ;;
              jni_ReleaseByteArrayElements jvalue ;;
              throwJavaException "Failed to get key bytes" ;; ret None
          | Some key_bytes => produce (Some key_bytes)
          end
      | None => produce None
      end
      end end
  | _, _, _ => throwJavaException "Invalid arguments" ;; ret None
  end.

(** *** produceMessageBytesToPartition *)

(** The loop "Block until delivery" of the partition-targeted send
    (lines 534-542). *)
Fixpoint produceMessageBytesToPartition_block (fuel : nat)
    (producer : jlong) (n : nat) (state : DeliveryState)
    : M DeliveryState :=
  match fuel with
  | O => fun _ => None
  | S fuel' =>
      call (poll_ev producer 100) ;;
      let state := serve_reports (rd_kafka_poll lib producer n) state in
      call lock_ev ;;
      if done state then
        call unlock_ev ;; ret state
      else
        call (wait_for_ev 50) ;;
        call unlock_ev ;;
        produceMessageBytesToPartition_block fuel' producer (S n) state
  end.

Definition produceMessageBytesToPartition (fuel : nat) (producerPtr : jlong)
    (jtopic : jstring) (jpartition : jint) (jkey jvalue : jbyteArray)
    : M (option RecordMetadata) :=
  match producerPtr =? 0, jtopic, jvalue with
  | false, Some jtopic, Some jvalue =>
      let producer := producerPtr in
      topic <- jni_GetStringUTFChars jtopic ;;
      match topic with
      | None => throwJavaException "Failed to get topic" ;; ret None
      | Some topic =>
      value_bytes <- jni_GetByteArrayElements jvalue ;;
      match value_bytes with
      | None =>
          jni_ReleaseStringUTFChars jtopic ;;
          throwJavaException "Failed to get value bytes" ;; ret None
      | Some value_bytes =>
      let produce (key_bytes : option bytes) : M (option RecordMetadata) :=
        let state := DeliveryState_new in
        let args :=
          match key_bytes with
          | Some key_bytes =>
              {| pv_topic := topic; pv_partition := Some jpartition;
                 pv_key := Some key_bytes; pv_value := value_bytes;
                 pv_msgflags_copy := true; pv_opaque := true |}
          | None =>
              {| pv_topic := topic; pv_partition := Some jpartition;
                 pv_key := None; pv_value := value_bytes;
                 pv_msgflags_copy := true; pv_opaque := true |}
          end in
        call (producev_ev producer args) ;;
        let enq_err := rd_kafka_producev lib producer args in
        jni_ReleaseStringUTFChars jtopic ;;
        jni_ReleaseByteArrayElements jvalue ;;
        match key_bytes, jkey with
        | Some _, Some jkey => jni_ReleaseByteArrayElements jkey
        | _, _ => ret tt
        end ;;
        if is_error enq_err then
          throwJavaException (rd_kafka_err2str lib enq_err) ;; ret None
        else
          state <- produceMessageBytesToPartition_block fuel producer 0 state ;;
          if is_error (err state) then
            throwJavaException (rd_kafka_err2str lib (err state)) ;;
            ret None
          else
            (* "Build Kotlin RecordMetadata": neither lookup is tested *)
            let cls :=
              FindClass lib
                "org/github/cyterdan/chat_over_kafka/RecordMetadata" in
            let ctor :=
              GetMethodID lib
                "org/github/cyterdan/chat_over_kafka/RecordMetadata"
                "<init>" "(IJ)V" in
            ret (NewObject_RecordMetadata cls ctor (partition state)
                   (offset state)) in
      match jkey with
      | Some jkey' =>
          key_bytes <- jni_GetByteArrayElements jkey' ;;
          match key_bytes with
          | None =>
              jni_ReleaseStringUTFChars jtopic ;;
              jni_ReleaseByteArrayElements jvalue ;;
              throwJavaException "Failed to get key bytes" ;; ret None
          | Some key_bytes => produce (Some key_bytes)
          end
      | None => produce None
      end
      end end
  | _, _, _ => throwJavaException "Invalid arguments" ;; ret None
  end.

(** *** subscribe *)

Definition subscribe (consumerPtr : jlong) (jtopic joffsetStrategy : jstring)
    : M unit :=
  if consumerPtr =? 0 then
    throwJavaException "Consumer pointer is null"
  else
  match jtopic with
  | None => throwJavaException "Topic cannot be null"
  | Some jtopic =>
      let consumer := consumerPtr in
      topic <- jni_GetStringUTFChars jtopic ;;
      offsetStrategy <-
        match joffsetStrategy with
        | Some j => jni_GetStringUTFChars j
        | None => ret (Some "latest")
        end ;;
      let release_offsetStrategy :=
        match offsetStrategy, joffsetStrategy with
        | Some _, Some j => jni_ReleaseStringUTFChars j
        | _, _ => ret tt
        end in
      match topic with
      | None =>
          release_offsetStrategy ;;
          throwJavaException "Failed to get topic string from JNI"
      | Some topic =>
          conf_new ;;
          r <- conf_set "auto.offset.reset" offsetStrategy ;;
          if negb (conf_ok (fst r)) then
            jni_ReleaseStringUTFChars jtopic ;;
            release_offsetStrategy ;;
            conf_destroy ;;
            throwJavaException (snd r)
          else
            conf_set_opaque consumer ;;
            call topic_partition_list_new_ev ;;
            call (topic_partition_list_add_ev topic RD_KAFKA_PARTITION_UA) ;;
            let topics := [(topic, RD_KAFKA_PARTITION_UA)] in
            call (subscribe_ev consumer topics) ;;
            let err := rd_kafka_subscribe lib consumer topics in
            call topic_partition_list_destroy_ev ;;
            jni_ReleaseStringUTFChars jtopic ;;
            release_offsetStrategy ;;
            when (is_error err)
                 (throwJavaException (rd_kafka_err2str lib err))
      end
  end.

(** *** pollMessage *)

(** The Kotlin [KafkaMessage(key, value, topic, partition, offset)]; a
    [null] array is [None]. *)
Record KafkaMessage := {
  km_key : jbyteArray;
  km_value : jbyteArray;
  km_topic : string;
  km_partition : Z;
  km_offset : Z
}.

(** [if (p && p_len > 0) { arr = NewByteArray(p_len); SetByteArrayRegion }] *)
Definition copy_out (p : option bytes) : jbyteArray :=
  match p with
  | Some b => if (0 <? Z.of_nat (List.length b)) then Some b else None
  | None => None
  end.

Definition pollMessage (consumerPtr : jlong) (timeoutMs : jint)
    : M (option KafkaMessage) :=
  if consumerPtr =? 0 then
    throwJavaException "Consumer pointer is null" ;; ret None
  else
    let consumer := consumerPtr in
    call (consumer_poll_ev consumer timeoutMs) ;;
    match rd_kafka_consumer_poll lib consumer timeoutMs with
    | None => ret None
    | Some rkmessage =>
        if is_error (msg_err rkmessage) then
          if is_partition_eof (msg_err rkmessage) then
            call message_destroy_ev ;; ret None
          else
            (* [errstr] is the pointer; [ThrowNew] reads the characters
               once the message has been destroyed *)
            let errstr := rd_kafka_message_errstr lib rkmessage in
            call message_destroy_ev ;;
            throwJavaException (errstr false) ;; ret None
        else
        if negb (FindClass lib "org/github/cyterdan/chat_over_kafka/KafkaMessage")
        then
          call message_destroy_ev ;;
          throwJavaException "Failed to find KafkaMessage class" ;; ret None
        else
        if negb (GetMethodID lib
                   "org/github/cyterdan/chat_over_kafka/KafkaMessage"
                   "<init>" "([B[BLjava/lang/String;IJ)V")
        then
          call message_destroy_ev ;;
          throwJavaException "Failed to find KafkaMessage constructor" ;;
          ret None
        else
          let jkey := copy_out (msg_key rkmessage) in
          let jvalue := copy_out (msg_payload rkmessage) in
          let jtopic := msg_topic rkmessage in
          let messageObj :=
            {| km_key := jkey; km_value := jvalue; km_topic := jtopic;
               km_partition := msg_partition rkmessage;
               km_offset := msg_offset rkmessage |} in
          call message_destroy_ev ;;
          ret (Some messageObj)
    end.

(** *** closeConsumer *)

Definition closeConsumer (consumerPtr : jlong) : M unit :=
  if consumerPtr =? 0 then ret tt
  else
    let consumer := consumerPtr in
    call (consumer_close_ev consumer) ;;
    let err := rd_kafka_consumer_close lib consumer in
    (if is_error err then
       (* Log but don't throw, we're cleaning up *)
       ret tt
     else ret tt) ;;
    call (destroy_ev consumer).

End Binding.

(** ** The natives around the core

    [destroyProducer], [kafka_log_callback], [subscribeWithOffset],
    [flushProducer] and the string send [produceMessage]. *)

(** *** destroyProducer *)

Definition destroyProducer (producerPtr : jlong) : M unit :=
  if producerPtr =? 0 then ret tt
  else
    let producer := producerPtr in
    call (destroy_ev producer).

(** *** kafka_log_callback *)

(** The Android log priorities the callback chooses from. *)
Inductive android_LogPriority :=
| ANDROID_LOG_DEBUG
| ANDROID_LOG_INFO
| ANDROID_LOG_WARN
| ANDROID_LOG_ERROR.

Definition LOG_TAG : string := "librdkafka".

(** One [__android_log_print(prio, tag, fmt, ...)] call. *)
Record android_log_print := {
  log_prio : android_LogPriority;
  log_tag : string;
  log_fmt : string;
  log_args : list string
}.

(** The [switch (level)] of the callback: 0 to 3 share a branch, 4 has
    its own, 5 and 6 share one, 7 falls into [default]. *)
Definition kafka_log_callback (level : Z) (fac buf : string)
    : android_log_print :=
  let android_level :=
    if (level =? 0) || (level =? 1) || (level =? 2) || (level =? 3)
    then ANDROID_LOG_ERROR
    else if level =? 4 then ANDROID_LOG_WARN
    else if (level =? 5) || (level =? 6) then ANDROID_LOG_INFO
    else ANDROID_LOG_DEBUG in
  {| log_prio := android_level; log_tag := LOG_TAG;
     log_fmt := "[%s] %s"; log_args := [fac; buf] |}.

(** *** The calls the remaining natives add *)

(** The arguments of the [rd_kafka_producev] call of the string send.
    A null [topic], [key] or [value] pointer is [None]; the lengths are
    the ones [GetStringUTFLength] gave, whatever the pointers. *)
Record producev_str_args := {
  ps_topic : option string;
  ps_key : option (string * Z);
  ps_value : option string;
  ps_value_len : Z
}.

Inductive ext_event :=
| core_ev (e : event)
| ReleaseStringUTFChars_null_ev (s : string)
| GetStringUTFLength_ev (s : string)
| producev_str_ev (rk : jlong) (args : producev_str_args)
| assign_ev (rk : jlong) (topics : list (string * Z * Z))
| flush_ev (rk : jlong) (timeout_ms : Z).

Record ext_state := {
  ext_trace : list ext_event;
  ext_pending : option string
}.

Definition ext_init : ext_state := {| ext_trace := []; ext_pending := None |}.

Definition MX (A : Type) : Type := ext_state -> option (A * ext_state).

Definition retx {A : Type} (a : A) : MX A := fun s => Some (a, s).

Definition bindx {A B : Type} (m : MX A) (k : A -> MX B) : MX B :=
  fun s => match m s with
           | Some (a, s') => k a s'
           | None => None
           end.

Declare Scope ext_scope.
Delimit Scope ext_scope with ext.
Notation "x <- m ;; k" := (bindx m (fun x => k))
  (at level 61, m at next level, right associativity) : ext_scope.
Notation "m ;; k" := (bindx m (fun _ => k))
  (at level 61, right associativity) : ext_scope.

Definition callx (e : ext_event) : MX unit :=
  fun s => Some (tt, {| ext_trace := ext_trace s ++ [e];
                        ext_pending := ext_pending s |}).

(** A computation of the core run inside one of these natives: its
    calls are appended, its pending exception is kept. *)
Definition lift {A : Type} (m : M A) : MX A :=
  fun s =>
    match m {| trace := []; pending := ext_pending s; conf := None |} with
    | Some (a, s') =>
        Some (a, {| ext_trace := ext_trace s ++ map core_ev (trace s');
                    ext_pending := pending s' |})
    | None => None
    end.

Definition whenx (c : bool) (m : MX unit) : MX unit :=
  if c then m else retx tt.

(** What librdkafka answers to the calls above. *)
Record LibExt := {
  rd_kafka_assign : jlong -> list (string * Z * Z) -> rd_kafka_resp_err_t;
  rd_kafka_flush : jlong -> jint -> rd_kafka_resp_err_t;
  (* [rd_kafka_producev] handed a null topic or a null value *)
  rd_kafka_producev_null : jlong -> producev_str_args -> rd_kafka_resp_err_t
}.

Section Around.

Variable lib : Lib.
Variable ext : LibExt.

Local Open Scope ext_scope.

(** *** subscribeWithOffset *)

Definition subscribeWithOffset (consumerPtr : jlong) (jtopic : jstring)
    (partition : jint) (offset : jlong) : MX unit :=
  if consumerPtr =? 0 then
    lift (throwJavaException lib "Consumer pointer is null")
  else
  match jtopic with
  | None => lift (throwJavaException lib "Topic cannot be null")
  | Some jtopic =>
      let consumer := consumerPtr in
      topic <- lift (jni_GetStringUTFChars lib jtopic) ;;
      match topic with
      | None =>
          lift (throwJavaException lib "Failed to get topic string from JNI")
      | Some topic =>
          lift (call topic_partition_list_new_ev) ;;
          lift (call (topic_partition_list_add_ev topic partition)) ;;
          (* rktpar->offset = offset *)
          let topics := [(topic, partition, offset)] in
          callx (assign_ev consumer topics) ;;
          let err := rd_kafka_assign ext consumer topics in
          lift (call topic_partition_list_destroy_ev) ;;
          lift (jni_ReleaseStringUTFChars jtopic) ;;
          whenx (is_error err)
                (lift (throwJavaException lib (rd_kafka_err2str lib err)))
      end
  end.

(** *** flushProducer *)

Definition flushProducer (producerPtr : jlong) (timeoutMs : jint) : MX unit :=
  if producerPtr =? 0 then
    lift (throwJavaException lib "Producer pointer is null")
  else
    let producer := producerPtr in
    callx (flush_ev producer timeoutMs) ;;
    let err := rd_kafka_flush ext producer timeoutMs in
    whenx (is_error err)
          (lift (throwJavaException lib (rd_kafka_err2str lib err))).

(** *** produceMessage *)

(** [ReleaseStringUTFChars(jstr, cstr)], also when [cstr] is null. *)
Definition release_unchecked (jstr : string) (cstr : option string)
    : MX unit :=
  match cstr with
  | Some _ => lift (jni_ReleaseStringUTFChars jstr)
  | None => callx (ReleaseStringUTFChars_null_ev jstr)
  end.

Definition jni_GetStringUTFLength (s : string) : MX Z :=
  callx (GetStringUTFLength_ev s) ;; retx (Z.of_nat (String.length s)).

(** One [rd_kafka_producev] of the string send.  With a topic and a
    value it is the call the byte sends make, on the bytes of the
    strings. *)
Definition producev_str (producer : jlong) (args : producev_str_args)
    : rd_kafka_resp_err_t :=
  match ps_topic args, ps_value args with
  | Some topic, Some value =>
      rd_kafka_producev lib producer
        {| pv_topic := topic; pv_partition := None;
           pv_key := option_map (fun k => list_byte_of_string (fst k))
                       (ps_key args);
           pv_value := list_byte_of_string value;
           pv_msgflags_copy := true; pv_opaque := true |}
  | _, _ => rd_kafka_producev_null ext producer args
  end.

(** The loop "BLOCK until delivery report" (lines 894-901): [done] is
    read before each poll, and every poll is followed by the wait. *)
Fixpoint produceMessage_block (fuel : nat) (producer : jlong) (n : nat)
    (state : DeliveryState) : MX DeliveryState :=
  if done state then retx state
  else
    match fuel with
    | O => fun _ => None
    | S fuel' =>
        lift (call (poll_ev producer 100)) ;;
        let state := serve_reports (rd_kafka_poll lib producer n) state in
        lift (call lock_ev) ;;
        lift (call (wait_for_ev 50)) ;;
        lift (call unlock_ev) ;;
        produceMessage_block fuel' producer (S n) state
    end.

Definition produceMessage (fuel : nat) (producerPtr : jlong)
    (jtopic jkey jvalue : jstring) : MX (option RecordMetadata) :=
  match producerPtr =? 0, jtopic, jvalue with
  | false, Some jtopic, Some jvalue =>
      let producer := producerPtr in
      topic <- lift (jni_GetStringUTFChars lib jtopic) ;;
      value <- lift (jni_GetStringUTFChars lib jvalue) ;;
      key <-
        match jkey with
        | Some jkey => lift (jni_GetStringUTFChars lib jkey)
        | None => retx None
        end ;;
      value_len <- jni_GetStringUTFLength jvalue ;;
      key_len <-
        match jkey with
        | Some jkey => jni_GetStringUTFLength jkey
        | None => retx 0
        end ;;
      let state := DeliveryState_new in
      let args :=
        match key with
        | Some key =>
            {| ps_topic := topic; ps_key := Some (key, key_len);
               ps_value := value; ps_value_len := value_len |}
        | None =>
            {| ps_topic := topic; ps_key := None;
               ps_value := value; ps_value_len := value_len |}
        end in
      callx (producev_str_ev producer args) ;;
      let enq_err := producev_str producer args in
      release_unchecked jtopic topic ;;
      release_unchecked jvalue value ;;
      match key, jkey with
      | Some _, Some jkey => lift (jni_ReleaseStringUTFChars jkey)
      | _, _ => retx tt
      end ;;
      if is_error enq_err then
        lift (throwJavaException lib (rd_kafka_err2str lib enq_err)) ;;
        retx None
      else
        state <- produceMessage_block fuel producer 0 state ;;
        if is_error (err state) then
          lift (throwJavaException lib (rd_kafka_err2str lib (err state))) ;;
          retx None
        else
          (* "Construct Kotlin RecordMetadata": neither lookup is tested *)
          let cls :=
            FindClass lib
              "org/github/cyterdan/chat_over_kafka/RecordMetadata" in
          let ctor :=
            GetMethodID lib
              "org/github/cyterdan/chat_over_kafka/RecordMetadata"
              "<init>" "(IJ)V" in
          retx (NewObject_RecordMetadata cls ctor (partition state)
                  (offset state))
  | _, _, _ =>
      lift (throwJavaException lib "Invalid arguments") ;; retx None
  end.

End Around.

(** ** Sample environments

    Concrete answers of the library and the JVM, used to run the
    binding on explicit inputs. *)

Definition err2str_sample (e : rd_kafka_resp_err_t) : string :=
  match e with
  | RD_KAFKA_RESP_ERR_NO_ERROR => "Success"
  | RD_KAFKA_RESP_ERR__PARTITION_EOF => "Broker: No more messages"
  | RD_KAFKA_RESP_ERR_code _ => "Local: Message timed out"
  end.

(** The report of a message stored at partition 3, offset 42. *)
Definition report_ok : rd_kafka_message_t :=
  {| msg_err := RD_KAFKA_RESP_ERR_NO_ERROR; msg_topic := "chat";
     msg_partition := 3; msg_offset := 42;
     msg_key := None; msg_payload := Some [Byte.x78];
     msg_private := true |}.

(** The report of a message the broker gave up on. *)
Definition report_failed : rd_kafka_message_t :=
  {| msg_err := RD_KAFKA_RESP_ERR_code (-192); msg_topic := "chat";
     msg_partition := 3; msg_offset := -1001;
     msg_key := None; msg_payload := Some [Byte.x78];
     msg_private := true |}.

(** Everything succeeds; the delivery report arrives with the third
    poll of a send; the consumer has nothing to read. *)
Definition lib_ok : Lib :=
  {| FindClass := fun _ => true;
     GetMethodID := fun _ _ _ => true;
     GetStringUTFChars_ok := fun _ => true;
     GetByteArrayElements_ok := fun _ => true;
     rd_kafka_conf_set := fun _ _ => (RD_KAFKA_CONF_OK, "");
     rd_kafka_new := fun _ _ => (4096, "");
     rd_kafka_producev := fun _ _ => RD_KAFKA_RESP_ERR_NO_ERROR;
     rd_kafka_poll := fun _ n =>
       match n with
       | 2%nat => [report_ok]
       | _ => []
       end;
     rd_kafka_err2str := err2str_sample;
     rd_kafka_subscribe := fun _ _ => RD_KAFKA_RESP_ERR_NO_ERROR;
     rd_kafka_consumer_poll := fun _ _ => None;
     rd_kafka_message_errstr := fun m _ => err2str_sample (msg_err m);
     rd_kafka_consumer_close := fun _ => RD_KAFKA_RESP_ERR_NO_ERROR |}.

Definition with_conf_set
    (f : string -> option string -> rd_kafka_conf_res_t * string)
    (l : Lib) : Lib :=
  {| FindClass := FindClass l; GetMethodID := GetMethodID l;
     GetStringUTFChars_ok := GetStringUTFChars_ok l;
     GetByteArrayElements_ok := GetByteArrayElements_ok l;
     rd_kafka_conf_set := f;
     rd_kafka_new := rd_kafka_new l;
     rd_kafka_producev := rd_kafka_producev l;
     rd_kafka_poll := rd_kafka_poll l;
     rd_kafka_err2str := rd_kafka_err2str l;
     rd_kafka_subscribe := rd_kafka_subscribe l;
     rd_kafka_consumer_poll := rd_kafka_consumer_poll l;
     rd_kafka_message_errstr := rd_kafka_message_errstr l;
     rd_kafka_consumer_close := rd_kafka_consumer_close l |}.

Definition with_producev
    (f : jlong -> producev_args -> rd_kafka_resp_err_t) (l : Lib) : Lib :=
  {| FindClass := FindClass l; GetMethodID := GetMethodID l;
     GetStringUTFChars_ok := GetStringUTFChars_ok l;
     GetByteArrayElements_ok := GetByteArrayElements_ok l;
     rd_kafka_conf_set := rd_kafka_conf_set l;
     rd_kafka_new := rd_kafka_new l;
     rd_kafka_producev := f;
     rd_kafka_poll := rd_kafka_poll l;
     rd_kafka_err2str := rd_kafka_err2str l;
     rd_kafka_subscribe := rd_kafka_subscribe l;
     rd_kafka_consumer_poll := rd_kafka_consumer_poll l;
     rd_kafka_message_errstr := rd_kafka_message_errstr l;
     rd_kafka_consumer_close := rd_kafka_consumer_close l |}.

Definition with_poll (f : jlong -> nat -> list rd_kafka_message_t)
    (l : Lib) : Lib :=
  {| FindClass := FindClass l; GetMethodID := GetMethodID l;
     GetStringUTFChars_ok := GetStringUTFChars_ok l;
     GetByteArrayElements_ok := GetByteArrayElements_ok l;
     rd_kafka_conf_set := rd_kafka_conf_set l;
     rd_kafka_new := rd_kafka_new l;
     rd_kafka_producev := rd_kafka_producev l;
     rd_kafka_poll := f;
     rd_kafka_err2str := rd_kafka_err2str l;
     rd_kafka_subscribe := rd_kafka_subscribe l;
     rd_kafka_consumer_poll := rd_kafka_consumer_poll l;
     rd_kafka_message_errstr := rd_kafka_message_errstr l;
     rd_kafka_consumer_close := rd_kafka_consumer_close l |}.

Definition with_consumer_poll
    (f : jlong -> jint -> option rd_kafka_message_t) (l : Lib) : Lib :=
  {| FindClass := FindClass l; GetMethodID := GetMethodID l;
     GetStringUTFChars_ok := GetStringUTFChars_ok l;
     GetByteArrayElements_ok := GetByteArrayElements_ok l;
     rd_kafka_conf_set := rd_kafka_conf_set l;
     rd_kafka_new := rd_kafka_new l;
     rd_kafka_producev := rd_kafka_producev l;
     rd_kafka_poll := rd_kafka_poll l;
     rd_kafka_err2str := rd_kafka_err2str l;
     rd_kafka_subscribe := rd_kafka_subscribe l;
     rd_kafka_consumer_poll := f;
     rd_kafka_message_errstr := rd_kafka_message_errstr l;
     rd_kafka_consumer_close := rd_kafka_consumer_close l |}.

Definition with_consumer_close (f : jlong -> rd_kafka_resp_err_t)
    (l : Lib) : Lib :=
  {| FindClass := FindClass l; GetMethodID := GetMethodID l;
     GetStringUTFChars_ok := GetStringUTFChars_ok l;
     GetByteArrayElements_ok := GetByteArrayElements_ok l;
     rd_kafka_conf_set := rd_kafka_conf_set l;
     rd_kafka_new := rd_kafka_new l;
     rd_kafka_producev := rd_kafka_producev l;
     rd_kafka_poll := rd_kafka_poll l;
     rd_kafka_err2str := rd_kafka_err2str l;
     rd_kafka_subscribe := rd_kafka_subscribe l;
     rd_kafka_consumer_poll := rd_kafka_consumer_poll l;
     rd_kafka_message_errstr := rd_kafka_message_errstr l;
     rd_kafka_consumer_close := f |}.

(** The library refuses the property [name] and accepts the others. *)
Definition reject_property (name : string)
    : string -> option string -> rd_kafka_conf_res_t * string :=
  fun n _ =>
    if String.eqb n name
    then (RD_KAFKA_CONF_UNKNOWN,
          "No such configuration property: " ++ name)%string
    else (RD_KAFKA_CONF_OK, "").

(** The enqueue call is refused (queue full). *)
Definition lib_enqueue_refused : Lib :=
  with_producev (fun _ _ => RD_KAFKA_RESP_ERR_code (-184)) lib_ok.

(** The delivery report of the second poll carries an error. *)
Definition lib_delivery_failed : Lib :=
  with_poll (fun _ n => match n with
                        | 1%nat => [report_failed]
                        | _ => []
                        end) lib_ok.

(** The library does not know the property [acks]. *)
Definition lib_acks_rejected : Lib :=
  with_conf_set (reject_property "acks") lib_ok.

(** The library rejects the CA location. *)
Definition lib_ca_rejected : Lib :=
  with_conf_set (reject_property "ssl.ca.location") lib_ok.

(** What [rd_kafka_consumer_poll] hands out at the end of a partition. *)
Definition eof_message : rd_kafka_message_t :=
  {| msg_err := RD_KAFKA_RESP_ERR__PARTITION_EOF; msg_topic := "chat";
     msg_partition := 0; msg_offset := 17;
     msg_key := None; msg_payload := None; msg_private := false |}.


(** A failed fetch. *)
Definition error_message : rd_kafka_message_t :=
  {| msg_err := RD_KAFKA_RESP_ERR_code (-195); msg_topic := "chat";
     msg_partition := 0; msg_offset := 0;
     msg_key := None; msg_payload := None; msg_private := false |}.


(** A failed fetch whose text the library keeps in the message itself:
    once the message is destroyed the pointer dangles, and the sample
    has the freed memory read as the empty string. *)
Definition lib_fetch_error_in_message : Lib :=
  {| FindClass := FindClass lib_ok; GetMethodID := GetMethodID lib_ok;
     GetStringUTFChars_ok := GetStringUTFChars_ok lib_ok;
     GetByteArrayElements_ok := GetByteArrayElements_ok lib_ok;
     rd_kafka_conf_set := rd_kafka_conf_set lib_ok;
     rd_kafka_new := rd_kafka_new lib_ok;
     rd_kafka_producev := rd_kafka_producev lib_ok;
     rd_kafka_poll := rd_kafka_poll lib_ok;
     rd_kafka_err2str := rd_kafka_err2str lib_ok;
     rd_kafka_subscribe := rd_kafka_subscribe lib_ok;
     rd_kafka_consumer_poll := fun _ _ => Some error_message;
     rd_kafka_message_errstr := fun _ alive =>
       if alive then "Fetch from broker 2 failed" else "";
     rd_kafka_consumer_close := rd_kafka_consumer_close lib_ok |}.



(** A message whose key and value are present and zero bytes long. *)
Definition empty_message : rd_kafka_message_t :=
  {| msg_err := RD_KAFKA_RESP_ERR_NO_ERROR; msg_topic := "chat";
     msg_partition := 1; msg_offset := 6;
     msg_key := Some []; msg_payload := Some [];
     msg_private := false |}.

Definition lib_empty_message : Lib :=
  with_consumer_poll (fun _ _ => Some empty_message) lib_ok.

(** The broker-side close of the consumer fails. *)
Definition lib_close_fails : Lib :=
  with_consumer_close (fun _ => RD_KAFKA_RESP_ERR_code (-185)) lib_ok.

(** The calls of the natives around the core succeed. *)
Definition ext_ok : LibExt :=
  {| rd_kafka_assign := fun _ _ => RD_KAFKA_RESP_ERR_NO_ERROR;
     rd_kafka_flush := fun _ _ => RD_KAFKA_RESP_ERR_NO_ERROR;
     rd_kafka_producev_null := fun _ _ => RD_KAFKA_RESP_ERR_code (-186) |}.

(** The assignment is refused and the flush times out. *)
Definition ext_failing : LibExt :=
  {| rd_kafka_assign := fun _ _ => RD_KAFKA_RESP_ERR_code (-186);
     rd_kafka_flush := fun _ _ => RD_KAFKA_RESP_ERR_code (-185);
     rd_kafka_producev_null := fun _ _ => RD_KAFKA_RESP_ERR_code (-186) |}.

(** The library never serves a report to the waiter of a send. *)
Definition lib_silent : Lib := with_poll (fun _ _ => []) lib_ok.

(** Creating the handle fails. *)
Definition lib_new_fails : Lib :=
  {| FindClass := FindClass lib_ok; GetMethodID := GetMethodID lib_ok;
     GetStringUTFChars_ok := GetStringUTFChars_ok lib_ok;
     GetByteArrayElements_ok := GetByteArrayElements_ok lib_ok;
     rd_kafka_conf_set := rd_kafka_conf_set lib_ok;
     rd_kafka_new := fun _ _ => (0, "Failed to create thread");
     rd_kafka_producev := rd_kafka_producev lib_ok;
     rd_kafka_poll := rd_kafka_poll lib_ok;
     rd_kafka_err2str := rd_kafka_err2str lib_ok;
     rd_kafka_subscribe := rd_kafka_subscribe lib_ok;
     rd_kafka_consumer_poll := rd_kafka_consumer_poll lib_ok;
     rd_kafka_message_errstr := rd_kafka_message_errstr lib_ok;
     rd_kafka_consumer_close := rd_kafka_consumer_close lib_ok |}.

(** The JVM cannot hand out the characters of the string "chat". *)
Definition lib_topic_unavailable : Lib :=
  {| FindClass := FindClass lib_ok; GetMethodID := GetMethodID lib_ok;
     GetStringUTFChars_ok := fun str => negb (String.eqb str "chat");
     GetByteArrayElements_ok := GetByteArrayElements_ok lib_ok;
     rd_kafka_conf_set := rd_kafka_conf_set lib_ok;
     rd_kafka_new := rd_kafka_new lib_ok;
     rd_kafka_producev := rd_kafka_producev lib_ok;
     rd_kafka_poll := rd_kafka_poll lib_ok;
     rd_kafka_err2str := rd_kafka_err2str lib_ok;
     rd_kafka_subscribe := rd_kafka_subscribe lib_ok;
     rd_kafka_consumer_poll := rd_kafka_consumer_poll lib_ok;
     rd_kafka_message_errstr := rd_kafka_message_errstr lib_ok;
     rd_kafka_consumer_close := rd_kafka_consumer_close lib_ok |}.

(** The library refuses the value given for [auto.offset.reset]. *)
Definition lib_offset_reset_rejected : Lib :=
  with_conf_set (reject_property "auto.offset.reset") lib_ok.

(** The library refuses the group id. *)
Definition lib_group_rejected : Lib :=
  with_conf_set (reject_property "group.id") lib_ok.

(** The values android/log.h gives the four priorities. *)
Definition android_priority_value (p : android_LogPriority) : Z :=
  match p with
  | ANDROID_LOG_DEBUG => 3
  | ANDROID_LOG_INFO => 4
  | ANDROID_LOG_WARN => 5
  | ANDROID_LOG_ERROR => 6
  end.

(** ** Vocabulary of the statements *)

(** The waiter once the polls [n], ..., [n + k] of a send have run their
    delivery callbacks on [state]. *)
Fixpoint waiter_from (lib : Lib) (producer : jlong) (state : DeliveryState)
    (n k : nat) : DeliveryState :=
  let state' := serve_reports (rd_kafka_poll lib producer n) state in
  match k with
  | O => state'
  | S k' => waiter_from lib producer state' (S n) k'
  end.

(** The waiter of a send after its first [k + 1] polls. *)
Definition waiter_after (lib : Lib) (producer : jlong) (k : nat)
    : DeliveryState :=
  waiter_from lib producer DeliveryState_new 0 k.

(** The calls of a blocked send that sees [done] at its poll number [k]. *)
Fixpoint block_trace (producer : jlong) (k : nat) : list event :=
  match k with
  | O => [poll_ev producer 100; lock_ev; unlock_ev]
  | S k' =>
      [poll_ev producer 100; lock_ev; wait_for_ev 50; unlock_ev]
        ++ block_trace producer k'
  end.

(** What a send hands to [rd_kafka_producev]. *)
Definition send_args (topic : string) (partition : option Z)
    (key : jbyteArray) (value : bytes) : producev_args :=
  {| pv_topic := topic; pv_partition := partition; pv_key := key;
     pv_value := value; pv_msgflags_copy := true; pv_opaque := true |}.

(** The calls of a send up to and including the release of its
    arguments. *)
Definition enqueue_trace (producer : jlong) (topic : string)
    (partition : option Z) (key : jbyteArray) (value : bytes) : list event :=
  [GetStringUTFChars_ev topic; GetByteArrayElements_ev value]
    ++ match key with
       | Some k => [GetByteArrayElements_ev k]
       | None => []
       end
    ++ [producev_ev producer (send_args topic partition key value);
        ReleaseStringUTFChars_ev topic; ReleaseByteArrayElements_ev value]
    ++ match key with
       | Some k => [ReleaseByteArrayElements_ev k]
       | None => []
       end.

(** A call that operates on the handle [rk]. *)
Definition on_handle (rk : jlong) (e : event) : bool :=
  match e with
  | producev_ev rk' _ | poll_ev rk' _ | subscribe_ev rk' _
  | consumer_poll_ev rk' _ | consumer_close_ev rk' | destroy_ev rk' =>
      rk' =? rk
  | _ => false
  end.

Definition handle_calls (rk : jlong) (t : list event) : list event :=
  filter (on_handle rk) t.

(** What the caller of [pollMessage] can observe: the returned object
    and the pending exception. *)
Definition observed {A : Type} (r : option (A * jni_state))
    : option (A * option string) :=
  match r with
  | Some (a, s) => Some (a, pending s)
  | None => None
  end.


(** The enqueue arguments with the explicit partition [p]. *)
Definition at_partition (p : Z) (a : producev_args) : producev_args :=
  {| pv_topic := pv_topic a; pv_partition := Some p; pv_key := pv_key a;
     pv_value := pv_value a; pv_msgflags_copy := pv_msgflags_copy a;
     pv_opaque := pv_opaque a |}.

Definition event_at_partition (p : Z) (e : event) : event :=
  match e with
  | producev_ev rk a => producev_ev rk (at_partition p a)
  | e => e
  end.

Definition state_at_partition (p : Z) (s : jni_state) : jni_state :=
  {| trace := map (event_at_partition p) (trace s);
     pending := pending s; conf := conf s |}.

(** The library as a send without [RD_KAFKA_V_PARTITION] has to see it
    for its enqueue call to be answered as the one at partition [p]. *)
Definition lib_at_partition (p : Z) (l : Lib) : Lib :=
  with_producev (fun rk a => rd_kafka_producev l rk (at_partition p a)) l.

(** The outcome of a send stopped by its argument check: null, the
    exception "Invalid arguments" pending, and no other call made. *)
Definition invalid_arguments : option (option RecordMetadata * jni_state) :=
  Some (None,
        {| trace := [ThrowNew_ev "Invalid arguments"];
           pending := Some "Invalid arguments"; conf := None |}).

(** A pointer to zero bytes and a null pointer are both copied out as
    null. *)
Definition absent_if_empty (p : option bytes) : jbyteArray :=
  match p with
  | Some (b :: bs) => Some (b :: bs)
  | _ => None
  end.

(** The outcome of [createConsumerMTLS] stopped by its check of the
    three certificate paths. *)
Definition certificate_paths_null : option (jlong * jni_state) :=
  Some (0,
        {| trace := [ThrowNew_ev "Certificate paths cannot be null"];
           pending := Some "Certificate paths cannot be null";
           conf := None |}).

(** The first call a native call has made, if any. *)
Definition first_call {A : Type} (r : option (A * jni_state))
    : option event :=
  match r with
  | Some (_, s) => hd_error (trace s)
  | None => None
  end.

(** A computation that returns from every state and only adds calls to
    the trace. *)
Definition appends {A : Type} (m : M A) : Prop :=
  forall s, exists a s', m s = Some (a, s') /\ exists t, trace s' = trace s ++ t.

(** The characters a [JniStringWrapper] holds for the reference [j]. *)
Definition wrapper_cstr (lib : Lib) (j : jstring) : option string :=
  match j with
  | Some str => if GetStringUTFChars_ok lib str then Some str else None
  | None => None
  end.

(** The calls of the constructor and of the destructor of the
    [JniStringWrapper] around [j]. *)
Definition wrapper_ctor_calls (j : jstring) : list event :=
  match j with
  | Some str => [GetStringUTFChars_ev str]
  | None => []
  end.

Definition wrapper_dtor_calls (lib : Lib) (j : jstring) : list event :=
  match wrapper_cstr lib j with
  | Some str => [ReleaseStringUTFChars_ev str]
  | None => []
  end.

(** The properties [createProducerMTLS] sets and tests, in order. *)
Definition producer_checked_props (lib : Lib)
    (jbrokers jcaCertPath jclientCertPath jclientKeyPath : jstring)
    : list (string * option string) :=
  [("bootstrap.servers", wrapper_cstr lib jbrokers);
   ("security.protocol", Some "SSL");
   ("ssl.ca.location", wrapper_cstr lib jcaCertPath);
   ("ssl.certificate.location", wrapper_cstr lib jclientCertPath);
   ("ssl.key.location", wrapper_cstr lib jclientKeyPath)].

Definition accepted (lib : Lib) (nv : string * option string) : Prop :=
  conf_ok (fst (rd_kafka_conf_set lib (fst nv) (snd nv))) = true.

(** No [rd_kafka_poll] of a trace runs between a [lock] and its
    [unlock]; [held] tells whether the lock is held on entry. *)
Fixpoint polls_unlocked (held : bool) (t : list event) : bool :=
  match t with
  | [] => true
  | lock_ev :: t' => polls_unlocked true t'
  | unlock_ev :: t' => polls_unlocked false t'
  | poll_ev _ _ :: t' => negb held && polls_unlocked held t'
  | _ :: t' => polls_unlocked held t'
  end.

(** The state of a native call of the core that has raised [msg] and
    done nothing else. *)
Definition thrown (msg : string) : jni_state :=
  {| trace := [ThrowNew_ev msg]; pending := Some msg; conf := None |}.

Definition thrownx (msg : string) : ext_state :=
  {| ext_trace := [core_ev (ThrowNew_ev msg)]; ext_pending := Some msg |}.

(** What the caller of a native around the core can observe. *)
Definition observedx {A : Type} (r : option (A * ext_state))
    : option (A * option string) :=
  match r with
  | Some (a, s) => Some (a, ext_pending s)
  | None => None
  end.

(** The exception a native leaves when the library answers [e]. *)
Definition raised_for (lib : Lib) (e : rd_kafka_resp_err_t) : option string :=
  if is_error e then Some (rd_kafka_err2str lib e) else None.

(** A JNI buffer: the characters of a string or the elements of an
    array. *)
Inductive jni_buffer :=
| chars_of (s : string)
| elements_of (a : bytes).

(** The buffers a trace was handed by the JVM, and the buffers it gave
    back, oldest first. *)
Fixpoint jni_acquired (lib : Lib) (t : list event) : list jni_buffer :=
  match t with
  | [] => []
  | GetStringUTFChars_ev s :: t' =>
      if GetStringUTFChars_ok lib s
      then chars_of s :: jni_acquired lib t' else jni_acquired lib t'
  | GetByteArrayElements_ev a :: t' =>
      if GetByteArrayElements_ok lib a
      then elements_of a :: jni_acquired lib t' else jni_acquired lib t'
  | _ :: t' => jni_acquired lib t'
  end.

Fixpoint jni_released (t : list event) : list jni_buffer :=
  match t with
  | [] => []
  | ReleaseStringUTFChars_ev s :: t' => chars_of s :: jni_released t'
  | ReleaseByteArrayElements_ev a :: t' => elements_of a :: jni_released t'
  | _ :: t' => jni_released t'
  end.



(** No poll of the send ever serves a report that carries its waiter. *)
Definition never_reported (lib : Lib) (producer : jlong) : Prop :=
  forall (n : nat) (m : rd_kafka_message_t),
    In m (rd_kafka_poll lib producer n) -> msg_private m = false.

(** The properties [createConsumerMTLS] sets and tests, in order, once
    its strings are fetched; [offsetStrategy] is what the policy string
    gave: "latest" for a null reference, null for a failed fetch. *)
Definition consumer_checked_props (brokers groupId caCertPath
    clientCertPath clientKeyPath : string) (offsetStrategy : option string)
    : list (string * option string) :=
  [("bootstrap.servers", Some brokers);
   ("group.id", Some groupId);
   ("security.protocol", Some "SSL");
   ("ssl.ca.location", Some caCertPath);
   ("ssl.certificate.location", Some clientCertPath);
   ("ssl.key.location", Some clientKeyPath);
   ("auto.offset.reset", offsetStrategy)].

Definition offset_strategy_cstr (lib : Lib) (joffsetStrategy : jstring)
    : option string :=
  match joffsetStrategy with
  | Some j => wrapper_cstr lib (Some j)
  | None => Some "latest"
  end.

(** A call that neither polls nor touches the waiter's lock. *)
Definition lock_neutral (e : event) : bool :=
  match e with
  | poll_ev _ _ | lock_ev | unlock_ev => false
  | _ => true
  end.

(** The two facts about the state of a creation that decide how it may
    end: whether an exception is pending ([p]) and whether the call
    still owns a configuration object ([o]). *)
Definition in_state (p o : bool) (s : jni_state) : Prop :=
  is_null (pending s) = negb p /\ is_null (conf s) = negb o.

(** How a creation may end: the handle is null exactly when an
    exception is pending, and no configuration object is left with the
    call, unless [leak_ok] allows it beside a null handle. *)
Definition created_ok (leak_ok : bool) (r : jlong) (s : jni_state) : Prop :=
  (r = 0 <-> pending s <> None)
  /\ (conf s = None \/ (leak_ok = true /\ r = 0)).

(** [m] returns from every state described by [p], [o], in a state
    described by [p'], [o']. *)
Definition steps {A : Type} (m : M A) (p o p' o' : bool) : Prop :=
  forall s, in_state p o s ->
    exists a s', m s = Some (a, s') /\ in_state p' o' s'.

Definition ends_well (leak_ok p o : bool) (m : M jlong) : Prop :=
  forall s, in_state p o s ->
    exists r s', m s = Some (r, s') /\ created_ok leak_ok r s'.

(** The buffers handed out so far are the ones given back plus [out]. *)
Definition in_bal (lib : Lib) (out : list jni_buffer) (s : jni_state)
    : Prop :=
  Permutation (jni_acquired lib (trace s)) (jni_released (trace s) ++ out).

(** Whenever [m] returns from a state with [out] outstanding, [out']
    is outstanding. *)
Definition moves_bal {A : Type} (lib : Lib) (m : M A)
    (out out' : list jni_buffer) : Prop :=
  forall s a s', in_bal lib out s -> m s = Some (a, s') -> in_bal lib out' s'.

Definition keeps_bal {A : Type} (lib : Lib) (out : list jni_buffer)
    (m : M A) : Prop :=
  moves_bal lib m out [].

(** A call that neither hands out nor takes back a JNI buffer. *)
Definition jni_neutral (e : event) : bool :=
  match e with
  | GetStringUTFChars_ev _ | ReleaseStringUTFChars_ev _
  | GetByteArrayElements_ev _ | ReleaseByteArrayElements_ev _ => false
  | _ => true
  end.

(** Every buffer the JVM handed out during the trace of [s] was given
    back, and nothing else was. *)
Definition balanced (lib : Lib) (s : jni_state) : Prop :=
  Permutation (jni_acquired lib (trace s)) (jni_released (trace s)).

(** Whether the waiter's lock is held after a trace, [held] telling
    whether it was held before. *)
Fixpoint lock_held (held : bool) (t : list event) : bool :=
  match t with
  | [] => held
  | lock_ev :: t' => lock_held true t'
  | unlock_ev :: t' => lock_held false t'
  | _ :: t' => lock_held held t'
  end.

(** So far no poll ran under the lock, and the lock is held iff [h]. *)
Definition in_lock (h : bool) (s : jni_state) : Prop :=
  polls_unlocked false (trace s) = true /\ lock_held false (trace s) = h.

Definition moves_lock {A : Type} (m : M A) (h h' : bool) : Prop :=
  forall s a s', in_lock h s -> m s = Some (a, s') -> in_lock h' s'.

(** ** The blocking loop *)

Lemma produceMessageBytes_block_returns (lib : Lib) (producer : jlong) :
  forall (k fuel n : nat) (state : DeliveryState) (s : jni_state),
    (k < fuel)%nat ->
    (forall j, (j < k)%nat ->
       done (waiter_from lib producer state n j) = false) ->
    done (waiter_from lib producer state n k) = true ->
    produceMessageBytes_block lib fuel producer n state s =
      Some (waiter_from lib producer state n k,
            {| trace := trace s ++ block_trace producer k;
               pending := pending s; conf := conf s |}).
Proof.
  induction k as [|k IH]; intros fuel n state s Hfuel Hbefore Hdone;
    (destruct fuel as [|fuel]; [lia|]); cbn in *.
  - unfold bind, call; cbn. rewrite Hdone. cbn.
    rewrite <- !app_assoc. reflexivity.
  - unfold bind, call; cbn.
    pose proof (Hbefore 0%nat ltac:(lia)) as H0. cbn in H0. rewrite H0.
    cbn. rewrite IH; try lia; try assumption.
    + cbn. rewrite <- !app_assoc. reflexivity.
    + intros j Hj. apply (Hbefore (S j)). lia.
Qed.

Lemma produceMessageBytesToPartition_block_eq (lib : Lib) (producer : jlong) :
  forall (fuel n : nat) (state : DeliveryState) (s : jni_state),
    produceMessageBytesToPartition_block lib fuel producer n state s =
    produceMessageBytes_block lib fuel producer n state s.
Proof.
  induction fuel as [|fuel IH]; intros n state s; cbn; [reflexivity|].
  unfold bind, call; cbn.
  destruct (done (serve_reports (rd_kafka_poll lib producer n) state));
    cbn; [reflexivity|]. apply IH.
Qed.

(** The delivery callback never resets [done]. *)
Lemma serve_reports_keeps_done (msgs : list rd_kafka_message_t) :
  forall state, done state = true -> done (serve_reports msgs state) = true.
Proof.
  induction msgs as [|m msgs IH]; intros state Hdone; cbn; [exact Hdone|].
  apply IH. unfold delivery_report_cb.
  destruct (negb (msg_private m)); [exact Hdone|reflexivity].
Qed.

(** When the polls before [n] serve no report and poll [n] serves the
    one report [m] of this send, the waiter is pending before [n] and
    holds at [n] exactly what [m] reports. *)
Lemma waiter_after_single_report (lib : Lib) (producer : jlong) (n : nat)
    (m : rd_kafka_message_t) :
  (forall k, (k < n)%nat -> rd_kafka_poll lib producer k = []) ->
  rd_kafka_poll lib producer n = [m] ->
  msg_private m = true ->
  (forall k, (k < n)%nat -> done (waiter_after lib producer k) = false)
  /\ waiter_after lib producer n =
       {| done := true; err := msg_err m; partition := msg_partition m;
          offset := msg_offset m |}.
Proof.
  intros Hbefore Hat Hpriv. unfold waiter_after.
  assert (Hgen : forall k i state,
            (forall j, (j < k)%nat -> rd_kafka_poll lib producer (i + j) = []) ->
            waiter_from lib producer state i k =
            serve_reports (rd_kafka_poll lib producer (i + k)) state).
  { induction k as [|k IH]; intros i state Hempty; cbn.
    - now rewrite Nat.add_0_r.
    - rewrite IH.
      + pose proof (Hempty 0%nat ltac:(lia)) as H0.
        rewrite Nat.add_0_r in H0. rewrite H0. cbn.
        now rewrite Nat.add_succ_r.
      + intros j Hj. specialize (Hempty (S j) ltac:(lia)).
        now rewrite Nat.add_succ_r in Hempty. }
  split.
  - intros k Hk. rewrite Hgen.
    + cbn. rewrite (Hbefore k Hk). reflexivity.
    + intros j Hj. apply Hbefore. cbn. lia.
  - rewrite Hgen.
    + cbn. rewrite Hat. cbn. unfold delivery_report_cb. rewrite Hpriv.
      reflexivity.
    + intros j Hj. apply Hbefore. cbn. exact Hj.
Qed.

(** The blocked send polls with the waiter's lock released, always. *)
Lemma block_trace_polls_unlocked (producer : jlong) (k : nat) :
  polls_unlocked false (block_trace producer k) = true.
Proof.
  induction k as [|k IH]; cbn; [reflexivity|exact IH].
Qed.

(** ** Sending *)

(** C1. A send whose enqueue call succeeded and whose waiter is marked
    done at poll [n] returns, with any fuel above [n]: a [RecordMetadata]
    holding the partition and offset the delivery callback stored when
    the recorded code is [RD_KAFKA_RESP_ERR_NO_ERROR], and otherwise
    null with the pending exception [rd_kafka_err2str] of the recorded
    code.  The receipt is built by [NewObject] on the results of two
    lookups the send does not test: the statement is for a JVM that
    finds the [RecordMetadata] class and its constructor.  A send whose
    enqueue call is refused returns null at once with the exception
    [rd_kafka_err2str] of the refusal, and its trace holds no poll: the
    waiter never completes. *)
Theorem produceMessageBytes_outcome :
  forall (lib : Lib) (producerPtr : jlong) (topic : string)
         (jkey : jbyteArray) (value : bytes),
    producerPtr <> 0 ->
    FindClass lib "java/lang/RuntimeException" = true ->
    GetStringUTFChars_ok lib topic = true ->
    GetByteArrayElements_ok lib value = true ->
    (forall k, jkey = Some k -> GetByteArrayElements_ok lib k = true) ->
    let enq :=
      rd_kafka_producev lib producerPtr (send_args topic None jkey value) in
    (enq = RD_KAFKA_RESP_ERR_NO_ERROR ->
     FindClass lib "org/github/cyterdan/chat_over_kafka/RecordMetadata" =
       true ->
     GetMethodID lib "org/github/cyterdan/chat_over_kafka/RecordMetadata"
       "<init>" "(IJ)V" = true ->
     forall n : nat,
       (forall k, (k < n)%nat ->
          done (waiter_after lib producerPtr k) = false) ->
       done (waiter_after lib producerPtr n) = true ->
       forall fuel : nat, (n < fuel)%nat ->
       let w := waiter_after lib producerPtr n in
       exists s,
         produceMessageBytes lib fuel producerPtr (Some topic) jkey
           (Some value) init =
           Some (if is_error (err w) then None
                 else Some {| rm_partition := partition w;
                              rm_offset := offset w |}, s)
         /\ pending s =
              (if is_error (err w)
               then Some (rd_kafka_err2str lib (err w)) else None))
    /\
    (is_error enq = true ->
     forall fuel : nat,
       produceMessageBytes lib fuel producerPtr (Some topic) jkey
         (Some value) init =
         Some (None,
               {| trace :=
                    enqueue_trace producerPtr topic None jkey value
                      ++ [ThrowNew_ev (rd_kafka_err2str lib enq)];
                  pending := Some (rd_kafka_err2str lib enq);
                  conf := None |})
       /\ ~ In (poll_ev producerPtr 100)
               (enqueue_trace producerPtr topic None jkey value
                  ++ [ThrowNew_ev (rd_kafka_err2str lib enq)])).
Proof.
  intros lib producerPtr topic jkey value Hptr Hexc Htopic Hvalue Hkey enq.
  apply Z.eqb_neq in Hptr.
  split.
  - intros Henq Hcls Hctor n Hbefore Hdone fuel Hfuel w.
    unfold produceMessageBytes. rewrite Hptr.
    unfold jni_GetStringUTFChars, jni_GetByteArrayElements,
      jni_ReleaseStringUTFChars, jni_ReleaseByteArrayElements,
      throwJavaException, NewObject_RecordMetadata, bind, call, ret,
      set_pending; cbn.
    rewrite Htopic, Hvalue, Hexc, Hcls, Hctor; cbn.
    destruct jkey as [k|]; cbn.
    + rewrite (Hkey k eq_refl); cbn.
      fold (send_args topic None (Some k) value).
      subst enq. rewrite Henq; cbn.
      rewrite (produceMessageBytes_block_returns lib producerPtr n);
        try assumption.
      fold (waiter_after lib producerPtr n). fold w.
      destruct (is_error (err w)); cbn; eexists; split; reflexivity.
    + fold (send_args topic None None value).
      subst enq. rewrite Henq; cbn.
      rewrite (produceMessageBytes_block_returns lib producerPtr n);
        try assumption.
      fold (waiter_after lib producerPtr n). fold w.
      destruct (is_error (err w)); cbn; eexists; split; reflexivity.
  - intros Herr fuel. split.
    + unfold produceMessageBytes. rewrite Hptr.
      unfold jni_GetStringUTFChars, jni_GetByteArrayElements,
        jni_ReleaseStringUTFChars, jni_ReleaseByteArrayElements,
        throwJavaException, bind, call, ret, set_pending; cbn.
      rewrite Htopic, Hvalue, Hexc; cbn.
      destruct jkey as [k|]; cbn.
      * rewrite (Hkey k eq_refl); cbn.
        fold (send_args topic None (Some k) value).
        fold enq. rewrite Herr. cbn. reflexivity.
      * fold (send_args topic None None value).
        fold enq. rewrite Herr. cbn. reflexivity.
    + unfold enqueue_trace. intros Hin.
      repeat (apply in_app_or in Hin; destruct Hin as [Hin|Hin]);
        try (destruct jkey); cbn in Hin;
        repeat (destruct Hin as [Hin|Hin]; try discriminate Hin);
        try contradiction.
Qed.

(** The loop does not look at the trace: renaming the enqueue events of
    the calls made so far commutes with it. *)
Lemma produceMessageBytes_block_at_partition (lib : Lib) (p : Z)
    (producer : jlong) :
  forall (fuel n : nat) (state : DeliveryState) (s : jni_state),
    produceMessageBytes_block lib fuel producer n state
      (state_at_partition p s) =
    option_map (fun r => (fst r, state_at_partition p (snd r)))
      (produceMessageBytes_block (lib_at_partition p lib) fuel producer n
         state s).
Proof.
  induction fuel as [|fuel IH]; intros n state s; cbn; [reflexivity|].
  unfold bind, call, ret, serve_reports; cbn.
  destruct (done (fold_left _ (rd_kafka_poll lib producer n) state)); cbn.
  - unfold state_at_partition; cbn. rewrite !map_app. reflexivity.
  - rewrite <- IH. unfold state_at_partition; cbn.
    rewrite !map_app. reflexivity.
Qed.

(** C8. The partition-targeted send is the plain send up to the
    partition handed to the enqueue call: run against the same answers,
    on the same arguments and with the same fuel, both return or block
    together, with the same object, the same pending exception and the
    same calls in the same order, the enqueue event of the targeted
    send carrying [jpartition]. *)
Theorem produceMessageBytesToPartition_refines :
  forall (lib : Lib) (fuel : nat) (producerPtr : jlong) (jtopic : jstring)
         (jpartition : jint) (jkey jvalue : jbyteArray),
    produceMessageBytesToPartition lib fuel producerPtr jtopic jpartition
      jkey jvalue init =
    option_map (fun r => (fst r, state_at_partition jpartition (snd r)))
      (produceMessageBytes (lib_at_partition jpartition lib) fuel
         producerPtr jtopic jkey jvalue init).
Proof.
  intros lib fuel producerPtr jtopic jpartition jkey jvalue.
  unfold produceMessageBytesToPartition, produceMessageBytes.
  destruct (producerPtr =? 0); [destruct jtopic, jvalue|];
    try (unfold throwJavaException, bind, call, ret, set_pending; cbn;
         destruct (FindClass lib _); reflexivity).
  destruct jtopic as [topic|], jvalue as [value|];
    try (unfold throwJavaException, bind, call, ret, set_pending; cbn;
         destruct (FindClass lib _); reflexivity).
  unfold jni_GetStringUTFChars, jni_GetByteArrayElements,
    jni_ReleaseStringUTFChars, jni_ReleaseByteArrayElements,
    throwJavaException, bind, call, ret, set_pending; cbn.
  destruct (GetStringUTFChars_ok lib topic); cbn;
    [|destruct (FindClass lib _); reflexivity].
  destruct (GetByteArrayElements_ok lib value); cbn;
    [|destruct (FindClass lib _); reflexivity].
  destruct jkey as [key|]; cbn.
  - destruct (GetByteArrayElements_ok lib key); cbn;
      [|destruct (FindClass lib _); reflexivity].
    unfold at_partition; cbn.
    destruct (is_error (rd_kafka_producev lib producerPtr _)); cbn;
      [destruct (FindClass lib _); reflexivity|].
    rewrite produceMessageBytesToPartition_block_eq.
    match goal with
    | |- context [produceMessageBytes_block lib fuel producerPtr 0 ?w ?s] =>
        change s with (state_at_partition jpartition
          {| trace :=
               [GetStringUTFChars_ev topic; GetByteArrayElements_ev value;
                GetByteArrayElements_ev key;
                producev_ev producerPtr
                  {| pv_topic := topic; pv_partition := None;
                     pv_key := Some key; pv_value := value;
                     pv_msgflags_copy := true; pv_opaque := true |};
                ReleaseStringUTFChars_ev topic;
                ReleaseByteArrayElements_ev value;
                ReleaseByteArrayElements_ev key];
             pending := None; conf := None |})
    end.
    rewrite produceMessageBytes_block_at_partition.
    destruct (produceMessageBytes_block _ fuel producerPtr 0 _ _)
      as [[w s']|]; cbn; [|reflexivity].
    destruct (is_error (err w)); cbn; [|reflexivity].
    destruct (FindClass lib _); cbn; [|reflexivity].
    unfold state_at_partition; cbn. rewrite map_app. reflexivity.
  - unfold at_partition; cbn.
    destruct (is_error (rd_kafka_producev lib producerPtr _)); cbn;
      [destruct (FindClass lib _); reflexivity|].
    rewrite produceMessageBytesToPartition_block_eq.
    match goal with
    | |- context [produceMessageBytes_block lib fuel producerPtr 0 ?w ?s] =>
        change s with (state_at_partition jpartition
          {| trace :=
               [GetStringUTFChars_ev topic; GetByteArrayElements_ev value;
                producev_ev producerPtr
                  {| pv_topic := topic; pv_partition := None;
                     pv_key := None; pv_value := value;
                     pv_msgflags_copy := true; pv_opaque := true |};
                ReleaseStringUTFChars_ev topic;
                ReleaseByteArrayElements_ev value];
             pending := None; conf := None |})
    end.
    rewrite produceMessageBytes_block_at_partition.
    destruct (produceMessageBytes_block _ fuel producerPtr 0 _ _)
      as [[w s']|]; cbn; [|reflexivity].
    destruct (is_error (err w)); cbn; [|reflexivity].
    destruct (FindClass lib _); cbn; [|reflexivity].
    unfold state_at_partition; cbn. rewrite map_app. reflexivity.
Qed.

(** The theorem of C1 at work: with the report of partition 3, offset
    42 served by the third poll, a send with fuel 5 returns that
    receipt; with a failed delivery reported by the second poll, it
    returns null with the text of the failure pending; with the enqueue
    call refused, it returns null with the text of the refusal
    pending. *)
Lemma produceMessageBytes_outcome_witness :
  (exists s,
     produceMessageBytes lib_ok 5 7 (Some "chat") None (Some []) init =
       Some (Some {| rm_partition := 3; rm_offset := 42 |}, s)
     /\ pending s = None)
  /\ (exists s,
        produceMessageBytes lib_delivery_failed 5 7 (Some "chat")
          (Some [Byte.x6b]) (Some [Byte.x78]) init = Some (None, s)
        /\ pending s = Some "Local: Message timed out")
  /\ (produceMessageBytes lib_enqueue_refused 5 7 (Some "chat") None
        (Some []) init =
        Some (None,
              {| trace :=
                   enqueue_trace 7 "chat" None None []
                     ++ [ThrowNew_ev "Local: Message timed out"];
                 pending := Some "Local: Message timed out";
                 conf := None |})
      /\ ~ In (poll_ev 7 100)
              (enqueue_trace 7 "chat" None None []
                 ++ [ThrowNew_ev "Local: Message timed out"])).
Proof.
  split; [|split].
  - destruct (produceMessageBytes_outcome lib_ok 7 "chat" None [])
      as [Hdelivered _].
    + discriminate.
    + reflexivity.
    + reflexivity.
    + reflexivity.
    + intros k Hk. discriminate Hk.
    + apply (Hdelivered eq_refl eq_refl eq_refl 2%nat).
      * intros k Hk. destruct k as [|[|k]]; [reflexivity|reflexivity|lia].
      * reflexivity.
      * lia.
  - destruct (produceMessageBytes_outcome lib_delivery_failed 7 "chat"
                (Some [Byte.x6b]) [Byte.x78]) as [Hdelivered _].
    + discriminate.
    + reflexivity.
    + reflexivity.
    + reflexivity.
    + intros k Hk. reflexivity.
    + apply (Hdelivered eq_refl eq_refl eq_refl 1%nat).
      * intros k Hk. destruct k as [|k]; [reflexivity|lia].
      * reflexivity.
      * lia.
  - destruct (produceMessageBytes_outcome lib_enqueue_refused 7 "chat" None [])
      as [_ Hrefused].
    + discriminate.
    + reflexivity.
    + reflexivity.
    + reflexivity.
    + intros k Hk. discriminate Hk.
    + apply (Hrefused eq_refl 5%nat).
Defined.

(** ** The argument check of the sends *)

Lemma produceMessageBytes_block_extends (lib : Lib) (producer : jlong) :
  forall (fuel n : nat) (state state' : DeliveryState) (s s' : jni_state),
    produceMessageBytes_block lib fuel producer n state s = Some (state', s') ->
    exists t, trace s' = trace s ++ t.
Proof.
  induction fuel as [|fuel IH]; intros n state state' s s' H; cbn in H;
    [discriminate|].
  unfold bind, call, ret in H; cbn in H.
  destruct (done (serve_reports (rd_kafka_poll lib producer n) state)).
  - cbn in H. injection H as _ <-. cbn.
    eexists. rewrite <- !app_assoc. reflexivity.
  - cbn in H. apply IH in H. destruct H as [t Ht]. cbn in Ht.
    exists ([poll_ev producer 100; lock_ev; wait_for_ev 50; unlock_ev] ++ t).
    rewrite Ht, <- !app_assoc. reflexivity.
Qed.

Lemma produceMessageBytes_rejects_null (lib : Lib) :
  forall (fuel : nat) (producerPtr : jlong) (jtopic : jstring)
         (jkey jvalue : jbyteArray),
    FindClass lib "java/lang/RuntimeException" = true ->
    producerPtr = 0 \/ jtopic = None \/ jvalue = None ->
    produceMessageBytes lib fuel producerPtr jtopic jkey jvalue init =
      invalid_arguments.
Proof.
  intros fuel producerPtr jtopic jkey jvalue Hexc Hnull.
  unfold produceMessageBytes, invalid_arguments.
  assert (Hthrow :
    (throwJavaException lib "Invalid arguments" ;; ret None) init =
    Some (@None RecordMetadata,
          {| trace := [ThrowNew_ev "Invalid arguments"];
             pending := Some "Invalid arguments"; conf := None |})).
  { unfold throwJavaException, bind, call, ret, set_pending.
    rewrite Hexc. reflexivity. }
  destruct Hnull as [-> | [-> | ->]].
  - cbn [Z.eqb]. destruct jtopic, jvalue; exact Hthrow.
  - destruct (producerPtr =? 0); exact Hthrow.
  - destruct (producerPtr =? 0), jtopic; exact Hthrow.
Qed.

Lemma produceMessageBytes_passes_check (lib : Lib) :
  forall (fuel : nat) (producerPtr : jlong) (topic : string)
         (jkey : jbyteArray) (value : bytes),
    producerPtr <> 0 ->
    produceMessageBytes lib fuel producerPtr (Some topic) jkey (Some value)
      init <> invalid_arguments.
Proof.
  intros fuel producerPtr topic jkey value Hptr.
  apply Z.eqb_neq in Hptr.
  unfold produceMessageBytes, invalid_arguments. rewrite Hptr.
  unfold jni_GetStringUTFChars, jni_GetByteArrayElements,
    jni_ReleaseStringUTFChars, jni_ReleaseByteArrayElements,
    throwJavaException, bind, call, ret, set_pending; cbn.
  destruct (GetStringUTFChars_ok lib topic); cbn;
    [|destruct (FindClass lib _); discriminate].
  destruct (GetByteArrayElements_ok lib value); cbn;
    [|destruct (FindClass lib _); discriminate].
  destruct jkey as [key|]; cbn.
  - destruct (GetByteArrayElements_ok lib key); cbn;
      [|destruct (FindClass lib _); discriminate].
    destruct (is_error (rd_kafka_producev lib producerPtr _)); cbn;
      [destruct (FindClass lib _); discriminate|].
    destruct (produceMessageBytes_block _ _ _ _ _ _) as [[w s']|] eqn:E;
      cbn; [|discriminate].
    apply produceMessageBytes_block_extends in E. destruct E as [t Ht].
    simpl in Ht.
    destruct (is_error (err w)); cbn;
      [destruct (FindClass lib _); cbn|];
      intro H;
      apply (f_equal (fun r => match r with
                               | Some (_, st) => trace st
                               | None => []
                               end)) in H;
      simpl in H; rewrite Ht in H; discriminate H.
  - destruct (is_error (rd_kafka_producev lib producerPtr _)); cbn;
      [destruct (FindClass lib _); discriminate|].
    destruct (produceMessageBytes_block _ _ _ _ _ _) as [[w s']|] eqn:E;
      cbn; [|discriminate].
    apply produceMessageBytes_block_extends in E. destruct E as [t Ht].
    simpl in Ht.
    destruct (is_error (err w)); cbn;
      [destruct (FindClass lib _); cbn|];
      intro H;
      apply (f_equal (fun r => match r with
                               | Some (_, st) => trace st
                               | None => []
                               end)) in H;
      simpl in H; rewrite Ht in H; discriminate H.
Qed.








(** ** Polling *)

(** What [pollMessage] does with each answer of
    [rd_kafka_consumer_poll], on a non-zero handle. *)
Lemma pollMessage_cases (lib : Lib) (consumerPtr : jlong) (timeoutMs : jint) :
  consumerPtr <> 0 ->
  pollMessage lib consumerPtr timeoutMs init =
    match rd_kafka_consumer_poll lib consumerPtr timeoutMs with
    | None =>
        Some (None,
              {| trace := [consumer_poll_ev consumerPtr timeoutMs];
                 pending := None; conf := None |})
    | Some m =>
        match msg_err m with
        | RD_KAFKA_RESP_ERR__PARTITION_EOF =>
            Some (None,
                  {| trace := [consumer_poll_ev consumerPtr timeoutMs;
                               message_destroy_ev];
                     pending := None; conf := None |})
        | RD_KAFKA_RESP_ERR_code _ =>
            (throwJavaException lib (rd_kafka_message_errstr lib m false) ;;
             ret None)
              {| trace := [consumer_poll_ev consumerPtr timeoutMs;
                           message_destroy_ev];
                 pending := None; conf := None |}
        | RD_KAFKA_RESP_ERR_NO_ERROR =>
            if negb (FindClass lib
                       "org/github/cyterdan/chat_over_kafka/KafkaMessage")
            then
              (throwJavaException lib "Failed to find KafkaMessage class" ;;
               ret None)
                {| trace := [consumer_poll_ev consumerPtr timeoutMs;
                             message_destroy_ev];
                   pending := None; conf := None |}
            else if negb (GetMethodID lib
                            "org/github/cyterdan/chat_over_kafka/KafkaMessage"
                            "<init>" "([B[BLjava/lang/String;IJ)V")
            then
              (throwJavaException lib
                 "Failed to find KafkaMessage constructor" ;; ret None)
                {| trace := [consumer_poll_ev consumerPtr timeoutMs;
                             message_destroy_ev];
                   pending := None; conf := None |}
            else
              Some (Some {| km_key := absent_if_empty (msg_key m);
                            km_value := absent_if_empty (msg_payload m);
                            km_topic := msg_topic m;
                            km_partition := msg_partition m;
                            km_offset := msg_offset m |},
                    {| trace := [consumer_poll_ev consumerPtr timeoutMs;
                                 message_destroy_ev];
                       pending := None; conf := None |})
        end
    end.
Proof.
  intros Hptr. apply Z.eqb_neq in Hptr.
  unfold pollMessage. rewrite Hptr.
  unfold bind, call, ret; cbn.
  destruct (rd_kafka_consumer_poll lib consumerPtr timeoutMs) as [m|];
    [|reflexivity].
  destruct (msg_err m); cbn; try reflexivity.
  destruct (FindClass lib "org/github/cyterdan/chat_over_kafka/KafkaMessage");
    cbn; [|reflexivity].
  destruct (GetMethodID lib _ _ _); cbn; [|reflexivity].
  unfold copy_out.
  destruct (msg_key m) as [[|kb ks]|], (msg_payload m) as [[|vb vs]|];
    reflexivity.
Qed.



(** The order of lines 758-760 at work: the pointer is taken from the
    message, the message is destroyed, and only then does [ThrowNew]
    read the characters.  With a library that keeps the text in the
    message, the exception carries what the freed memory holds, not the
    text the broker gave. *)
Example pollMessage_reads_errstr_after_destroy :
  rd_kafka_message_errstr lib_fetch_error_in_message error_message true =
    "Fetch from broker 2 failed"
  /\ observed (pollMessage lib_fetch_error_in_message 9 100 init) =
       Some (None, Some "").
Proof.
  split; reflexivity.
Qed.


(** C10. A message without error code is handed to Kotlin with a null
    key when its key pointer is null or its key is zero bytes long, and
    likewise for the value: the consumer side cannot tell a zero-length
    payload from an absent one.  The producer side can: a send with a
    null value stops at the argument check, a send with a zero-length
    value gets past it. *)
Theorem pollMessage_zero_length_is_null :
  forall (lib : Lib) (consumerPtr : jlong) (timeoutMs : jint)
         (m : rd_kafka_message_t) (fuel : nat) (producerPtr : jlong)
         (topic : string) (jkey : jbyteArray),
    consumerPtr <> 0 ->
    rd_kafka_consumer_poll lib consumerPtr timeoutMs = Some m ->
    msg_err m = RD_KAFKA_RESP_ERR_NO_ERROR ->
    FindClass lib "org/github/cyterdan/chat_over_kafka/KafkaMessage" = true ->
    GetMethodID lib "org/github/cyterdan/chat_over_kafka/KafkaMessage"
      "<init>" "([B[BLjava/lang/String;IJ)V" = true ->
    producerPtr <> 0 ->
    FindClass lib "java/lang/RuntimeException" = true ->
    (exists km s,
       pollMessage lib consumerPtr timeoutMs init = Some (Some km, s)
       /\ km_key km = absent_if_empty (msg_key m)
       /\ km_value km = absent_if_empty (msg_payload m)
       /\ (msg_key m = Some [] \/ msg_key m = None -> km_key km = None)
       /\ (msg_payload m = Some [] \/ msg_payload m = None ->
           km_value km = None))
    /\ produceMessageBytes lib fuel producerPtr (Some topic) jkey None init =
         invalid_arguments
    /\ produceMessageBytes lib fuel producerPtr (Some topic) jkey (Some [])
         init <> invalid_arguments.
Proof.
  intros lib consumerPtr timeoutMs m fuel producerPtr topic jkey
    Hcons Hm Herr Hcls Hctor Hprod Hexc.
  split; [|split].
  - pose proof (pollMessage_cases lib consumerPtr timeoutMs Hcons) as H.
    rewrite Hm, Herr, Hcls, Hctor in H. cbn in H.
    eexists. eexists. split; [exact H|]. cbn.
    split; [reflexivity|]. split; [reflexivity|].
    split; intros [-> | ->]; reflexivity.
  - apply produceMessageBytes_rejects_null; auto.
  - apply produceMessageBytes_passes_check; assumption.
Qed.

Lemma pollMessage_zero_length_is_null_witness :
  (exists km s,
     pollMessage lib_empty_message 9 100 init = Some (Some km, s)
     /\ km_key km = None
     /\ km_value km = None
     /\ (Some (@nil Byte.byte) = Some [] \/ Some (@nil Byte.byte) = None ->
         km_key km = None)
     /\ (Some (@nil Byte.byte) = Some [] \/ Some (@nil Byte.byte) = None ->
         km_value km = None))
  /\ produceMessageBytes lib_empty_message 5 7 (Some "chat") None None init =
       invalid_arguments
  /\ produceMessageBytes lib_empty_message 5 7 (Some "chat") None (Some [])
       init <> invalid_arguments.
Proof.
  apply (pollMessage_zero_length_is_null lib_empty_message 9 100
           empty_message 5 7 "chat" None);
    solve [reflexivity | discriminate].
Defined.

(** ** Calls that always return *)

Section Appends.

Variable lib : Lib.

Lemma appends_ret {A : Type} (a : A) : appends (ret a).
Proof.
  intros s. exists a, s. split; [reflexivity|].
  exists []. now rewrite app_nil_r.
Qed.

Lemma appends_bind {A B : Type} (m : M A) (k : A -> M B) :
  appends m -> (forall a, appends (k a)) -> appends (bind m k).
Proof.
  intros Hm Hk s. destruct (Hm s) as (a & s1 & Em & t1 & Et1).
  destruct (Hk a s1) as (b & s2 & Ek & t2 & Et2).
  exists b, s2. unfold bind. rewrite Em. split; [exact Ek|].
  exists (t1 ++ t2). now rewrite Et2, Et1, app_assoc.
Qed.

Lemma appends_call (e : event) : appends (call e).
Proof.
  intros s. eexists. eexists. split; [reflexivity|]. now exists [e].
Qed.

Lemma appends_set_pending (msg : string) : appends (set_pending msg).
Proof.
  intros s. eexists. eexists. split; [reflexivity|].
  exists []. cbn. now rewrite app_nil_r.
Qed.

Lemma appends_set_conf (c : option rd_kafka_conf_t) : appends (set_conf c).
Proof.
  intros s. eexists. eexists. split; [reflexivity|].
  exists []. cbn. now rewrite app_nil_r.
Qed.

Lemma appends_get_conf : appends get_conf.
Proof.
  intros s. eexists. eexists. split; [reflexivity|].
  exists []. now rewrite app_nil_r.
Qed.

Lemma appends_when (c : bool) (m : M unit) : appends m -> appends (when c m).
Proof.
  intros Hm. destruct c; [exact Hm|apply appends_ret].
Qed.

Lemma appends_throwJavaException (msg : string) :
  appends (throwJavaException lib msg).
Proof.
  unfold throwJavaException. destruct (FindClass lib _).
  - apply appends_bind; [apply appends_call|].
    intros _. apply appends_set_pending.
  - apply appends_ret.
Qed.

Lemma appends_GetStringUTFChars (str : string) :
  appends (jni_GetStringUTFChars lib str).
Proof.
  apply appends_bind; [apply appends_call|]. intros _. apply appends_ret.
Qed.

Lemma appends_GetByteArrayElements (a : bytes) :
  appends (jni_GetByteArrayElements lib a).
Proof.
  apply appends_bind; [apply appends_call|]. intros _. apply appends_ret.
Qed.

Lemma appends_conf_new : appends conf_new.
Proof.
  apply appends_bind; [apply appends_call|].
  intros _. apply appends_set_conf.
Qed.

Lemma appends_conf_set (name : string) (value : option string) :
  appends (conf_set lib name value).
Proof.
  apply appends_bind; [apply appends_call|]. intros _.
  apply appends_bind; [apply appends_get_conf|]. intros c.
  apply appends_bind; [apply appends_when, appends_set_conf|].
  intros _. apply appends_ret.
Qed.

Lemma appends_conf_set_log_cb : appends conf_set_log_cb.
Proof.
  apply appends_bind; [apply appends_call|]. intros _.
  apply appends_bind; [apply appends_get_conf|]. intros c.
  apply appends_set_conf.
Qed.

Lemma appends_conf_set_dr_msg_cb : appends conf_set_dr_msg_cb.
Proof.
  apply appends_bind; [apply appends_call|]. intros _.
  apply appends_bind; [apply appends_get_conf|]. intros c.
  apply appends_set_conf.
Qed.

Lemma appends_conf_set_opaque (rk : jlong) : appends (conf_set_opaque rk).
Proof.
  apply appends_bind; [apply appends_call|]. intros _.
  apply appends_bind; [apply appends_get_conf|]. intros c.
  apply appends_set_conf.
Qed.

Lemma appends_conf_destroy : appends conf_destroy.
Proof.
  apply appends_bind; [apply appends_call|].
  intros _. apply appends_set_conf.
Qed.

Lemma appends_kafka_new (type : rd_kafka_type_t) :
  appends (kafka_new lib type).
Proof.
  apply appends_bind; [apply appends_call|]. intros _.
  apply appends_bind; [apply appends_get_conf|]. intros c.
  apply appends_bind; [apply appends_when, appends_set_conf|].
  intros _. apply appends_ret.
Qed.

Lemma appends_JniStringWrapper (jstr : jstring) :
  appends (JniStringWrapper lib jstr).
Proof.
  destruct jstr; [apply appends_GetStringUTFChars|apply appends_ret].
Qed.

Lemma appends_JniStringWrapper_dtor (jstr : jstring) (c : option string) :
  appends (JniStringWrapper_dtor jstr c).
Proof.
  destruct c, jstr; first [apply appends_call | apply appends_ret].
Qed.

End Appends.

Create HintDb appends.

#[local] Hint Resolve appends_ret appends_call appends_set_pending
  appends_set_conf appends_get_conf appends_throwJavaException
  appends_GetStringUTFChars appends_GetByteArrayElements appends_conf_new
  appends_conf_set appends_conf_set_log_cb appends_conf_set_dr_msg_cb
  appends_conf_set_opaque appends_conf_destroy appends_kafka_new
  appends_JniStringWrapper appends_JniStringWrapper_dtor : appends.

(** Walks through a native call built from the pieces above. *)
Ltac appends_tac :=
  repeat first
    [ solve [auto with appends]
    | apply appends_bind; [|intros ?]
    | apply appends_when
    | progress unfold jni_ReleaseStringUTFChars,
        jni_ReleaseByteArrayElements
    | match goal with
      | |- appends (match ?x with _ => _ end) => destruct x
      | |- appends (fun _ => _) => progress cbv beta zeta
      | |- appends (let _ := _ in _) => progress cbv zeta
      end ].

(** ** Creating handles *)

(** C5, as the code has it.  The secured consumer creation, given
    brokers and a group, requires the whole trio: when the CA path, the
    client certificate path or the client key path is null (one, two or
    all three of them), it returns 0 with "Certificate paths cannot be
    null" pending and makes no other call, so that no configuration
    object and no handle exists.  When the three are non-null, empty or
    not, the check is passed: the call returns and its first call is
    the fetch of the brokers string. *)
Theorem createConsumerMTLS_requires_trio :
  forall (lib : Lib) (brokers groupId : string)
         (jcaCertPath jclientCertPath jclientKeyPath joffsetStrategy : jstring),
    FindClass lib "java/lang/RuntimeException" = true ->
    (jcaCertPath = None \/ jclientCertPath = None \/ jclientKeyPath = None ->
     createConsumerMTLS lib (Some brokers) (Some groupId) jcaCertPath
       jclientCertPath jclientKeyPath joffsetStrategy init =
       certificate_paths_null)
    /\
    (forall ca cert key : string,
       jcaCertPath = Some ca -> jclientCertPath = Some cert ->
       jclientKeyPath = Some key ->
       first_call
         (createConsumerMTLS lib (Some brokers) (Some groupId) jcaCertPath
            jclientCertPath jclientKeyPath joffsetStrategy init) =
         Some (GetStringUTFChars_ev brokers)).
Proof.
  intros lib brokers groupId jca jcert jkey joff Hexc. split.
  - intros Hnull. unfold createConsumerMTLS, certificate_paths_null.
    assert (Hthrow :
      (throwJavaException lib "Certificate paths cannot be null" ;; ret 0)
        init =
      Some (0, {| trace := [ThrowNew_ev "Certificate paths cannot be null"];
                  pending := Some "Certificate paths cannot be null";
                  conf := None |})).
    { unfold throwJavaException, bind, call, ret, set_pending.
      rewrite Hexc. reflexivity. }
    destruct Hnull as [-> | [-> | ->]].
    + exact Hthrow.
    + destruct jca; exact Hthrow.
    + destruct jca, jcert; exact Hthrow.
  - intros ca cert key -> -> ->.
    unfold createConsumerMTLS, jni_GetStringUTFChars at 1.
    unfold bind at 1. unfold bind at 1. cbn.
    match goal with
    | |- first_call (?k ?s0) = _ =>
        assert (Hk : appends k) by appends_tac;
        destruct (Hk s0) as (a & s' & -> & t & Ht)
    end.
    cbn in *. rewrite Ht. reflexivity.
Qed.

Lemma createConsumerMTLS_requires_trio_witness :
  createConsumerMTLS lib_ok (Some "broker:9093") (Some "chat-group")
    (Some "/data/ca.pem") None (Some "/data/client.key") None init =
    certificate_paths_null
  /\ first_call
       (createConsumerMTLS lib_ok (Some "broker:9093") (Some "chat-group")
          (Some "/data/ca.pem") (Some "") (Some "/data/client.key") None
          init) =
       Some (GetStringUTFChars_ev "broker:9093").
Proof.
  split.
  - apply (createConsumerMTLS_requires_trio lib_ok "broker:9093" "chat-group"
             (Some "/data/ca.pem") None (Some "/data/client.key") None
             eq_refl).
    right. left. reflexivity.
  - apply (proj2 (createConsumerMTLS_requires_trio lib_ok "broker:9093"
                    "chat-group" (Some "/data/ca.pem") (Some "")
                    (Some "/data/client.key") None eq_refl)
             "/data/ca.pem" "" "/data/client.key" eq_refl eq_refl eq_refl).
Defined.

(** C5 as stated fails on both creation paths.  The secured consumer
    creation with none of the three paths is refused by the very check
    that refuses one or two of them.  The producer creation has no such
    check: with the CA path alone it hands null to the library for the
    certificate and the key and, the library accepting that, returns a
    handle and leaves no exception. *)
Lemma tls_trio_not_all_or_nothing :
  createConsumerMTLS lib_ok (Some "broker:9093") (Some "chat-group")
    None None None None init = certificate_paths_null
  /\ createProducerMTLS lib_ok (Some "broker:9093") (Some "/data/ca.pem")
       None None init =
       Some (4096,
             {| trace :=
                  [GetStringUTFChars_ev "broker:9093";
                   GetStringUTFChars_ev "/data/ca.pem";
                   conf_new_ev;
                   conf_set_ev "bootstrap.servers" (Some "broker:9093");
                   conf_set_ev "security.protocol" (Some "SSL");
                   conf_set_ev "ssl.ca.location" (Some "/data/ca.pem");
                   conf_set_ev "ssl.certificate.location" None;
                   conf_set_ev "ssl.key.location" None;
                   conf_set_ev "acks" (Some "all");
                   conf_set_log_cb_ev; conf_set_dr_msg_cb_ev;
                   new_ev RD_KAFKA_PRODUCER;
                   ReleaseStringUTFChars_ev "/data/ca.pem";
                   ReleaseStringUTFChars_ev "broker:9093"];
                pending := None; conf := None |}).
Proof.
  split; vm_compute; reflexivity.
Qed.

Lemma bind_run {A B : Type} (m : M A) (k : A -> M B) (s s' : jni_state)
    (a : A) :
  m s = Some (a, s') -> bind m k s = k a s'.
Proof.
  intros H. unfold bind. now rewrite H.
Qed.

Lemma JniStringWrapper_run (lib : Lib) (j : jstring) (s : jni_state) :
  JniStringWrapper lib j s =
    Some (wrapper_cstr lib j,
          {| trace := trace s ++ wrapper_ctor_calls j;
             pending := pending s; conf := conf s |}).
Proof.
  destruct j as [str|]; cbn.
  - reflexivity.
  - destruct s. unfold ret. cbn. now rewrite app_nil_r.
Qed.

Lemma JniStringWrapper_dtor_run (lib : Lib) (j : jstring) (s : jni_state) :
  JniStringWrapper_dtor j (wrapper_cstr lib j) s =
    Some (tt,
          {| trace := trace s ++ wrapper_dtor_calls lib j;
             pending := pending s; conf := conf s |}).
Proof.
  unfold JniStringWrapper_dtor, wrapper_dtor_calls.
  destruct j as [str|]; cbn.
  - destruct (GetStringUTFChars_ok lib str); cbn; [reflexivity|].
    destruct s. unfold ret. cbn. now rewrite app_nil_r.
  - destruct s. unfold ret. cbn. now rewrite app_nil_r.
Qed.

(** X14. Fail fast on the five tested properties of [createProducerMTLS]:
    when the library accepts the properties [pre] and refuses the next
    one, the call returns 0 with the library's message pending; the
    configuration object is destroyed and every string fetched is
    released, after the exception is raised; and the last
    [rd_kafka_conf_set] made is the refused one. *)
Lemma createProducerMTLS_fail_fast (lib : Lib)
    (jbrokers jcaCertPath jclientCertPath jclientKeyPath : jstring)
    (pre post : list (string * option string)) (name : string)
    (value : option string) :
  FindClass lib "java/lang/RuntimeException" = true ->
  producer_checked_props lib jbrokers jcaCertPath jclientCertPath
    jclientKeyPath = pre ++ (name, value) :: post ->
  Forall (accepted lib) pre ->
  conf_ok (fst (rd_kafka_conf_set lib name value)) = false ->
  createProducerMTLS lib jbrokers jcaCertPath jclientCertPath
    jclientKeyPath init =
    Some (0,
          {| trace :=
               wrapper_ctor_calls jbrokers
                 ++ wrapper_ctor_calls jcaCertPath
                 ++ wrapper_ctor_calls jclientCertPath
                 ++ wrapper_ctor_calls jclientKeyPath
                 ++ [conf_new_ev]
                 ++ map (fun nv => conf_set_ev (fst nv) (snd nv))
                      (pre ++ [(name, value)])
                 ++ [ThrowNew_ev (snd (rd_kafka_conf_set lib name value));
                     conf_destroy_ev]
                 ++ wrapper_dtor_calls lib jclientKeyPath
                 ++ wrapper_dtor_calls lib jclientCertPath
                 ++ wrapper_dtor_calls lib jcaCertPath
                 ++ wrapper_dtor_calls lib jbrokers;
             pending := Some (snd (rd_kafka_conf_set lib name value));
             conf := None |}).
Proof.
  intros Hexc Hsplit Hpre Hrej.
  unfold producer_checked_props in Hsplit.
  unfold createProducerMTLS.
  repeat (erewrite bind_run by apply JniStringWrapper_run).
  unfold conf_new, conf_set, conf_destroy, throwJavaException, when.
  rewrite Hexc.
  destruct pre as [|p1 [|p2 [|p3 [|p4 [|p5 pre]]]]]; cbn in Hsplit;
    repeat match goal with
           | H : _ :: _ = _ :: _ |- _ => injection H; clear H; intros
           | H : [] = _ ++ _ :: _ |- _ =>
               apply app_cons_not_nil in H; contradiction
           end;
    subst;
    repeat match goal with
           | H : Forall _ (_ :: _) |- _ =>
               let Ha := fresh "Ha" in
               apply Forall_cons_iff in H; destruct H as [Ha H];
               unfold accepted in Ha; cbn in Ha
           end;
    unfold bind, call, ret, set_pending, set_conf, get_conf; cbn;
    repeat match goal with
           | Ha : conf_ok _ = _ |- _ => rewrite Ha; cbn
           end;
    rewrite !JniStringWrapper_dtor_run; cbn;
    rewrite <- ?app_assoc; reflexivity.
Qed.

(** The library refuses the CA location: the certificate and key
    locations and [acks] are never set, and no handle is asked for. *)
Example createProducerMTLS_ca_rejected :
  createProducerMTLS lib_ca_rejected (Some "broker:9093")
    (Some "/data/ca.pem") (Some "/data/client.pem")
    (Some "/data/client.key") init =
    Some (0,
          {| trace :=
               [GetStringUTFChars_ev "broker:9093";
                GetStringUTFChars_ev "/data/ca.pem";
                GetStringUTFChars_ev "/data/client.pem";
                GetStringUTFChars_ev "/data/client.key";
                conf_new_ev;
                conf_set_ev "bootstrap.servers" (Some "broker:9093");
                conf_set_ev "security.protocol" (Some "SSL");
                conf_set_ev "ssl.ca.location" (Some "/data/ca.pem");
                ThrowNew_ev "No such configuration property: ssl.ca.location";
                conf_destroy_ev;
                ReleaseStringUTFChars_ev "/data/client.key";
                ReleaseStringUTFChars_ev "/data/client.pem";
                ReleaseStringUTFChars_ev "/data/ca.pem";
                ReleaseStringUTFChars_ev "broker:9093"];
             pending :=
               Some "No such configuration property: ssl.ca.location";
             conf := None |}).
Proof.
  apply (createProducerMTLS_fail_fast lib_ca_rejected (Some "broker:9093")
           (Some "/data/ca.pem") (Some "/data/client.pem")
           (Some "/data/client.key")
           [("bootstrap.servers", Some "broker:9093");
            ("security.protocol", Some "SSL")]
           [("ssl.certificate.location", Some "/data/client.pem");
            ("ssl.key.location", Some "/data/client.key")]
           "ssl.ca.location" (Some "/data/ca.pem")).
  - reflexivity.
  - reflexivity.
  - repeat constructor.
  - reflexivity.
Defined.

(** C2 at the failing input: the library refuses the property [acks].
    [createProducerMTLS] drops that answer, goes on to register the two
    callbacks and to call [rd_kafka_new], and returns the handle with
    no exception pending; the configuration object is neither destroyed
    nor lacking: it has been handed to the producer without [acks]. *)
Theorem createProducerMTLS_ignores_acks_rejection :
  rd_kafka_conf_set lib_acks_rejected "acks" (Some "all") =
    (RD_KAFKA_CONF_UNKNOWN, "No such configuration property: acks")
  /\ createProducerMTLS lib_acks_rejected (Some "broker:9093")
       (Some "/data/ca.pem") (Some "/data/client.pem")
       (Some "/data/client.key") init =
       Some (4096,
             {| trace :=
                  [GetStringUTFChars_ev "broker:9093";
                   GetStringUTFChars_ev "/data/ca.pem";
                   GetStringUTFChars_ev "/data/client.pem";
                   GetStringUTFChars_ev "/data/client.key";
                   conf_new_ev;
                   conf_set_ev "bootstrap.servers" (Some "broker:9093");
                   conf_set_ev "security.protocol" (Some "SSL");
                   conf_set_ev "ssl.ca.location" (Some "/data/ca.pem");
                   conf_set_ev "ssl.certificate.location"
                     (Some "/data/client.pem");
                   conf_set_ev "ssl.key.location" (Some "/data/client.key");
                   conf_set_ev "acks" (Some "all");
                   conf_set_log_cb_ev; conf_set_dr_msg_cb_ev;
                   new_ev RD_KAFKA_PRODUCER;
                   ReleaseStringUTFChars_ev "/data/client.key";
                   ReleaseStringUTFChars_ev "/data/client.pem";
                   ReleaseStringUTFChars_ev "/data/ca.pem";
                   ReleaseStringUTFChars_ev "broker:9093"];
                pending := None; conf := None |}).
Proof.
  split; vm_compute; reflexivity.
Qed.

(** ** Subscribing *)

(** What [subscribe] does once the topic string is fetched and the
    library accepts the offset policy: the policy sits in a
    configuration object that is still owned by the call when it
    returns, and the consumer sees one call, [rd_kafka_subscribe] with
    the topic at the unassigned partition. *)
Lemma subscribe_accepted_policy (lib : Lib) (consumerPtr : jlong)
    (topic policy : string) :
  consumerPtr <> 0 ->
  GetStringUTFChars_ok lib topic = true ->
  GetStringUTFChars_ok lib policy = true ->
  conf_ok (fst (rd_kafka_conf_set lib "auto.offset.reset" (Some policy)))
    = true ->
  exists s,
    subscribe lib consumerPtr (Some topic) (Some policy) init = Some (tt, s)
    /\ handle_calls consumerPtr (trace s) =
         [subscribe_ev consumerPtr [(topic, RD_KAFKA_PARTITION_UA)]]
    /\ conf s =
         Some {| conf_props := [("auto.offset.reset", Some policy)];
                 conf_log_cb := false; conf_dr_msg_cb := false;
                 conf_opaque := Some consumerPtr |}
    /\ ~ In conf_destroy_ev (trace s).
Proof.
  intros Hptr Htopic Hpolicy Hok.
  assert (Hself : (consumerPtr =? consumerPtr) = true) by apply Z.eqb_refl.
  apply Z.eqb_neq in Hptr.
  unfold subscribe. rewrite Hptr.
  unfold jni_GetStringUTFChars, jni_ReleaseStringUTFChars, conf_new,
    conf_set, conf_set_opaque, conf_destroy, throwJavaException, when,
    bind, call, ret, set_pending, set_conf, get_conf; cbn.
  rewrite Htopic, Hpolicy; cbn. repeat (rewrite Hok; cbn).
  destruct (is_error (rd_kafka_subscribe lib consumerPtr _)); cbn;
    [destruct (FindClass lib _); cbn|];
    (eexists; split; [reflexivity|]; cbn; rewrite Hself;
     split; [reflexivity|]; split; [reflexivity|];
     intros Hin; repeat (destruct Hin as [Hin|Hin]; try discriminate Hin);
     exact Hin).
Qed.

(** C4 at the failing input: a consumer subscribed to "chat" once with
    the policy "earliest" and once with "latest".  Both calls return
    without exception, and the consumer handle sees the same single
    call in both, [rd_kafka_subscribe]; the policy has gone to a
    configuration object that no handle ever receives and that is still
    alive, undestroyed, when the call returns. *)
Theorem subscribe_offset_policy_never_reaches_consumer :
  exists s_earliest s_latest,
    subscribe lib_ok 9 (Some "chat") (Some "earliest") init =
      Some (tt, s_earliest)
    /\ subscribe lib_ok 9 (Some "chat") (Some "latest") init =
         Some (tt, s_latest)
    /\ pending s_earliest = None /\ pending s_latest = None
    /\ handle_calls 9 (trace s_earliest) =
         [subscribe_ev 9 [("chat", RD_KAFKA_PARTITION_UA)]]
    /\ handle_calls 9 (trace s_latest) =
         [subscribe_ev 9 [("chat", RD_KAFKA_PARTITION_UA)]]
    /\ conf s_earliest =
         Some {| conf_props := [("auto.offset.reset", Some "earliest")];
                 conf_log_cb := false; conf_dr_msg_cb := false;
                 conf_opaque := Some 9 |}
    /\ conf s_latest =
         Some {| conf_props := [("auto.offset.reset", Some "latest")];
                 conf_log_cb := false; conf_dr_msg_cb := false;
                 conf_opaque := Some 9 |}.
Proof.
  eexists. eexists.
  split; [vm_compute; reflexivity|].
  split; [vm_compute; reflexivity|].
  repeat split.
Qed.

(** ** Closing *)

(** [closeConsumer] on a non-zero handle: whatever the broker-side
    close answers, no exception is raised and the handle is destroyed
    right after. *)
Lemma closeConsumer_absorbs_close_failure (lib : Lib) (consumerPtr : jlong) :
  consumerPtr <> 0 ->
  closeConsumer lib consumerPtr init =
    Some (tt,
          {| trace := [consumer_close_ev consumerPtr; destroy_ev consumerPtr];
             pending := None; conf := None |}).
Proof.
  intros Hptr. apply Z.eqb_neq in Hptr.
  unfold closeConsumer. rewrite Hptr.
  unfold bind, call, ret; cbn.
  destruct (is_error (rd_kafka_consumer_close lib consumerPtr)); reflexivity.
Qed.

(** C9 at the failing input.  [closeConsumer] does absorb the failure of
    the broker-side close and destroys the handle; but it is not the
    only place where a failure is absorbed: [createProducerMTLS], with a
    library that refuses the property [acks], reports nothing either
    and returns a handle. *)
Theorem close_failure_is_not_the_only_absorbed_error :
  is_error (rd_kafka_consumer_close lib_close_fails 9) = true
  /\ closeConsumer lib_close_fails 9 init =
       Some (tt, {| trace := [consumer_close_ev 9; destroy_ev 9];
                    pending := None; conf := None |})
  /\ conf_ok (fst (rd_kafka_conf_set lib_acks_rejected "acks" (Some "all")))
       = false
  /\ exists s,
       createProducerMTLS lib_acks_rejected (Some "broker:9093")
         (Some "/data/ca.pem") (Some "/data/client.pem")
         (Some "/data/client.key") init = Some (4096, s)
       /\ pending s = None
       /\ In (conf_set_ev "acks" (Some "all")) (trace s).
Proof.
  split; [reflexivity|]. split; [reflexivity|]. split; [reflexivity|].
  eexists. split; [vm_compute; reflexivity|].
  split; [reflexivity|]. cbn. tauto.
Qed.

(** ** The log callback *)

Lemma kafka_log_callback_prio (level : Z) (fac buf : string) :
  (0 <= level <= 3 ->
   log_prio (kafka_log_callback level fac buf) = ANDROID_LOG_ERROR)
  /\ (level = 4 ->
      log_prio (kafka_log_callback level fac buf) = ANDROID_LOG_WARN)
  /\ (5 <= level <= 6 ->
      log_prio (kafka_log_callback level fac buf) = ANDROID_LOG_INFO)
  /\ (level < 0 \/ 6 < level ->
      log_prio (kafka_log_callback level fac buf) = ANDROID_LOG_DEBUG).
Proof.
  unfold kafka_log_callback; cbn.
  destruct (Z.eqb_spec level 0), (Z.eqb_spec level 1), (Z.eqb_spec level 2),
    (Z.eqb_spec level 3), (Z.eqb_spec level 4), (Z.eqb_spec level 5),
    (Z.eqb_spec level 6); cbn; repeat split; intros; try reflexivity; lia.
Qed.

(** X1. The log callback never inverts severity: of two syslog levels
    from 0 upwards, the numerically lower (more severe) one is logged at
    an Android priority at least as high, whatever values the Android
    header gives its priorities as long as they rise from DEBUG to
    ERROR.  Levels below 0 and above 6 are logged at DEBUG. *)
Theorem kafka_log_callback_keeps_severity_order :
  forall (value : android_LogPriority -> Z),
    value ANDROID_LOG_DEBUG < value ANDROID_LOG_INFO ->
    value ANDROID_LOG_INFO < value ANDROID_LOG_WARN ->
    value ANDROID_LOG_WARN < value ANDROID_LOG_ERROR ->
    (forall (l1 l2 : Z) (fac1 buf1 fac2 buf2 : string),
       0 <= l1 -> l1 <= l2 ->
       value (log_prio (kafka_log_callback l2 fac2 buf2)) <=
       value (log_prio (kafka_log_callback l1 fac1 buf1)))
    /\ (forall (level : Z) (fac buf : string),
          level < 0 \/ 6 < level ->
          log_prio (kafka_log_callback level fac buf) = ANDROID_LOG_DEBUG).
Proof.
  intros value Hdi Hiw Hwe. split.
  - intros l1 l2 fac1 buf1 fac2 buf2 H0 Hle.
    destruct (kafka_log_callback_prio l1 fac1 buf1) as (E1 & W1 & I1 & D1).
    destruct (kafka_log_callback_prio l2 fac2 buf2) as (E2 & W2 & I2 & D2).
    assert (C1 : l1 <= 3 \/ l1 = 4 \/ 5 <= l1 <= 6 \/ 6 < l1) by lia.
    assert (C2 : l2 <= 3 \/ l2 = 4 \/ 5 <= l2 <= 6 \/ 6 < l2) by lia.
    destruct C1 as [C1 | [C1 | [C1 | C1]]];
      [rewrite E1 by lia | rewrite W1 by lia | rewrite I1 by lia
       | rewrite D1 by lia];
      (destruct C2 as [C2 | [C2 | [C2 | C2]]];
       [rewrite E2 by lia | rewrite W2 by lia | rewrite I2 by lia
        | rewrite D2 by lia]); lia.
  - intros level fac buf Hout.
    now apply (kafka_log_callback_prio level fac buf).
Qed.

Lemma kafka_log_callback_keeps_severity_order_witness :
  (forall (l1 l2 : Z) (fac1 buf1 fac2 buf2 : string),
     0 <= l1 -> l1 <= l2 ->
     android_priority_value (log_prio (kafka_log_callback l2 fac2 buf2)) <=
     android_priority_value (log_prio (kafka_log_callback l1 fac1 buf1)))
  /\ (forall (level : Z) (fac buf : string),
        level < 0 \/ 6 < level ->
        log_prio (kafka_log_callback level fac buf) = ANDROID_LOG_DEBUG).
Proof.
  apply (kafka_log_callback_keeps_severity_order android_priority_value);
    reflexivity.
Defined.

(** ** The delivery callback *)

(** X2. Reports that carry no waiter leave the waiter as it is, and
    once the library has served a report that carries it, the waiter is
    done and holds the code, partition and offset of the last such
    report, whatever was served before. *)
Theorem serve_reports_last_report_wins :
  forall (msgs : list rd_kafka_message_t) (state : DeliveryState),
    ((forall m, In m msgs -> msg_private m = false) ->
     serve_reports msgs state = state)
    /\ (forall (m : rd_kafka_message_t) (later : list rd_kafka_message_t),
          msg_private m = true ->
          (forall m', In m' later -> msg_private m' = false) ->
          serve_reports (msgs ++ m :: later) state =
            {| done := true; err := msg_err m;
               partition := msg_partition m; offset := msg_offset m |}).
Proof.
  assert (Hignored : forall msgs state,
            (forall m, In m msgs -> msg_private m = false) ->
            serve_reports msgs state = state).
  { induction msgs as [|m msgs IH]; intros state Hall; cbn; [reflexivity|].
    unfold delivery_report_cb. rewrite (Hall m (or_introl eq_refl)). cbn.
    apply IH. intros m' Hin. apply Hall. now right. }
  intros msgs state. split; [apply Hignored|].
  intros m later Hm Hlater. unfold serve_reports.
  rewrite fold_left_app. cbn.
  fold (serve_reports later
          (delivery_report_cb m
             (fold_left (fun st m0 => delivery_report_cb m0 st) msgs state))).
  rewrite Hignored by exact Hlater.
  unfold delivery_report_cb at 1. rewrite Hm. reflexivity.
Qed.

Lemma serve_reports_last_report_wins_witness :
  serve_reports [eof_message; error_message] DeliveryState_new =
    DeliveryState_new
  /\ serve_reports ([report_failed] ++ report_ok :: [eof_message])
       DeliveryState_new =
       {| done := true; err := RD_KAFKA_RESP_ERR_NO_ERROR;
          partition := 3; offset := 42 |}.
Proof.
  split.
  - apply (serve_reports_last_report_wins [eof_message; error_message]
             DeliveryState_new).
    intros m [<- | [<- | []]]; reflexivity.
  - apply (proj2 (serve_reports_last_report_wins [report_failed]
                    DeliveryState_new) report_ok [eof_message] eq_refl).
    intros m [<- | []]. reflexivity.
Defined.

(** ** Null handles and teardown *)

(** X3. No native calls into librdkafka with a null handle.  With a
    zero handle [subscribe], [subscribeWithOffset] and [pollMessage]
    raise "Consumer pointer is null", [flushProducer] raises "Producer
    pointer is null", and [closeConsumer] and [destroyProducer] return
    silently; none of them makes any other call. *)
Theorem null_handle_reaches_no_library_call :
  forall (lib : Lib) (ext : LibExt) (jtopic joffsetStrategy : jstring)
         (partition timeoutMs : jint) (offset : jlong),
    FindClass lib "java/lang/RuntimeException" = true ->
    subscribe lib 0 jtopic joffsetStrategy init =
      Some (tt, thrown "Consumer pointer is null")
    /\ subscribeWithOffset lib ext 0 jtopic partition offset ext_init =
         Some (tt, thrownx "Consumer pointer is null")
    /\ pollMessage lib 0 timeoutMs init =
         Some (None, thrown "Consumer pointer is null")
    /\ flushProducer lib ext 0 timeoutMs ext_init =
         Some (tt, thrownx "Producer pointer is null")
    /\ closeConsumer lib 0 init = Some (tt, init)
    /\ destroyProducer 0 init = Some (tt, init).
Proof.
  intros lib ext jtopic joffsetStrategy partition timeoutMs offset Hexc.
  unfold subscribe, subscribeWithOffset, pollMessage, flushProducer,
    closeConsumer, destroyProducer, lift, throwJavaException, thrown,
    thrownx, bind, call, ret, set_pending.
  cbn. rewrite Hexc. cbn. repeat split.
Qed.

Lemma null_handle_reaches_no_library_call_witness :
  subscribe lib_ok 0 (Some "chat") (Some "earliest") init =
    Some (tt, thrown "Consumer pointer is null")
  /\ subscribeWithOffset lib_ok ext_ok 0 (Some "chat") 2 17 ext_init =
       Some (tt, thrownx "Consumer pointer is null")
  /\ pollMessage lib_ok 0 100 init =
       Some (None, thrown "Consumer pointer is null")
  /\ flushProducer lib_ok ext_ok 0 100 ext_init =
       Some (tt, thrownx "Producer pointer is null")
  /\ closeConsumer lib_ok 0 init = Some (tt, init)
  /\ destroyProducer 0 init = Some (tt, init).
Proof.
  apply (null_handle_reaches_no_library_call lib_ok ext_ok (Some "chat")
           (Some "earliest") 2 100 17 eq_refl).
Defined.

(** X4. Teardown cannot fail the caller.  On a non-zero handle
    [closeConsumer] asks for the broker-side close and destroys the
    handle right after, whatever the close answers; [destroyProducer]
    destroys the handle and does nothing else: no flush, no poll.
    Neither leaves an exception. *)
Theorem teardown_never_raises :
  forall (lib : Lib) (handle : jlong),
    handle <> 0 ->
    closeConsumer lib handle init =
      Some (tt, {| trace := [consumer_close_ev handle; destroy_ev handle];
                   pending := None; conf := None |})
    /\ destroyProducer handle init =
         Some (tt, {| trace := [destroy_ev handle];
                      pending := None; conf := None |}).
Proof.
  intros lib handle Hptr. split.
  - now apply closeConsumer_absorbs_close_failure.
  - apply Z.eqb_neq in Hptr. unfold destroyProducer. rewrite Hptr.
    reflexivity.
Qed.

Lemma teardown_never_raises_witness :
  closeConsumer lib_close_fails 9 init =
    Some (tt, {| trace := [consumer_close_ev 9; destroy_ev 9];
                 pending := None; conf := None |})
  /\ destroyProducer 9 init =
       Some (tt, {| trace := [destroy_ev 9];
                    pending := None; conf := None |}).
Proof.
  apply (teardown_never_raises lib_close_fails 9). discriminate.
Defined.

(** ** Broker answers of subscriptions and flush *)

(** X5. [subscribeWithOffset], on a non-zero handle and a topic the JVM
    hands out, assigns exactly the one entry (topic, partition, offset)
    directly and never asks for a group subscription; the partition
    list is destroyed and the topic released whatever the answer, and
    before the exception; the exception is [rd_kafka_err2str] of the
    answer when it is an error, and none otherwise. *)
Theorem subscribeWithOffset_assigns_and_cleans_up :
  forall (lib : Lib) (ext : LibExt) (consumerPtr : jlong) (topic : string)
         (partition : jint) (offset : jlong),
    consumerPtr <> 0 ->
    FindClass lib "java/lang/RuntimeException" = true ->
    GetStringUTFChars_ok lib topic = true ->
    let answer :=
      rd_kafka_assign ext consumerPtr [(topic, partition, offset)] in
    subscribeWithOffset lib ext consumerPtr (Some topic) partition offset
      ext_init =
      Some (tt,
            {| ext_trace :=
                 [core_ev (GetStringUTFChars_ev topic);
                  core_ev topic_partition_list_new_ev;
                  core_ev (topic_partition_list_add_ev topic partition);
                  assign_ev consumerPtr [(topic, partition, offset)];
                  core_ev topic_partition_list_destroy_ev;
                  core_ev (ReleaseStringUTFChars_ev topic)]
                 ++ match raised_for lib answer with
                    | Some msg => [core_ev (ThrowNew_ev msg)]
                    | None => []
                    end;
               ext_pending := raised_for lib answer |}).
Proof.
  intros lib ext consumerPtr topic partition offset Hptr Hexc Htopic answer.
  apply Z.eqb_neq in Hptr.
  unfold subscribeWithOffset. rewrite Hptr.
  unfold lift, jni_GetStringUTFChars, jni_ReleaseStringUTFChars,
    throwJavaException, whenx, raised_for, bindx, callx, retx, bind, call,
    ret, set_pending; cbn.
  rewrite Htopic, Hexc; cbn. fold answer.
  destruct (is_error answer); reflexivity.
Qed.

Lemma subscribeWithOffset_assigns_and_cleans_up_witness :
  subscribeWithOffset lib_ok ext_failing 9 (Some "chat") 2 17 ext_init =
    Some (tt,
          {| ext_trace :=
               [core_ev (GetStringUTFChars_ev "chat");
                core_ev topic_partition_list_new_ev;
                core_ev (topic_partition_list_add_ev "chat" 2);
                assign_ev 9 [("chat", 2, 17)];
                core_ev topic_partition_list_destroy_ev;
                core_ev (ReleaseStringUTFChars_ev "chat");
                core_ev (ThrowNew_ev "Local: Message timed out")];
             ext_pending := Some "Local: Message timed out" |}).
Proof.
  apply (subscribeWithOffset_assigns_and_cleans_up lib_ok ext_failing 9
           "chat" 2 17); solve [discriminate | reflexivity].
Defined.

(** X6. The three natives that pass a broker answer on agree on how:
    [subscribe] (its policy accepted), [subscribeWithOffset] and
    [flushProducer] each return with [rd_kafka_err2str] of the answer
    pending when the answer is an error, and with nothing pending when
    it is [RD_KAFKA_RESP_ERR_NO_ERROR]. *)
Theorem broker_answer_is_raised_verbatim :
  forall (lib : Lib) (ext : LibExt) (handle : jlong) (topic policy : string)
         (partition timeoutMs : jint) (offset : jlong),
    handle <> 0 ->
    FindClass lib "java/lang/RuntimeException" = true ->
    GetStringUTFChars_ok lib topic = true ->
    GetStringUTFChars_ok lib policy = true ->
    conf_ok (fst (rd_kafka_conf_set lib "auto.offset.reset" (Some policy)))
      = true ->
    observed (subscribe lib handle (Some topic) (Some policy) init) =
      Some (tt, raised_for lib
                  (rd_kafka_subscribe lib handle
                     [(topic, RD_KAFKA_PARTITION_UA)]))
    /\ observedx (subscribeWithOffset lib ext handle (Some topic) partition
                    offset ext_init) =
         Some (tt, raised_for lib
                     (rd_kafka_assign ext handle
                        [(topic, partition, offset)]))
    /\ observedx (flushProducer lib ext handle timeoutMs ext_init) =
         Some (tt, raised_for lib (rd_kafka_flush ext handle timeoutMs)).
Proof.
  intros lib ext handle topic policy partition timeoutMs offset
    Hptr Hexc Htopic Hpolicy Hok.
  apply Z.eqb_neq in Hptr.
  unfold subscribe, subscribeWithOffset, flushProducer. rewrite Hptr.
  unfold lift, jni_GetStringUTFChars, jni_ReleaseStringUTFChars, conf_new,
    conf_set, conf_set_opaque, conf_destroy, throwJavaException, when,
    whenx, raised_for, bindx, callx, retx, bind, call, ret, set_pending,
    set_conf, get_conf; cbn.
  rewrite Htopic, Hpolicy, Hexc; cbn. repeat (rewrite Hok; cbn).
  split; [|split].
  - destruct (is_error (rd_kafka_subscribe lib handle _)); reflexivity.
  - destruct (is_error (rd_kafka_assign ext handle _)); reflexivity.
  - destruct (is_error (rd_kafka_flush ext handle timeoutMs)); reflexivity.
Qed.

Lemma broker_answer_is_raised_verbatim_witness :
  observed (subscribe lib_ok 9 (Some "chat") (Some "earliest") init) =
    Some (tt, None)
  /\ observedx (subscribeWithOffset lib_ok ext_failing 9 (Some "chat") 2 17
                  ext_init) = Some (tt, Some "Local: Message timed out")
  /\ observedx (flushProducer lib_ok ext_failing 9 100 ext_init) =
       Some (tt, Some "Local: Message timed out").
Proof.
  apply (broker_answer_is_raised_verbatim lib_ok ext_failing 9 "chat"
           "earliest" 2 100 17); solve [discriminate | reflexivity].
Defined.

(** ** The message resource of a poll *)



(** ** Sends that wait *)

Lemma serve_reports_ignores_unmarked (msgs : list rd_kafka_message_t) :
  forall state,
    (forall m, In m msgs -> msg_private m = false) ->
    serve_reports msgs state = state.
Proof.
  induction msgs as [|m msgs IH]; intros state Hall; cbn; [reflexivity|].
  unfold delivery_report_cb. rewrite (Hall m (or_introl eq_refl)). cbn.
  apply IH. intros m' Hin. apply Hall. now right.
Qed.

Lemma produceMessageBytes_block_never_returns (lib : Lib) (producer : jlong) :
  never_reported lib producer ->
  forall (fuel n : nat) (state : DeliveryState) (s : jni_state),
    done state = false ->
    produceMessageBytes_block lib fuel producer n state s = None.
Proof.
  intros Hnever. induction fuel as [|fuel IH]; intros n state s Hpending;
    cbn; [reflexivity|].
  unfold bind, call; cbn.
  rewrite serve_reports_ignores_unmarked by apply Hnever.
  rewrite Hpending. cbn. now apply IH.
Qed.

(** X8. A send is not cancellable: once the enqueue call has been
    accepted, a send whose waiter no poll ever reports on does not
    return, however many polls it is given.  This holds for the plain
    and for the partition-targeted byte send. *)
Theorem send_blocks_until_its_report :
  forall (lib : Lib) (producerPtr : jlong) (topic : string)
         (jpartition : jint) (jkey : jbyteArray) (value : bytes),
    producerPtr <> 0 ->
    GetStringUTFChars_ok lib topic = true ->
    GetByteArrayElements_ok lib value = true ->
    (forall k, jkey = Some k -> GetByteArrayElements_ok lib k = true) ->
    is_error (rd_kafka_producev lib producerPtr
                (send_args topic None jkey value)) = false ->
    is_error (rd_kafka_producev lib producerPtr
                (send_args topic (Some jpartition) jkey value)) = false ->
    never_reported lib producerPtr ->
    forall fuel : nat,
      produceMessageBytes lib fuel producerPtr (Some topic) jkey (Some value)
        init = None
      /\ produceMessageBytesToPartition lib fuel producerPtr (Some topic)
           jpartition jkey (Some value) init = None.
Proof.
  intros lib producerPtr topic jpartition jkey value Hptr Htopic Hvalue Hkey
    Hplain Htargeted Hnever fuel.
  apply Z.eqb_neq in Hptr. split.
  - unfold produceMessageBytes. rewrite Hptr.
    unfold jni_GetStringUTFChars, jni_GetByteArrayElements,
      jni_ReleaseStringUTFChars, jni_ReleaseByteArrayElements,
      throwJavaException, bind, call, ret, set_pending; cbn.
    rewrite Htopic, Hvalue; cbn.
    destruct jkey as [k|]; cbn.
    + rewrite (Hkey k eq_refl); cbn.
      fold (send_args topic None (Some k) value).
      rewrite Hplain; cbn.
      rewrite produceMessageBytes_block_never_returns by
        (assumption || reflexivity).
      reflexivity.
    + fold (send_args topic None None value).
      rewrite Hplain; cbn.
      rewrite produceMessageBytes_block_never_returns by
        (assumption || reflexivity).
      reflexivity.
  - unfold produceMessageBytesToPartition. rewrite Hptr.
    unfold jni_GetStringUTFChars, jni_GetByteArrayElements,
      jni_ReleaseStringUTFChars, jni_ReleaseByteArrayElements,
      throwJavaException, bind, call, ret, set_pending; cbn.
    rewrite Htopic, Hvalue; cbn.
    destruct jkey as [k|]; cbn.
    + rewrite (Hkey k eq_refl); cbn.
      fold (send_args topic (Some jpartition) (Some k) value).
      rewrite Htargeted; cbn.
      rewrite produceMessageBytesToPartition_block_eq.
      rewrite produceMessageBytes_block_never_returns by
        (assumption || reflexivity).
      reflexivity.
    + fold (send_args topic (Some jpartition) None value).
      rewrite Htargeted; cbn.
      rewrite produceMessageBytesToPartition_block_eq.
      rewrite produceMessageBytes_block_never_returns by
        (assumption || reflexivity).
      reflexivity.
Qed.

Lemma send_blocks_until_its_report_witness :
  produceMessageBytes lib_silent 1000 7 (Some "chat") None (Some [Byte.x78])
    init = None
  /\ produceMessageBytesToPartition lib_silent 1000 7 (Some "chat") 2 None
       (Some [Byte.x78]) init = None.
Proof.
  apply (send_blocks_until_its_report lib_silent 7 "chat" 2 None [Byte.x78]);
    try solve [discriminate | reflexivity].
  intros n m Hin. destruct Hin.
Defined.

(** X9. The partition-targeted send reports what the broker reports.
    On a JVM that finds the [RecordMetadata] class and its constructor,
    when the polls before [n] serve nothing and poll [n] serves the one
    report [m] of this send, the send returns with any fuel above [n]:
    the partition and offset of [m] when [m] carries no error, the
    partition being the reported one, whichever was asked for; null
    with [rd_kafka_err2str] of the code of [m] pending otherwise. *)
Theorem produceMessageBytesToPartition_outcome :
  forall (lib : Lib) (producerPtr : jlong) (topic : string)
         (jpartition : jint) (jkey : jbyteArray) (value : bytes)
         (n : nat) (m : rd_kafka_message_t),
    producerPtr <> 0 ->
    FindClass lib "java/lang/RuntimeException" = true ->
    FindClass lib "org/github/cyterdan/chat_over_kafka/RecordMetadata" =
      true ->
    GetMethodID lib "org/github/cyterdan/chat_over_kafka/RecordMetadata"
      "<init>" "(IJ)V" = true ->
    GetStringUTFChars_ok lib topic = true ->
    GetByteArrayElements_ok lib value = true ->
    (forall k, jkey = Some k -> GetByteArrayElements_ok lib k = true) ->
    is_error (rd_kafka_producev lib producerPtr
                (send_args topic (Some jpartition) jkey value)) = false ->
    (forall k, (k < n)%nat -> rd_kafka_poll lib producerPtr k = []) ->
    rd_kafka_poll lib producerPtr n = [m] ->
    msg_private m = true ->
    forall fuel : nat, (n < fuel)%nat ->
      observed (produceMessageBytesToPartition lib fuel producerPtr
                  (Some topic) jpartition jkey (Some value) init) =
        Some (if is_error (msg_err m) then None
              else Some {| rm_partition := msg_partition m;
                           rm_offset := msg_offset m |},
              raised_for lib (msg_err m)).
Proof.
  intros lib producerPtr topic jpartition jkey value n m Hptr Hexc Hcls
    Hctor Htopic Hvalue Hkey Henq Hbefore Hat Hpriv fuel Hfuel.
  destruct (waiter_after_single_report lib producerPtr n m Hbefore Hat Hpriv)
    as [Hpending Hw].
  apply Z.eqb_neq in Hptr.
  unfold produceMessageBytesToPartition. rewrite Hptr.
  unfold jni_GetStringUTFChars, jni_GetByteArrayElements,
    jni_ReleaseStringUTFChars, jni_ReleaseByteArrayElements,
    throwJavaException, raised_for, NewObject_RecordMetadata, bind, call,
    ret, set_pending; cbn.
  rewrite Htopic, Hvalue, Hexc, Hcls, Hctor; cbn.
  destruct jkey as [k|]; cbn.
  - rewrite (Hkey k eq_refl); cbn.
    fold (send_args topic (Some jpartition) (Some k) value).
    rewrite Henq; cbn.
    rewrite produceMessageBytesToPartition_block_eq.
    rewrite (produceMessageBytes_block_returns lib producerPtr n);
      try assumption;
      [|fold (waiter_after lib producerPtr n); rewrite Hw; reflexivity].
    fold (waiter_after lib producerPtr n). rewrite Hw. cbn.
    destruct (is_error (msg_err m)); reflexivity.
  - fold (send_args topic (Some jpartition) None value).
    rewrite Henq; cbn.
    rewrite produceMessageBytesToPartition_block_eq.
    rewrite (produceMessageBytes_block_returns lib producerPtr n);
      try assumption;
      [|fold (waiter_after lib producerPtr n); rewrite Hw; reflexivity].
    fold (waiter_after lib producerPtr n). rewrite Hw. cbn.
    destruct (is_error (msg_err m)); reflexivity.
Qed.

Lemma produceMessageBytesToPartition_outcome_witness :
  observed (produceMessageBytesToPartition lib_ok 5 7 (Some "chat") 0
              (Some [Byte.x6b]) (Some [Byte.x78]) init) =
    Some (Some {| rm_partition := 3; rm_offset := 42 |}, None).
Proof.
  apply (produceMessageBytesToPartition_outcome lib_ok 7 "chat" 0
           (Some [Byte.x6b]) [Byte.x78] 2 report_ok);
    try solve [discriminate | reflexivity | lia].
  intros k Hk. destruct k as [|[|k]]; [reflexivity|reflexivity|lia].
Defined.

(** ** The string send *)

(** The loop of the string send and the loop of the byte sends end on
    the same waiter, or block together, from a pending waiter. *)
Lemma produceMessage_block_agrees (lib : Lib) (producer : jlong) :
  forall (fuel n : nat) (state : DeliveryState) (sx : ext_state)
         (s : jni_state),
    done state = false ->
    ext_pending sx = pending s ->
    option_map (fun r => (fst r, ext_pending (snd r)))
      (produceMessage_block lib fuel producer n state sx) =
    option_map (fun r => (fst r, pending (snd r)))
      (produceMessageBytes_block lib fuel producer n state s).
Proof.
  induction fuel as [|fuel IH]; intros n state sx s Hpending Hsame; cbn;
    rewrite Hpending; [reflexivity|].
  unfold lift, bindx, bind, call; cbn.
  destruct (done (serve_reports (rd_kafka_poll lib producer n) state))
    eqn:Hdone.
  - destruct fuel; cbn; rewrite Hdone; unfold retx, ret; cbn;
      now rewrite Hsame.
  - cbn. apply IH; [exact Hdone|exact Hsame].
Qed.

(** X10. The string send is the byte send on the bytes of its strings.
    When the JVM hands out every string and array involved, the two
    natives, given the same handle, topic, key and value and the same
    number of polls, return the same object with the same pending
    exception, or block together: on a null handle, topic or value, on
    a refused enqueue, on a failed and on a successful delivery. *)
Theorem produceMessage_agrees_with_produceMessageBytes :
  forall (lib : Lib) (ext : LibExt) (fuel : nat) (producerPtr : jlong)
         (jtopic jkey jvalue : jstring),
    (forall str, jtopic = Some str -> GetStringUTFChars_ok lib str = true) ->
    (forall str, jvalue = Some str ->
       GetStringUTFChars_ok lib str = true
       /\ GetByteArrayElements_ok lib (list_byte_of_string str) = true) ->
    (forall str, jkey = Some str ->
       GetStringUTFChars_ok lib str = true
       /\ GetByteArrayElements_ok lib (list_byte_of_string str) = true) ->
    observedx (produceMessage lib ext fuel producerPtr jtopic jkey jvalue
                 ext_init) =
    observed (produceMessageBytes lib fuel producerPtr jtopic
                (option_map list_byte_of_string jkey)
                (option_map list_byte_of_string jvalue) init).
Proof.
  intros lib ext fuel producerPtr jtopic jkey jvalue Htopic Hvalue Hkey.
  unfold produceMessage, produceMessageBytes.
  destruct (producerPtr =? 0); [destruct jtopic, jvalue|];
    try (unfold lift, throwJavaException, bindx, retx, bind, call, ret,
           set_pending; cbn;
         destruct (FindClass lib _); reflexivity).
  destruct jtopic as [topic|], jvalue as [value|];
    try (unfold lift, throwJavaException, bindx, retx, bind, call, ret,
           set_pending; cbn;
         destruct (FindClass lib _); reflexivity).
  specialize (Htopic topic eq_refl).
  destruct (Hvalue value eq_refl) as [Hvs Hvb].
  unfold lift, jni_GetStringUTFChars, jni_GetStringUTFLength,
    jni_GetByteArrayElements, jni_ReleaseStringUTFChars,
    jni_ReleaseByteArrayElements, release_unchecked, producev_str,
    throwJavaException, bindx, callx, retx, bind, call, ret, set_pending;
    cbn.
  rewrite Htopic, Hvs, Hvb; cbn.
  destruct jkey as [key|]; cbn.
  - destruct (Hkey key eq_refl) as [Hks Hkb]. rewrite Hks, Hkb; cbn.
    destruct (is_error (rd_kafka_producev lib producerPtr _)); cbn;
      [destruct (FindClass lib _); reflexivity|].
    match goal with
    | |- context [produceMessage_block lib fuel producerPtr 0 ?w ?sx] =>
        match goal with
        | |- context [produceMessageBytes_block lib fuel producerPtr 0 w ?s] =>
            pose proof (produceMessage_block_agrees lib producerPtr fuel 0
                          w sx s eq_refl eq_refl) as Hloop
        end
    end.
    destruct (produceMessage_block _ _ _ _ _ _) as [[w sx']|];
      destruct (produceMessageBytes_block _ _ _ _ _ _) as [[w' s']|];
      cbn in Hloop; try discriminate; [|reflexivity].
    injection Hloop as -> Hp. cbn.
    destruct (is_error (err w')); cbn; [|now rewrite Hp].
    destruct (FindClass lib _); cbn; [reflexivity|now rewrite Hp].
  - destruct (is_error (rd_kafka_producev lib producerPtr _)); cbn;
      [destruct (FindClass lib _); reflexivity|].
    match goal with
    | |- context [produceMessage_block lib fuel producerPtr 0 ?w ?sx] =>
        match goal with
        | |- context [produceMessageBytes_block lib fuel producerPtr 0 w ?s] =>
            pose proof (produceMessage_block_agrees lib producerPtr fuel 0
                          w sx s eq_refl eq_refl) as Hloop
        end
    end.
    destruct (produceMessage_block _ _ _ _ _ _) as [[w sx']|];
      destruct (produceMessageBytes_block _ _ _ _ _ _) as [[w' s']|];
      cbn in Hloop; try discriminate; [|reflexivity].
    injection Hloop as -> Hp. cbn.
    destruct (is_error (err w')); cbn; [|now rewrite Hp].
    destruct (FindClass lib _); cbn; [reflexivity|now rewrite Hp].
Qed.

Lemma produceMessage_agrees_with_produceMessageBytes_witness :
  observedx (produceMessage lib_ok ext_ok 5 7 (Some "chat") (Some "k")
               (Some "hello") ext_init) =
  observed (produceMessageBytes lib_ok 5 7 (Some "chat")
              (option_map list_byte_of_string (Some "k"))
              (option_map list_byte_of_string (Some "hello")) init).
Proof.
  apply (produceMessage_agrees_with_produceMessageBytes lib_ok ext_ok 5 7
           (Some "chat") (Some "k") (Some "hello"));
    intros str Hstr; try split; reflexivity.
Defined.

(** X11. Where the two sends part: when the JVM cannot hand out the
    topic, the byte send stops with "Failed to get topic" before any
    enqueue, while the string send does not look at the pointer: it
    enqueues with a null topic, releases the null pointer, and passes on
    what the library answers to that call. *)
Theorem produceMessage_enqueues_null_topic :
  forall (lib : Lib) (ext : LibExt) (fuel : nat) (producerPtr : jlong)
         (topic value : string),
    producerPtr <> 0 ->
    FindClass lib "java/lang/RuntimeException" = true ->
    GetStringUTFChars_ok lib topic = false ->
    GetStringUTFChars_ok lib value = true ->
    let args :=
      {| ps_topic := None; ps_key := None; ps_value := Some value;
         ps_value_len := Z.of_nat (String.length value) |} in
    let answer := rd_kafka_producev_null ext producerPtr args in
    is_error answer = true ->
    produceMessage lib ext fuel producerPtr (Some topic) None (Some value)
      ext_init =
      Some (None,
            {| ext_trace :=
                 [core_ev (GetStringUTFChars_ev topic);
                  core_ev (GetStringUTFChars_ev value);
                  GetStringUTFLength_ev value;
                  producev_str_ev producerPtr args;
                  ReleaseStringUTFChars_null_ev topic;
                  core_ev (ReleaseStringUTFChars_ev value);
                  core_ev (ThrowNew_ev (rd_kafka_err2str lib answer))];
               ext_pending := Some (rd_kafka_err2str lib answer) |})
    /\ forall (jkey : jbyteArray) (bytes_value : bytes),
         produceMessageBytes lib fuel producerPtr (Some topic) jkey
           (Some bytes_value) init =
           Some (None,
                 {| trace := [GetStringUTFChars_ev topic;
                              ThrowNew_ev "Failed to get topic"];
                    pending := Some "Failed to get topic"; conf := None |}).
Proof.
  intros lib ext fuel producerPtr topic value Hptr Hexc Htopic Hvalue args
    answer Herr.
  apply Z.eqb_neq in Hptr. split.
  - unfold produceMessage. rewrite Hptr.
    unfold lift, jni_GetStringUTFChars, jni_GetStringUTFLength,
      jni_ReleaseStringUTFChars, release_unchecked, producev_str,
      throwJavaException, bindx, callx, retx, bind, call, ret, set_pending;
      cbn.
    rewrite Htopic, Hvalue, Hexc; cbn.
    fold args. fold answer. rewrite Herr. reflexivity.
  - intros jkey bytes_value.
    unfold produceMessageBytes. rewrite Hptr.
    unfold jni_GetStringUTFChars, throwJavaException, bind, call, ret,
      set_pending; cbn.
    rewrite Htopic, Hexc. reflexivity.
Qed.

Lemma produceMessage_enqueues_null_topic_witness :
  produceMessage lib_topic_unavailable ext_ok 5 7 (Some "chat") None
    (Some "hello") ext_init =
    Some (None,
          {| ext_trace :=
               [core_ev (GetStringUTFChars_ev "chat");
                core_ev (GetStringUTFChars_ev "hello");
                GetStringUTFLength_ev "hello";
                producev_str_ev 7
                  {| ps_topic := None; ps_key := None;
                     ps_value := Some "hello"; ps_value_len := 5 |};
                ReleaseStringUTFChars_null_ev "chat";
                core_ev (ReleaseStringUTFChars_ev "hello");
                core_ev (ThrowNew_ev "Local: Message timed out")];
             ext_pending := Some "Local: Message timed out" |})
  /\ forall (jkey : jbyteArray) (bytes_value : bytes),
       produceMessageBytes lib_topic_unavailable 5 7 (Some "chat") jkey
         (Some bytes_value) init =
         Some (None,
               {| trace := [GetStringUTFChars_ev "chat";
                            ThrowNew_ev "Failed to get topic"];
                  pending := Some "Failed to get topic"; conf := None |}).
Proof.
  apply (produceMessage_enqueues_null_topic lib_topic_unavailable ext_ok 5 7
           "chat" "hello"); solve [discriminate | reflexivity].
Defined.

(** ** How a creation ends *)

Section Creation.

Variable lib : Lib.
Hypothesis runtime_exception_found :
  FindClass lib "java/lang/RuntimeException" = true.

Lemma steps_ret {A : Type} (a : A) (p o : bool) : steps (ret a) p o p o.
Proof.
  intros s Hs. now exists a, s.
Qed.

Lemma steps_bind {A B : Type} (m : M A) (k : A -> M B)
    (p o p1 o1 p2 o2 : bool) :
  steps m p o p1 o1 -> (forall a, steps (k a) p1 o1 p2 o2) ->
  steps (bind m k) p o p2 o2.
Proof.
  intros Hm Hk s Hs. destruct (Hm s Hs) as (a & s1 & Em & H1).
  destruct (Hk a s1 H1) as (b & s2 & Ek & H2).
  exists b, s2. unfold bind. rewrite Em. now split.
Qed.

Lemma steps_call (e : event) (p o : bool) : steps (call e) p o p o.
Proof.
  intros s Hs. eexists. eexists. split; [reflexivity|exact Hs].
Qed.

Lemma steps_throwJavaException (msg : string) (p o : bool) :
  steps (throwJavaException lib msg) p o true o.
Proof.
  intros s [_ Ho]. unfold throwJavaException.
  rewrite runtime_exception_found.
  eexists. eexists. split; [reflexivity|]. split; [reflexivity|exact Ho].
Qed.

Lemma steps_conf_new (p o : bool) : steps conf_new p o p true.
Proof.
  intros s [Hp _]. eexists. eexists. split; [reflexivity|].
  split; [exact Hp|reflexivity].
Qed.

Lemma steps_conf_destroy (p o : bool) : steps conf_destroy p o p false.
Proof.
  intros s [Hp _]. eexists. eexists. split; [reflexivity|].
  split; [exact Hp|reflexivity].
Qed.

Lemma steps_conf_set (name : string) (value : option string) (p o : bool) :
  steps (conf_set lib name value) p o p o.
Proof.
  intros s [Hp Ho]. unfold conf_set, when, bind, call, get_conf, set_conf,
    ret; cbn.
  destruct (conf_ok (fst (rd_kafka_conf_set lib name value))); cbn;
    eexists; eexists; (split; [reflexivity|]); split; cbn; try assumption.
  destruct (conf s); exact Ho.
Qed.

Lemma steps_conf_set_log_cb (p o : bool) : steps conf_set_log_cb p o p o.
Proof.
  intros s [Hp Ho]. eexists. eexists. split; [reflexivity|].
  split; cbn; [exact Hp|]. destruct (conf s); exact Ho.
Qed.

Lemma steps_conf_set_dr_msg_cb (p o : bool) :
  steps conf_set_dr_msg_cb p o p o.
Proof.
  intros s [Hp Ho]. eexists. eexists. split; [reflexivity|].
  split; cbn; [exact Hp|]. destruct (conf s); exact Ho.
Qed.

Lemma steps_GetStringUTFChars (str : string) (p o : bool) :
  steps (jni_GetStringUTFChars lib str) p o p o.
Proof.
  intros s Hs. eexists. eexists. split; [reflexivity|exact Hs].
Qed.

Lemma steps_ReleaseStringUTFChars (str : string) (p o : bool) :
  steps (jni_ReleaseStringUTFChars str) p o p o.
Proof.
  apply steps_call.
Qed.

Lemma steps_when (c : bool) (m : M unit) (p o : bool) :
  steps m p o p o -> steps (when c m) p o p o.
Proof.
  intros Hm. destruct c; [exact Hm|apply steps_ret].
Qed.

Lemma steps_JniStringWrapper (jstr : jstring) (p o : bool) :
  steps (JniStringWrapper lib jstr) p o p o.
Proof.
  destruct jstr; [apply steps_GetStringUTFChars|apply steps_ret].
Qed.

Lemma steps_JniStringWrapper_dtor (jstr : jstring) (c : option string)
    (p o : bool) :
  steps (JniStringWrapper_dtor jstr c) p o p o.
Proof.
  destruct c, jstr; first [apply steps_call | apply steps_ret].
Qed.

Lemma ends_well_bind {A : Type} (m : M A) (k : A -> M jlong)
    (leak_ok p o p' o' : bool) :
  steps m p o p' o' -> (forall a, ends_well leak_ok p' o' (k a)) ->
  ends_well leak_ok p o (bind m k).
Proof.
  intros Hm Hk s Hs. destruct (Hm s Hs) as (a & s1 & Em & H1).
  destruct (Hk a s1 H1) as (r & s2 & Ek & H2).
  exists r, s2. unfold bind. rewrite Em. now split.
Qed.

(** [rd_kafka_new]: the object changes hands exactly when a handle
    comes back. *)
Lemma ends_well_kafka_new (type : rd_kafka_type_t)
    (k : jlong * string -> M jlong) (leak_ok p o : bool) :
  (forall r, fst r <> 0 -> ends_well leak_ok p false (k r)) ->
  (forall r, fst r = 0 -> ends_well leak_ok p o (k r)) ->
  ends_well leak_ok p o (bind (kafka_new lib type) k).
Proof.
  intros Hhandle Hnull s [Hp Ho].
  unfold kafka_new, when, bind, call, get_conf, set_conf, ret; cbn.
  match goal with
  | |- context [rd_kafka_new lib type ?c] =>
      set (r := rd_kafka_new lib type c)
  end.
  destruct (Z.eqb_spec (fst r) 0) as [E|E]; cbn.
  - apply (Hnull r E). now split.
  - apply (Hhandle r E). now split.
Qed.

Lemma ends_well_ret_handle (leak_ok : bool) (r : jlong) :
  r <> 0 -> ends_well leak_ok false false (ret r).
Proof.
  intros Hr s [Hp Ho]. exists r, s. split; [reflexivity|]. split.
  - destruct (pending s); [discriminate Hp|]. split; congruence.
  - left. destruct (conf s); [discriminate Ho|reflexivity].
Qed.

Lemma ends_well_ret_null (leak_ok : bool) :
  ends_well leak_ok true false (ret 0).
Proof.
  intros s [Hp Ho]. exists 0, s. split; [reflexivity|]. split.
  - destruct (pending s); [|discriminate Hp]. split; congruence.
  - left. destruct (conf s); [discriminate Ho|reflexivity].
Qed.

Lemma ends_well_ret_null_leak (o : bool) : ends_well true true o (ret 0).
Proof.
  intros s [Hp Ho]. exists 0, s. split; [reflexivity|]. split.
  - destruct (pending s); [|discriminate Hp]. split; congruence.
  - right. now split.
Qed.

End Creation.

Create HintDb steps.

#[local] Hint Resolve steps_ret steps_call steps_throwJavaException
  steps_conf_new steps_conf_destroy steps_conf_set steps_conf_set_log_cb
  steps_conf_set_dr_msg_cb steps_GetStringUTFChars
  steps_ReleaseStringUTFChars steps_when steps_JniStringWrapper
  steps_JniStringWrapper_dtor : steps.

(** Finds the abstract state a sequence of calls ends in. *)
Ltac steps_tac :=
  repeat match goal with
         | |- steps (bind _ _) _ _ _ _ => eapply steps_bind; [|intros ?]
         | |- steps (when _ _) _ _ _ _ => apply steps_when
         | |- steps (match ?x with _ => _ end) _ _ _ _ => destruct x
         | |- steps (let _ := _ in _) _ _ _ _ => progress cbv zeta
         | |- steps _ _ _ _ _ => solve [eauto with steps]
         end.

(** Walks through a creation, one call at a time. *)
Ltac ends_well_tac :=
  repeat match goal with
         | |- ends_well _ _ _ (bind (kafka_new _ _) _) =>
             apply ends_well_kafka_new; intros ? ?
         | |- ends_well _ _ _ (bind _ _) =>
             eapply ends_well_bind; [solve [steps_tac]|intros ?]
         | |- ends_well _ true false (ret 0) => apply ends_well_ret_null
         | |- ends_well true true _ (ret 0) => apply ends_well_ret_null_leak
         | |- ends_well _ false false (ret _) =>
             apply ends_well_ret_handle; assumption
         | H : fst ?r = 0 |- ends_well _ _ _ (if ?b then _ else _) =>
             replace b with true by (symmetry; apply Z.eqb_eq; exact H)
         | H : fst ?r <> 0 |- ends_well _ _ _ (if ?b then _ else _) =>
             replace b with false by (symmetry; apply Z.eqb_neq; exact H)
         | |- ends_well _ _ _ (if ?b then _ else _) => destruct b
         | |- ends_well _ _ _ (match ?x with _ => _ end) => destruct x
         | |- ends_well _ _ _ _ => progress cbv beta zeta
         end.

(** ** JNI buffers *)

Lemma jni_acquired_app (lib : Lib) (t1 t2 : list event) :
  jni_acquired lib (t1 ++ t2) = jni_acquired lib t1 ++ jni_acquired lib t2.
Proof.
  induction t1 as [|e t1 IH]; cbn; [reflexivity|].
  destruct e; cbn; try exact IH.
  - destruct (GetStringUTFChars_ok lib s); cbn; now rewrite IH.
  - destruct (GetByteArrayElements_ok lib a); cbn; now rewrite IH.
Qed.

Lemma jni_released_app (t1 t2 : list event) :
  jni_released (t1 ++ t2) = jni_released t1 ++ jni_released t2.
Proof.
  induction t1 as [|e t1 IH]; cbn; [reflexivity|].
  destruct e; cbn; now rewrite ?IH.
Qed.

Lemma pick_later (x y : jni_buffer) (rest out : list jni_buffer) :
  Permutation rest (x :: out) -> Permutation (y :: rest) (x :: y :: out).
Proof.
  intros H. eapply perm_trans; [apply perm_skip, H|apply perm_swap].
Qed.

Section Buffers.

Variable lib : Lib.

Lemma moves_bal_ret {A : Type} (a : A) (out : list jni_buffer) :
  moves_bal lib (ret a) out out.
Proof.
  intros s a' s' Hs E. injection E as _ <-. exact Hs.
Qed.

Lemma moves_bal_bind {A B : Type} (m : M A) (k : A -> M B)
    (out out1 out2 : list jni_buffer) :
  moves_bal lib m out out1 -> (forall a, moves_bal lib (k a) out1 out2) ->
  moves_bal lib (bind m k) out out2.
Proof.
  intros Hm Hk s b s' Hs E. unfold bind in E.
  destruct (m s) as [[a s1]|] eqn:Em; [|discriminate E].
  exact (Hk a s1 b s' (Hm s a s1 Hs Em) E).
Qed.

Lemma moves_bal_call (e : event) (out : list jni_buffer) :
  jni_neutral e = true -> moves_bal lib (call e) out out.
Proof.
  intros He s a s' Hs E. injection E as _ <-. unfold in_bal in *. cbn.
  rewrite jni_acquired_app, jni_released_app.
  destruct e; try discriminate He; cbn; now rewrite !app_nil_r.
Qed.

Lemma moves_bal_set_pending (msg : string) (out : list jni_buffer) :
  moves_bal lib (set_pending msg) out out.
Proof.
  intros s a s' Hs E. injection E as _ <-. exact Hs.
Qed.

Lemma moves_bal_set_conf (c : option rd_kafka_conf_t)
    (out : list jni_buffer) :
  moves_bal lib (set_conf c) out out.
Proof.
  intros s a s' Hs E. injection E as _ <-. exact Hs.
Qed.

Lemma moves_bal_get_conf (out : list jni_buffer) :
  moves_bal lib get_conf out out.
Proof.
  intros s a s' Hs E. injection E as _ <-. exact Hs.
Qed.

Lemma moves_bal_when (c : bool) (m : M unit) (out : list jni_buffer) :
  moves_bal lib m out out -> moves_bal lib (when c m) out out.
Proof.
  intros Hm. destruct c; [exact Hm|apply moves_bal_ret].
Qed.

Lemma moves_bal_throwJavaException (msg : string) (out : list jni_buffer) :
  moves_bal lib (throwJavaException lib msg) out out.
Proof.
  unfold throwJavaException. destruct (FindClass lib _).
  - eapply moves_bal_bind; [now apply moves_bal_call|].
    intros _. apply moves_bal_set_pending.
  - apply moves_bal_ret.
Qed.

Lemma moves_bal_conf_new (out : list jni_buffer) :
  moves_bal lib conf_new out out.
Proof.
  eapply moves_bal_bind; [now apply moves_bal_call|].
  intros _. apply moves_bal_set_conf.
Qed.

Lemma moves_bal_conf_set (name : string) (value : option string)
    (out : list jni_buffer) :
  moves_bal lib (conf_set lib name value) out out.
Proof.
  eapply moves_bal_bind; [now apply moves_bal_call|]. intros _.
  eapply moves_bal_bind; [apply moves_bal_get_conf|]. intros c.
  eapply moves_bal_bind; [apply moves_bal_when, moves_bal_set_conf|].
  intros _. apply moves_bal_ret.
Qed.

Lemma moves_bal_conf_set_log_cb (out : list jni_buffer) :
  moves_bal lib conf_set_log_cb out out.
Proof.
  eapply moves_bal_bind; [now apply moves_bal_call|]. intros _.
  eapply moves_bal_bind; [apply moves_bal_get_conf|]. intros c.
  apply moves_bal_set_conf.
Qed.

Lemma moves_bal_conf_set_dr_msg_cb (out : list jni_buffer) :
  moves_bal lib conf_set_dr_msg_cb out out.
Proof.
  eapply moves_bal_bind; [now apply moves_bal_call|]. intros _.
  eapply moves_bal_bind; [apply moves_bal_get_conf|]. intros c.
  apply moves_bal_set_conf.
Qed.

Lemma moves_bal_conf_set_opaque (rk : jlong) (out : list jni_buffer) :
  moves_bal lib (conf_set_opaque rk) out out.
Proof.
  eapply moves_bal_bind; [now apply moves_bal_call|]. intros _.
  eapply moves_bal_bind; [apply moves_bal_get_conf|]. intros c.
  apply moves_bal_set_conf.
Qed.

Lemma moves_bal_conf_destroy (out : list jni_buffer) :
  moves_bal lib conf_destroy out out.
Proof.
  eapply moves_bal_bind; [now apply moves_bal_call|].
  intros _. apply moves_bal_set_conf.
Qed.

Lemma moves_bal_kafka_new (type : rd_kafka_type_t) (out : list jni_buffer) :
  moves_bal lib (kafka_new lib type) out out.
Proof.
  eapply moves_bal_bind; [now apply moves_bal_call|]. intros _.
  eapply moves_bal_bind; [apply moves_bal_get_conf|]. intros c.
  eapply moves_bal_bind; [apply moves_bal_when, moves_bal_set_conf|].
  intros _. apply moves_bal_ret.
Qed.

(** Giving a buffer back takes it off the outstanding ones. *)
Lemma moves_bal_ReleaseStringUTFChars (str : string)
    (out out' : list jni_buffer) :
  Permutation out (chars_of str :: out') ->
  moves_bal lib (jni_ReleaseStringUTFChars str) out out'.
Proof.
  intros Hout s a s' Hs E. injection E as _ <-. unfold in_bal in *. cbn.
  rewrite jni_acquired_app, jni_released_app. cbn. rewrite app_nil_r.
  rewrite <- app_assoc. cbn.
  eapply perm_trans; [exact Hs|]. now apply Permutation_app_head.
Qed.

Lemma moves_bal_ReleaseByteArrayElements (a : bytes)
    (out out' : list jni_buffer) :
  Permutation out (elements_of a :: out') ->
  moves_bal lib (jni_ReleaseByteArrayElements a) out out'.
Proof.
  intros Hout s u s' Hs E. injection E as _ <-. unfold in_bal in *. cbn.
  rewrite jni_acquired_app, jni_released_app. cbn. rewrite app_nil_r.
  rewrite <- app_assoc. cbn.
  eapply perm_trans; [exact Hs|]. now apply Permutation_app_head.
Qed.

Lemma keeps_bal_ret {A : Type} (a : A) : keeps_bal lib [] (ret a).
Proof.
  apply moves_bal_ret.
Qed.

Lemma keeps_bal_bind {A B : Type} (m : M A) (k : A -> M B)
    (out out1 : list jni_buffer) :
  moves_bal lib m out out1 -> (forall a, keeps_bal lib out1 (k a)) ->
  keeps_bal lib out (bind m k).
Proof.
  apply moves_bal_bind.
Qed.

(** A fetch either hands out the buffer or hands out null. *)
Lemma keeps_bal_GetStringUTFChars {B : Type} (str : string)
    (k : option string -> M B) (out : list jni_buffer) :
  (GetStringUTFChars_ok lib str = true ->
   keeps_bal lib (chars_of str :: out) (k (Some str))) ->
  (GetStringUTFChars_ok lib str = false -> keeps_bal lib out (k None)) ->
  keeps_bal lib out (bind (jni_GetStringUTFChars lib str) k).
Proof.
  intros Hok Hnull s b s' Hs E.
  unfold bind, jni_GetStringUTFChars, call, ret in E; cbn in E.
  assert (Hin : forall extra,
            jni_acquired lib [GetStringUTFChars_ev str] = extra ->
            in_bal lib (extra ++ out)
              {| trace := trace s ++ [GetStringUTFChars_ev str];
                 pending := pending s; conf := conf s |}).
  { intros extra <-. unfold in_bal in *. cbn [trace].
    rewrite jni_acquired_app, jni_released_app. cbn [jni_released].
    rewrite app_nil_r. eapply perm_trans.
    - apply Permutation_app_tail, Hs.
    - rewrite <- !app_assoc. apply Permutation_app_head.
      apply Permutation_app_comm. }
  cbn in Hin.
  destruct (GetStringUTFChars_ok lib str) eqn:Eok.
  - exact (Hok eq_refl _ b s' (Hin _ eq_refl) E).
  - exact (Hnull eq_refl _ b s' (Hin _ eq_refl) E).
Qed.

Lemma keeps_bal_GetByteArrayElements {B : Type} (a : bytes)
    (k : option bytes -> M B) (out : list jni_buffer) :
  (GetByteArrayElements_ok lib a = true ->
   keeps_bal lib (elements_of a :: out) (k (Some a))) ->
  (GetByteArrayElements_ok lib a = false -> keeps_bal lib out (k None)) ->
  keeps_bal lib out (bind (jni_GetByteArrayElements lib a) k).
Proof.
  intros Hok Hnull s b s' Hs E.
  unfold bind, jni_GetByteArrayElements, call, ret in E; cbn in E.
  assert (Hin : forall extra,
            jni_acquired lib [GetByteArrayElements_ev a] = extra ->
            in_bal lib (extra ++ out)
              {| trace := trace s ++ [GetByteArrayElements_ev a];
                 pending := pending s; conf := conf s |}).
  { intros extra <-. unfold in_bal in *. cbn [trace].
    rewrite jni_acquired_app, jni_released_app. cbn [jni_released].
    rewrite app_nil_r. eapply perm_trans.
    - apply Permutation_app_tail, Hs.
    - rewrite <- !app_assoc. apply Permutation_app_head.
      apply Permutation_app_comm. }
  cbn in Hin.
  destruct (GetByteArrayElements_ok lib a) eqn:Eok.
  - exact (Hok eq_refl _ b s' (Hin _ eq_refl) E).
  - exact (Hnull eq_refl _ b s' (Hin _ eq_refl) E).
Qed.

(** The blocked send touches no buffer. *)
Lemma moves_bal_block (producer : jlong) (out : list jni_buffer) :
  forall (fuel n : nat) (state : DeliveryState),
    moves_bal lib (produceMessageBytes_block lib fuel producer n state)
      out out.
Proof.
  induction fuel as [|fuel IH]; intros n state; cbn.
  - intros s a s' _ E. discriminate E.
  - eapply moves_bal_bind; [now apply moves_bal_call|]. intros _.
    eapply moves_bal_bind; [now apply moves_bal_call|]. intros _.
    destruct (done (serve_reports (rd_kafka_poll lib producer n) state)).
    + eapply moves_bal_bind; [now apply moves_bal_call|]. intros _.
      apply moves_bal_ret.
    + eapply moves_bal_bind; [now apply moves_bal_call|]. intros _.
      eapply moves_bal_bind; [now apply moves_bal_call|]. intros _.
      apply IH.
Qed.

Lemma moves_bal_block_to_partition (producer : jlong)
    (out : list jni_buffer) (fuel n : nat) (state : DeliveryState) :
  moves_bal lib
    (produceMessageBytesToPartition_block lib fuel producer n state) out out.
Proof.
  intros s a s' Hs E. rewrite produceMessageBytesToPartition_block_eq in E.
  exact (moves_bal_block producer out fuel n state s a s' Hs E).
Qed.

End Buffers.

(** Finds [x] among the outstanding buffers. *)
Ltac pick_buffer :=
  first [apply Permutation_refl | eapply pick_later; pick_buffer].

(** Follows the outstanding buffers through a sequence of calls. *)
Ltac moves_bal_tac :=
  repeat match goal with
         | |- moves_bal _ (bind _ _) _ _ =>
             eapply moves_bal_bind; [|intros ?]
         | |- moves_bal _ (ret _) _ _ => apply moves_bal_ret
         | |- moves_bal _ (call _) _ _ => apply moves_bal_call; reflexivity
         | |- moves_bal _ (jni_ReleaseStringUTFChars _) _ _ =>
             eapply moves_bal_ReleaseStringUTFChars; pick_buffer
         | |- moves_bal _ (jni_ReleaseByteArrayElements _) _ _ =>
             eapply moves_bal_ReleaseByteArrayElements; pick_buffer
         | |- moves_bal _ (throwJavaException _ _) _ _ =>
             apply moves_bal_throwJavaException
         | |- moves_bal _ conf_new _ _ => apply moves_bal_conf_new
         | |- moves_bal _ (conf_set _ _ _) _ _ => apply moves_bal_conf_set
         | |- moves_bal _ conf_set_log_cb _ _ =>
             apply moves_bal_conf_set_log_cb
         | |- moves_bal _ conf_set_dr_msg_cb _ _ =>
             apply moves_bal_conf_set_dr_msg_cb
         | |- moves_bal _ (conf_set_opaque _) _ _ =>
             apply moves_bal_conf_set_opaque
         | |- moves_bal _ conf_destroy _ _ => apply moves_bal_conf_destroy
         | |- moves_bal _ (kafka_new _ _) _ _ => apply moves_bal_kafka_new
         | |- moves_bal _ (produceMessageBytes_block _ _ _ _ _) _ _ =>
             apply moves_bal_block
         | |- moves_bal _ (produceMessageBytesToPartition_block _ _ _ _ _)
                _ _ =>
             apply moves_bal_block_to_partition
         | |- moves_bal _ (JniStringWrapper_dtor _ _) _ _ =>
             unfold JniStringWrapper_dtor
         | |- moves_bal _ (when ?c _) _ _ =>
             first [ progress cbn [when negb is_null]
                   | apply moves_bal_when ]
         | |- moves_bal _ (match ?x with _ => _ end) _ _ => destruct x
         | |- moves_bal _ (if ?b then _ else _) _ _ => destruct b
         | |- moves_bal _ _ _ _ => progress cbv beta zeta
         end.

(** Walks through a native, splitting at every fetch. *)
Ltac keeps_bal_tac :=
  repeat match goal with
         | |- keeps_bal _ _ (bind (jni_GetStringUTFChars _ _) _) =>
             apply keeps_bal_GetStringUTFChars; intros ?
         | |- keeps_bal _ _ (bind (jni_GetByteArrayElements _ _) _) =>
             apply keeps_bal_GetByteArrayElements; intros ?
         | |- keeps_bal _ _ (bind (JniStringWrapper _ ?j) _) =>
             destruct j; cbn [JniStringWrapper]
         | |- keeps_bal _ _ (bind (match ?x with _ => _ end) _) =>
             destruct x
         | |- keeps_bal _ _ (bind _ _) =>
             eapply keeps_bal_bind; [solve [moves_bal_tac]|intros ?]
         | |- keeps_bal _ [] (ret _) => apply keeps_bal_ret
         | |- keeps_bal ?l ?out (if true then ?m else _) =>
             change (keeps_bal l out m)
         | |- keeps_bal ?l ?out (if false then _ else ?m) =>
             change (keeps_bal l out m)
         | |- keeps_bal _ _ (if negb ?b then _ else _) =>
             destruct b; cbn [negb]
         | |- keeps_bal _ _ (if ?b then _ else _) => destruct b
         | |- keeps_bal _ _ (match ?x with _ => _ end) => destruct x
         | |- keeps_bal _ _ (let _ := _ in _) => progress cbv zeta
         | |- keeps_bal _ _ ((fun _ => _) _) => progress cbv beta
         | |- keeps_bal _ [] _ => solve [unfold keeps_bal; moves_bal_tac]
         end.

(** X12. A creation ends with a handle or with an exception, never
    with both and never with neither: on every path of [createConsumer],
    [createConsumerMTLS] and [createProducerMTLS], whatever the JVM and
    the library answer, the call returns, and the returned handle is
    null exactly when an exception is pending.  The two consumer
    creations never return owning a configuration object; the producer
    creation does not own one when it returns a handle. *)
Theorem creation_gives_handle_or_exception :
  forall (lib : Lib)
         (jbrokers jgroupId jcaCertPath jclientCertPath jclientKeyPath
            joffsetStrategy : jstring),
    FindClass lib "java/lang/RuntimeException" = true ->
    (exists r s,
       createConsumer lib jbrokers jgroupId init = Some (r, s)
       /\ (r = 0 <-> pending s <> None) /\ conf s = None)
    /\ (exists r s,
          createConsumerMTLS lib jbrokers jgroupId jcaCertPath
            jclientCertPath jclientKeyPath joffsetStrategy init = Some (r, s)
          /\ (r = 0 <-> pending s <> None) /\ conf s = None)
    /\ (exists r s,
          createProducerMTLS lib jbrokers jcaCertPath jclientCertPath
            jclientKeyPath init = Some (r, s)
          /\ (r = 0 <-> pending s <> None)
          /\ (r <> 0 -> conf s = None)).
Proof.
  intros lib jbrokers jgroupId jca jcert jkey joff Hexc.
  assert (Hinit : in_state false false init) by (split; reflexivity).
  assert (H1 : ends_well false false false
                 (createConsumer lib jbrokers jgroupId))
    by (unfold createConsumer; ends_well_tac).
  assert (H2 : ends_well false false false
                 (createConsumerMTLS lib jbrokers jgroupId jca jcert jkey
                    joff))
    by (unfold createConsumerMTLS; ends_well_tac).
  assert (H3 : ends_well true false false
                 (createProducerMTLS lib jbrokers jca jcert jkey))
    by (unfold createProducerMTLS; ends_well_tac).
  destruct (H1 init Hinit) as (r1 & s1 & E1 & Hr1 & [Hc1 | [Hl1 _]]);
    [|discriminate Hl1].
  destruct (H2 init Hinit) as (r2 & s2 & E2 & Hr2 & [Hc2 | [Hl2 _]]);
    [|discriminate Hl2].
  destruct (H3 init Hinit) as (r3 & s3 & E3 & Hr3 & Hc3).
  split; [|split].
  - exists r1, s1. auto.
  - exists r2, s2. auto.
  - exists r3, s3. split; [exact E3|]. split; [exact Hr3|].
    intros Hr. destruct Hc3 as [Hc3 | [_ Hz]]; [exact Hc3|contradiction].
Qed.

Lemma creation_gives_handle_or_exception_witness :
  (exists r s,
     createConsumer lib_new_fails (Some "broker:9092") (Some "chat-group")
       init = Some (r, s)
     /\ (r = 0 <-> pending s <> None) /\ conf s = None)
  /\ (exists r s,
        createConsumerMTLS lib_new_fails (Some "broker:9093")
          (Some "chat-group") (Some "/data/ca.pem")
          (Some "/data/client.pem") (Some "/data/client.key") None init =
          Some (r, s)
        /\ (r = 0 <-> pending s <> None) /\ conf s = None)
  /\ (exists r s,
        createProducerMTLS lib_new_fails (Some "broker:9093")
          (Some "/data/ca.pem") (Some "/data/client.pem")
          (Some "/data/client.key") init = Some (r, s)
        /\ (r = 0 <-> pending s <> None)
        /\ (r <> 0 -> conf s = None)).
Proof.
  pose proof (creation_gives_handle_or_exception lib_new_fails
                (Some "broker:9093") (Some "chat-group")
                (Some "/data/ca.pem") (Some "/data/client.pem")
                (Some "/data/client.key") None eq_refl) as (_ & H2 & H3).
  pose proof (creation_gives_handle_or_exception lib_new_fails
                (Some "broker:9092") (Some "chat-group")
                None None None None eq_refl) as (H1 & _ & _).
  exact (conj H1 (conj H2 H3)).
Defined.

(** X13. No native leaks a JNI buffer or gives back one it did not
    get.  Whenever one of the creations, [subscribe] or one of the two
    byte sends returns, on any path and whatever the JVM and the
    library answered, the strings and arrays given back with
    [ReleaseStringUTFChars] and [ReleaseByteArrayElements] are, up to
    order, exactly the ones the JVM had handed out. *)
Theorem jni_buffers_are_given_back :
  forall (lib : Lib),
    (forall jbrokers jgroupId r s,
       createConsumer lib jbrokers jgroupId init = Some (r, s) ->
       balanced lib s)
    /\ (forall jbrokers jgroupId jcaCertPath jclientCertPath jclientKeyPath
               joffsetStrategy r s,
          createConsumerMTLS lib jbrokers jgroupId jcaCertPath
            jclientCertPath jclientKeyPath joffsetStrategy init =
            Some (r, s) ->
          balanced lib s)
    /\ (forall jbrokers jcaCertPath jclientCertPath jclientKeyPath r s,
          createProducerMTLS lib jbrokers jcaCertPath jclientCertPath
            jclientKeyPath init = Some (r, s) ->
          balanced lib s)
    /\ (forall consumerPtr jtopic joffsetStrategy r s,
          subscribe lib consumerPtr jtopic joffsetStrategy init =
            Some (r, s) ->
          balanced lib s)
    /\ (forall fuel producerPtr jtopic jkey jvalue r s,
          produceMessageBytes lib fuel producerPtr jtopic jkey jvalue init =
            Some (r, s) ->
          balanced lib s)
    /\ (forall fuel producerPtr jtopic jpartition jkey jvalue r s,
          produceMessageBytesToPartition lib fuel producerPtr jtopic
            jpartition jkey jvalue init = Some (r, s) ->
          balanced lib s).
Proof.
  intros lib.
  assert (Hinit : in_bal lib [] init) by apply Permutation_refl.
  assert (Hend : forall (A : Type) (m : M A) (r : A) (s : jni_state),
            keeps_bal lib [] m -> m init = Some (r, s) -> balanced lib s).
  { intros A m r s Hm E. pose proof (Hm init r s Hinit E) as H.
    unfold in_bal in H. rewrite app_nil_r in H. exact H. }
  repeat split; intros; eapply Hend; try eassumption.
  - unfold createConsumer; keeps_bal_tac.
  - unfold createConsumerMTLS; keeps_bal_tac.
  - unfold createProducerMTLS; keeps_bal_tac.
  - unfold subscribe; keeps_bal_tac.
  - unfold produceMessageBytes; keeps_bal_tac.
  - unfold produceMessageBytesToPartition; keeps_bal_tac.
Qed.

Lemma jni_buffers_are_given_back_witness :
  exists s,
    produceMessageBytes lib_delivery_failed 5 7 (Some "chat")
      (Some [Byte.x6b]) (Some [Byte.x78]) init = Some (None, s)
    /\ balanced lib_delivery_failed s.
Proof.
  pose proof (jni_buffers_are_given_back lib_delivery_failed)
    as (_ & _ & _ & _ & H & _).
  eexists. split; [vm_compute; reflexivity|].
  apply (H 5%nat 7 (Some "chat") (Some [Byte.x6b]) (Some [Byte.x78]) None).
  vm_compute. reflexivity.
Defined.

(** ** Running a creation step by step *)

Lemma GetStringUTFChars_run (lib : Lib) (str : string) (s : jni_state) :
  GetStringUTFChars_ok lib str = true ->
  jni_GetStringUTFChars lib str s =
    Some (Some str,
          {| trace := trace s ++ [GetStringUTFChars_ev str];
             pending := pending s; conf := conf s |}).
Proof.
  intros H. unfold jni_GetStringUTFChars, bind, call, ret. cbn.
  now rewrite H.
Qed.

Lemma offset_strategy_run (lib : Lib) (joffsetStrategy : jstring)
    (s : jni_state) :
  match joffsetStrategy with
  | Some j => jni_GetStringUTFChars lib j
  | None => ret (Some "latest")
  end s =
    Some (offset_strategy_cstr lib joffsetStrategy,
          {| trace := trace s ++ wrapper_ctor_calls joffsetStrategy;
             pending := pending s; conf := conf s |}).
Proof.
  destruct joffsetStrategy as [j|]; cbn.
  - reflexivity.
  - destruct s. unfold ret. cbn. now rewrite app_nil_r.
Qed.

Lemma offset_strategy_release_run (lib : Lib) (joffsetStrategy : jstring)
    (s : jni_state) :
  match offset_strategy_cstr lib joffsetStrategy, joffsetStrategy with
  | Some _, Some j => jni_ReleaseStringUTFChars j
  | _, _ => ret tt
  end s =
    Some (tt,
          {| trace := trace s ++ wrapper_dtor_calls lib joffsetStrategy;
             pending := pending s; conf := conf s |}).
Proof.
  unfold offset_strategy_cstr, wrapper_dtor_calls, wrapper_cstr.
  destruct joffsetStrategy as [j|]; cbn.
  - destruct (GetStringUTFChars_ok lib j); cbn; [reflexivity|].
    destruct s. unfold ret. cbn. now rewrite app_nil_r.
  - destruct s. unfold ret. cbn. now rewrite app_nil_r.
Qed.

Lemma conf_set_run (lib : Lib) (name : string) (value : option string)
    (s : jni_state) :
  conf_set lib name value s =
    Some (rd_kafka_conf_set lib name value,
          {| trace := trace s ++ [conf_set_ev name value];
             pending := pending s;
             conf := if conf_ok (fst (rd_kafka_conf_set lib name value))
                     then option_map (conf_add name value) (conf s)
                     else conf s |}).
Proof.
  unfold conf_set, bind, call, get_conf, when, set_conf, ret. cbn.
  destruct (conf_ok _); reflexivity.
Qed.

Lemma bind_bind {A B C : Type} (m : M A) (k : A -> M B) (k' : B -> M C)
    (s : jni_state) :
  bind (bind m k) k' s = bind m (fun a => bind (k a) k') s.
Proof.
  unfold bind. destruct (m s) as [[a s1]|]; reflexivity.
Qed.

Lemma call_run (e : event) (s : jni_state) :
  call e s =
    Some (tt, {| trace := trace s ++ [e]; pending := pending s;
                 conf := conf s |}).
Proof.
  reflexivity.
Qed.

(** Takes the equation of the tested properties apart. *)
Ltac split_props :=
  repeat match goal with
         | H : _ :: _ = _ :: _ |- _ => injection H; clear H; intros
         | H : [] = _ ++ _ :: _ |- _ =>
             apply app_cons_not_nil in H; contradiction
         end;
  subst;
  repeat match goal with
         | H : Forall _ (_ :: _) |- _ =>
             let Ha := fresh "Ha" in
             apply Forall_cons_iff in H; destruct H as [Ha H];
             unfold accepted in Ha; cbn [fst snd] in Ha
         end.

(** Reduces the projections of the state a step has built. *)
Ltac run_step :=
  cbv beta iota delta [trace pending conf].

(** One [rd_kafka_conf_set] whose answer [Ha] tells. *)
Ltac conf_set_step Ha :=
  erewrite bind_run by apply conf_set_run;
  run_step; rewrite Ha; cbv beta iota delta [negb].

(** X15. Fail fast on the seven properties of [createConsumerMTLS]:
    with its five mandatory strings handed out, when the library accepts
    the properties [pre] and refuses the next one, the call returns 0
    with the library's message pending; the last [rd_kafka_conf_set]
    made is the refused one and no handle is asked for; every string
    fetched is released and the configuration object destroyed, both
    before the exception is raised.  The policy string is the one given,
    "latest" for a null reference, and null when the JVM does not hand
    it out. *)
Theorem createConsumerMTLS_fail_fast (lib : Lib)
    (jbrokers jgroupId jcaCertPath jclientCertPath jclientKeyPath : string)
    (joffsetStrategy : jstring)
    (pre post : list (string * option string)) (name : string)
    (value : option string) :
  FindClass lib "java/lang/RuntimeException" = true ->
  Forall (fun str => GetStringUTFChars_ok lib str = true)
    [jbrokers; jgroupId; jcaCertPath; jclientCertPath; jclientKeyPath] ->
  consumer_checked_props jbrokers jgroupId jcaCertPath jclientCertPath
    jclientKeyPath (offset_strategy_cstr lib joffsetStrategy) =
    pre ++ (name, value) :: post ->
  Forall (accepted lib) pre ->
  conf_ok (fst (rd_kafka_conf_set lib name value)) = false ->
  createConsumerMTLS lib (Some jbrokers) (Some jgroupId) (Some jcaCertPath)
    (Some jclientCertPath) (Some jclientKeyPath) joffsetStrategy init =
    Some (0,
          {| trace :=
               [GetStringUTFChars_ev jbrokers;
                GetStringUTFChars_ev jgroupId;
                GetStringUTFChars_ev jcaCertPath;
                GetStringUTFChars_ev jclientCertPath;
                GetStringUTFChars_ev jclientKeyPath]
                 ++ wrapper_ctor_calls joffsetStrategy
                 ++ [conf_new_ev]
                 ++ map (fun nv => conf_set_ev (fst nv) (snd nv))
                      (pre ++ [(name, value)])
                 ++ [ReleaseStringUTFChars_ev jbrokers;
                     ReleaseStringUTFChars_ev jgroupId;
                     ReleaseStringUTFChars_ev jcaCertPath;
                     ReleaseStringUTFChars_ev jclientCertPath;
                     ReleaseStringUTFChars_ev jclientKeyPath]
                 ++ wrapper_dtor_calls lib joffsetStrategy
                 ++ [conf_destroy_ev;
                     ThrowNew_ev (snd (rd_kafka_conf_set lib name value))];
             pending := Some (snd (rd_kafka_conf_set lib name value));
             conf := None |}).
Proof.
  intros Hexc Hget Hsplit Hpre Hrej.
  repeat match goal with
         | H : Forall _ (_ :: _) |- _ =>
             let Hg := fresh "Hg" in
             apply Forall_cons_iff in H; destruct H as [Hg H]
         end.
  unfold consumer_checked_props in Hsplit.
  unfold createConsumerMTLS.
  do 5 (erewrite bind_run by (apply GetStringUTFChars_run; assumption)).
  erewrite bind_run by apply offset_strategy_run.
  run_step.
  erewrite bind_run by reflexivity.
  run_step.
  destruct pre as [|p1 [|p2 [|p3 [|p4 [|p5 [|p6 [|p7 pre]]]]]]];
    cbn [app] in Hsplit; split_props.
  all: repeat match goal with
            | Ha : conf_ok (fst (rd_kafka_conf_set ?l ?n ?v)) = _
              |- bind (conf_set ?l ?n ?v) _ _ = _ => conf_set_step Ha
            end.
  all: repeat (first [ erewrite bind_run by apply call_run
                     | erewrite bind_run by apply offset_strategy_release_run
                     | rewrite bind_bind ];
               run_step).
  all: unfold conf_destroy, throwJavaException; rewrite Hexc;
    unfold bind, call, set_conf, set_pending, ret; cbn.
  all: rewrite <- ?app_assoc; reflexivity.
Qed.

Lemma createConsumerMTLS_fail_fast_witness :
  createConsumerMTLS lib_offset_reset_rejected (Some "broker:9093")
    (Some "chat-group") (Some "/data/ca.pem") (Some "/data/client.pem")
    (Some "/data/client.key") (Some "newest") init =
    Some (0,
          {| trace :=
               [GetStringUTFChars_ev "broker:9093";
                GetStringUTFChars_ev "chat-group";
                GetStringUTFChars_ev "/data/ca.pem";
                GetStringUTFChars_ev "/data/client.pem";
                GetStringUTFChars_ev "/data/client.key";
                GetStringUTFChars_ev "newest";
                conf_new_ev;
                conf_set_ev "bootstrap.servers" (Some "broker:9093");
                conf_set_ev "group.id" (Some "chat-group");
                conf_set_ev "security.protocol" (Some "SSL");
                conf_set_ev "ssl.ca.location" (Some "/data/ca.pem");
                conf_set_ev "ssl.certificate.location"
                  (Some "/data/client.pem");
                conf_set_ev "ssl.key.location" (Some "/data/client.key");
                conf_set_ev "auto.offset.reset" (Some "newest");
                ReleaseStringUTFChars_ev "broker:9093";
                ReleaseStringUTFChars_ev "chat-group";
                ReleaseStringUTFChars_ev "/data/ca.pem";
                ReleaseStringUTFChars_ev "/data/client.pem";
                ReleaseStringUTFChars_ev "/data/client.key";
                ReleaseStringUTFChars_ev "newest";
                conf_destroy_ev;
                ThrowNew_ev
                  "No such configuration property: auto.offset.reset"];
             pending :=
               Some "No such configuration property: auto.offset.reset";
             conf := None |}).
Proof.
  apply (createConsumerMTLS_fail_fast lib_offset_reset_rejected
           "broker:9093" "chat-group" "/data/ca.pem" "/data/client.pem"
           "/data/client.key" (Some "newest")
           [("bootstrap.servers", Some "broker:9093");
            ("group.id", Some "chat-group");
            ("security.protocol", Some "SSL");
            ("ssl.ca.location", Some "/data/ca.pem");
            ("ssl.certificate.location", Some "/data/client.pem");
            ("ssl.key.location", Some "/data/client.key")]
           [] "auto.offset.reset" (Some "newest")).
  - reflexivity.
  - repeat constructor.
  - reflexivity.
  - repeat constructor.
  - reflexivity.
Defined.

(** X16. Fail fast on the two properties of [createConsumer]: when the
    library refuses the brokers list, the group id is never set; when it
    refuses either, the call returns 0 with the library's message
    pending, no handle is asked for, and both strings are released and
    the configuration object destroyed before the exception is raised. *)
Theorem createConsumer_fail_fast (lib : Lib) (jbrokers jgroupId : string)
    (pre post : list (string * option string)) (name : string)
    (value : option string) :
  FindClass lib "java/lang/RuntimeException" = true ->
  GetStringUTFChars_ok lib jbrokers = true ->
  GetStringUTFChars_ok lib jgroupId = true ->
  [("bootstrap.servers", Some jbrokers); ("group.id", Some jgroupId)] =
    pre ++ (name, value) :: post ->
  Forall (accepted lib) pre ->
  conf_ok (fst (rd_kafka_conf_set lib name value)) = false ->
  createConsumer lib (Some jbrokers) (Some jgroupId) init =
    Some (0,
          {| trace :=
               [GetStringUTFChars_ev jbrokers;
                GetStringUTFChars_ev jgroupId;
                conf_new_ev]
                 ++ map (fun nv => conf_set_ev (fst nv) (snd nv))
                      (pre ++ [(name, value)])
                 ++ [ReleaseStringUTFChars_ev jbrokers;
                     ReleaseStringUTFChars_ev jgroupId;
                     conf_destroy_ev;
                     ThrowNew_ev (snd (rd_kafka_conf_set lib name value))];
             pending := Some (snd (rd_kafka_conf_set lib name value));
             conf := None |}).
Proof.
  intros Hexc Hg Hg0 Hsplit Hpre Hrej.
  unfold createConsumer.
  do 2 (erewrite bind_run by (apply GetStringUTFChars_run; assumption)).
  run_step.
  erewrite bind_run by reflexivity.
  run_step.
  destruct pre as [|p1 [|p2 pre]];
    cbn [app] in Hsplit; split_props.
  all: repeat match goal with
            | Ha : conf_ok (fst (rd_kafka_conf_set ?l ?n ?v)) = _
              |- bind (conf_set ?l ?n ?v) _ _ = _ => conf_set_step Ha
            end.
  all: unfold conf_destroy, throwJavaException; rewrite Hexc;
    unfold bind, call, set_conf, set_pending, ret, jni_ReleaseStringUTFChars;
    cbn.
  all: rewrite <- ?app_assoc; reflexivity.
Qed.

Lemma createConsumer_fail_fast_witness :
  createConsumer lib_group_rejected
    (Some "broker:9092") (Some "chat group") init =
    Some (0,
          {| trace :=
               [GetStringUTFChars_ev "broker:9092";
                GetStringUTFChars_ev "chat group";
                conf_new_ev;
                conf_set_ev "bootstrap.servers" (Some "broker:9092");
                conf_set_ev "group.id" (Some "chat group");
                ReleaseStringUTFChars_ev "broker:9092";
                ReleaseStringUTFChars_ev "chat group";
                conf_destroy_ev;
                ThrowNew_ev "No such configuration property: group.id"];
             pending := Some "No such configuration property: group.id";
             conf := None |}).
Proof.
  apply (createConsumer_fail_fast
           lib_group_rejected
           "broker:9092" "chat group"
           [("bootstrap.servers", Some "broker:9092")] []
           "group.id" (Some "chat group")).
  - reflexivity.
  - reflexivity.
  - reflexivity.
  - reflexivity.
  - repeat constructor.
  - reflexivity.
Defined.







(** ** The waiter's lock *)

Lemma polls_unlocked_app (t1 t2 : list event) :
  forall held,
    polls_unlocked held (t1 ++ t2) =
      polls_unlocked held t1 && polls_unlocked (lock_held held t1) t2.
Proof.
  induction t1 as [|e t1 IH]; intros held; cbn; [reflexivity|].
  destruct e; cbn; rewrite ?IH; try reflexivity.
  now rewrite andb_assoc.
Qed.

Lemma lock_held_app (t1 t2 : list event) :
  forall held,
    lock_held held (t1 ++ t2) = lock_held (lock_held held t1) t2.
Proof.
  induction t1 as [|e t1 IH]; intros held; cbn; [reflexivity|].
  destruct e; cbn; now rewrite ?IH.
Qed.

Section Locking.

Variable lib : Lib.

Lemma moves_lock_ret {A : Type} (a : A) (h : bool) :
  moves_lock (ret a) h h.
Proof.
  intros s a' s' Hs E. injection E as _ <-. exact Hs.
Qed.

Lemma moves_lock_bind {A B : Type} (m : M A) (k : A -> M B)
    (h h1 h2 : bool) :
  moves_lock m h h1 -> (forall a, moves_lock (k a) h1 h2) ->
  moves_lock (bind m k) h h2.
Proof.
  intros Hm Hk s b s' Hs E. unfold bind in E.
  destruct (m s) as [[a s1]|] eqn:Em; [|discriminate E].
  exact (Hk a s1 b s' (Hm s a s1 Hs Em) E).
Qed.

(** One call: a poll needs the lock free, [lock] takes it, [unlock]
    drops it, any other call leaves it alone. *)
Lemma moves_lock_call (e : event) (h : bool) :
  polls_unlocked h [e] = true -> moves_lock (call e) h (lock_held h [e]).
Proof.
  intros He s a s' [Hp Hh] E. injection E as _ <-. unfold in_lock. cbn.
  rewrite polls_unlocked_app, lock_held_app, Hp, Hh. now split.
Qed.

Lemma moves_lock_neutral (e : event) (h : bool) :
  lock_neutral e = true -> moves_lock (call e) h h.
Proof.
  intros He.
  replace h with (lock_held h [e]) at 2 by (destruct e; try discriminate He; reflexivity).
  apply moves_lock_call. destruct e; try discriminate He; reflexivity.
Qed.

Lemma moves_lock_set_pending (msg : string) (h : bool) :
  moves_lock (set_pending msg) h h.
Proof.
  intros s a s' Hs E. injection E as _ <-. exact Hs.
Qed.

Lemma moves_lock_throwJavaException (msg : string) (h : bool) :
  moves_lock (throwJavaException lib msg) h h.
Proof.
  unfold throwJavaException. destruct (FindClass lib _).
  - eapply moves_lock_bind; [now apply moves_lock_neutral|].
    intros _. apply moves_lock_set_pending.
  - apply moves_lock_ret.
Qed.

Lemma moves_lock_GetStringUTFChars (str : string) (h : bool) :
  moves_lock (jni_GetStringUTFChars lib str) h h.
Proof.
  eapply moves_lock_bind; [now apply moves_lock_neutral|].
  intros _. apply moves_lock_ret.
Qed.

Lemma moves_lock_GetByteArrayElements (a : bytes) (h : bool) :
  moves_lock (jni_GetByteArrayElements lib a) h h.
Proof.
  eapply moves_lock_bind; [now apply moves_lock_neutral|].
  intros _. apply moves_lock_ret.
Qed.

(** The loop takes the lock after each poll and drops it before the
    next one and before it ends. *)
Lemma moves_lock_block (producer : jlong) :
  forall (fuel n : nat) (state : DeliveryState),
    moves_lock (produceMessageBytes_block lib fuel producer n state)
      false false.
Proof.
  induction fuel as [|fuel IH]; intros n state; cbn.
  - intros s a s' _ E. discriminate E.
  - eapply moves_lock_bind; [now apply moves_lock_call|]. intros _.
    eapply moves_lock_bind; [now apply moves_lock_call|]. intros _.
    cbn [lock_held].
    destruct (done (serve_reports (rd_kafka_poll lib producer n) state)).
    + eapply moves_lock_bind; [now apply moves_lock_call|]. intros _.
      apply moves_lock_ret.
    + eapply moves_lock_bind; [now apply moves_lock_neutral|]. intros _.
      eapply moves_lock_bind; [now apply moves_lock_call|]. intros _.
      apply IH.
Qed.

Lemma moves_lock_block_to_partition (producer : jlong) (fuel n : nat)
    (state : DeliveryState) :
  moves_lock (produceMessageBytesToPartition_block lib fuel producer n state)
    false false.
Proof.
  intros s a s' Hs E. rewrite produceMessageBytesToPartition_block_eq in E.
  exact (moves_lock_block producer fuel n state s a s' Hs E).
Qed.

End Locking.

(** Follows the lock through a sequence of calls. *)
Ltac moves_lock_tac :=
  repeat match goal with
         | |- moves_lock (bind _ _) _ _ =>
             eapply moves_lock_bind; [|intros ?]
         | |- moves_lock (ret _) _ _ => apply moves_lock_ret
         | |- moves_lock (call _) _ _ =>
             apply moves_lock_neutral; reflexivity
         | |- moves_lock (jni_GetStringUTFChars _ _) _ _ =>
             apply moves_lock_GetStringUTFChars
         | |- moves_lock (jni_GetByteArrayElements _ _) _ _ =>
             apply moves_lock_GetByteArrayElements
         | |- moves_lock (jni_ReleaseStringUTFChars _) _ _ =>
             apply moves_lock_neutral; reflexivity
         | |- moves_lock (jni_ReleaseByteArrayElements _) _ _ =>
             apply moves_lock_neutral; reflexivity
         | |- moves_lock (throwJavaException _ _) _ _ =>
             apply moves_lock_throwJavaException
         | |- moves_lock (produceMessageBytes_block _ _ _ _ _) _ _ =>
             apply moves_lock_block
         | |- moves_lock (produceMessageBytesToPartition_block _ _ _ _ _)
                _ _ =>
             apply moves_lock_block_to_partition
         | |- moves_lock (match ?x with _ => _ end) _ _ => destruct x
         | |- moves_lock (if ?b then _ else _) _ _ => destruct b
         | |- moves_lock _ _ _ => progress cbv beta zeta
         end.

(** X18. The two byte sends never poll with the waiter's lock held and
    never return holding it.  The delivery callback, which runs inside
    [rd_kafka_poll], takes that lock: whenever a send returns, on any
    path, every [rd_kafka_poll] of its trace lies outside the
    [lock]/[unlock] pairs, and the last [lock] has its [unlock]. *)
Theorem sends_poll_with_the_lock_free :
  forall (lib : Lib) (fuel : nat) (producerPtr : jlong) (jtopic : jstring)
         (jpartition : jint) (jkey jvalue : jbyteArray),
    (forall r s,
       produceMessageBytes lib fuel producerPtr jtopic jkey jvalue init =
         Some (r, s) ->
       polls_unlocked false (trace s) = true
       /\ lock_held false (trace s) = false)
    /\ (forall r s,
          produceMessageBytesToPartition lib fuel producerPtr jtopic
            jpartition jkey jvalue init = Some (r, s) ->
          polls_unlocked false (trace s) = true
          /\ lock_held false (trace s) = false).
Proof.
  intros lib fuel producerPtr jtopic jpartition jkey jvalue.
  assert (Hinit : in_lock false init) by (split; reflexivity).
  split; intros r s E.
  - assert (H : moves_lock
                  (produceMessageBytes lib fuel producerPtr jtopic jkey
                     jvalue) false false)
      by (unfold produceMessageBytes; moves_lock_tac).
    exact (H init r s Hinit E).
  - assert (H : moves_lock
                  (produceMessageBytesToPartition lib fuel producerPtr jtopic
                     jpartition jkey jvalue) false false)
      by (unfold produceMessageBytesToPartition; moves_lock_tac).
    exact (H init r s Hinit E).
Qed.

Lemma sends_poll_with_the_lock_free_witness :
  exists r s,
    produceMessageBytesToPartition lib_ok 5 7 (Some "chat") 2
      (Some [Byte.x6b]) (Some [Byte.x78]) init = Some (r, s)
    /\ polls_unlocked false (trace s) = true
    /\ lock_held false (trace s) = false.
Proof.
  pose proof (sends_poll_with_the_lock_free lib_ok 5 7 (Some "chat") 2
                (Some [Byte.x6b]) (Some [Byte.x78])) as [_ H].
  eexists. eexists. split; [vm_compute; reflexivity|].
  apply (H (Some {| rm_partition := 3; rm_offset := 42 |})).
  vm_compute. reflexivity.
Defined.
